(** * dvbzap: configuration parsing, start-up sequence and signal handling

    A shallow embedding of [src/dvbzap.c] (function [main] from the
    configuration-file loop to the final [mumudvb_close], and the static
    function [SignalHandler]) together with the properties of the
    transport-stream specification that are decided by that file.

    Conventions.
    - C [int] values are [Z]; conversions that may wrap are written out
      ([to_int]).
    - C strings are [string]; [strtok] is modelled by the token it returns and
      the saved position (the remainder of the line).
    - Fixed-size arrays are lists of the declared length; an access outside
      the array is undefined behaviour and stops the run with [Fault].
    - Calls into other translation units ([log_message], [fopen], [open_fe],
      [tune_it], ...) are recorded as events in a trace; their results are
      read from an explicit environment.
    - Constants and functions that live in headers or other translation
      units are parameters, collected in the classes [Headers], [Readers]
      and [Extern]; the answers of the operating system and of the card are
      those of the class [Environment]. *)

From Stdlib Require Import ZArith String Ascii List Bool Lia.
From Stdlib Require Import DecimalString.
From stdpp Require Import base tactics option list.
Import ListNotations.

Local Open Scope string_scope.
Local Open Scope Z_scope.

(* ===================================================================== *)
(** ** The C library functions used by [main]                             *)
(* ===================================================================== *)

Module LibC.

Definition INT_MIN : Z := - 2 ^ 31.
Definition INT_MAX : Z := 2 ^ 31 - 1.
Definition LONG_MIN : Z := - 2 ^ 63.
Definition LONG_MAX : Z := 2 ^ 63 - 1.

(** Conversion of a [long] to [int]: reduction modulo [2^32] into the
    signed range. *)
Definition to_int (z : Z) : Z := (z + 2 ^ 31) mod 2 ^ 32 - 2 ^ 31.

Definition isspace (c : ascii) : bool :=
  let n := Z.of_nat (nat_of_ascii c) in
  (n =? 32) || ((9 <=? n) && (n <=? 13)).

Definition digit_val (c : ascii) : option Z :=
  let n := Z.of_nat (nat_of_ascii c) in
  if (48 <=? n) && (n <=? 57) then Some (n - 48) else None.

Fixpoint skip_space (s : string) : string :=
  match s with
  | String c s' => if isspace c then skip_space s' else s
  | EmptyString => EmptyString
  end.

(** The digits are accumulated as long as they last; the first character
    that is not a digit ends the number. *)
Fixpoint digits (acc : Z) (s : string) : Z :=
  match s with
  | String c s' =>
      match digit_val c with
      | Some d => digits (10 * acc + d) s'
      | None => acc
      end
  | EmptyString => acc
  end.

(** [strtol (s, NULL, 10)]: white space, an optional sign, decimal digits;
    the result saturates at the bounds of [long]. *)
Definition strtol (s : string) : Z :=
  let s1 := skip_space s in
  let '(neg, s2) :=
    match s1 with
    | String "-"%char r => (true, r)
    | String "+"%char r => (false, r)
    | _ => (false, s1)
    end in
  let v := digits 0 s2 in
  Z.max LONG_MIN (Z.min LONG_MAX (if neg then - v else v)).

(** [atoi (s)] is [(int) strtol (s, NULL, 10)]. *)
Definition atoi (s : string) : Z := to_int (strtol s).

Definition is_delim (delim : string) (c : ascii) : bool :=
  existsb (Ascii.eqb c) (list_ascii_of_string delim).

Fixpoint skip_delims (delim s : string) : string :=
  match s with
  | String c s' => if is_delim delim c then skip_delims delim s' else s
  | EmptyString => EmptyString
  end.

(** The token that starts at the head of [s], and the position saved for
    the next call: just after the delimiter that ended the token, or the
    end of the string. *)
Fixpoint span_token (delim s : string) : string * string :=
  match s with
  | String c s' =>
      if is_delim delim c then (EmptyString, s')
      else let '(tok, rest) := span_token delim s' in (String c tok, rest)
  | EmptyString => (EmptyString, EmptyString)
  end.

(** [strtok]: [strtok (str, delim)] is [strtok delim str]; the call
    [strtok (NULL, delim)] is [strtok delim saved] with the position saved
    by the previous call.  [None] is the [NULL] result. *)
Definition strtok (delim s : string) : option string * string :=
  match skip_delims delim s with
  | EmptyString => (None, EmptyString)
  | t => let '(tok, rest) := span_token delim t in (Some tok, rest)
  end.

(** [strlen] of the buffer once [strtok] has cut it after its first
    token: the leading delimiters and the token remain. *)
Definition strlen_after_strtok (delim s : string) : Z :=
  let t := skip_delims delim s in
  Z.of_nat (String.length s) - Z.of_nat (String.length t)
  + Z.of_nat (String.length (fst (span_token delim t))).

(** [strstr (s, "=") != NULL] *)
Fixpoint has_char (c : ascii) (s : string) : bool :=
  match s with
  | String d s' => Ascii.eqb c d || has_char c s'
  | EmptyString => false
  end.

(** The successive results of [strtok (NULL, delim)] from a saved
    position, until [NULL]. *)
Fixpoint tokens_fuel (n : nat) (delim s : string) : list string :=
  match n with
  | O => []
  | S n' =>
      match strtok delim s with
      | (Some tok, rest) => tok :: tokens_fuel n' delim rest
      | (None, _) => []
      end
  end.

Definition tokens (delim s : string) : list string :=
  tokens_fuel (S (String.length s)) delim s.

(** [strncpy (dst, src, n)] followed by [dst[n] = 0]. *)
Fixpoint strncpy (n : nat) (s : string) : string :=
  match n, s with
  | S n', String c s' => String c (strncpy n' s')
  | _, _ => EmptyString
  end.

(** [sprintf (buf, "%d", z)] *)
Definition itoa (z : Z) : string := NilZero.string_of_int (Z.to_int z).

End LibC.

(* ===================================================================== *)
(** ** Constants and build options from the headers                       *)
(* ===================================================================== *)

(** [mumudvb.h], [errors.h], [config.h] and the other headers are not part
    of this translation unit: their constants are parameters of the
    development.  The path macros are [sprintf] formats with the card and the
    tuner as arguments. *)
Class Headers := {
  MAX_CHANNELS : Z;
  MAX_PIDS : Z;
  MAX_NAME_LEN : Z;
  DEFAULT_PATH_LEN : Z;
  ERROR_CONF : Z;
  ERROR_CONF_FILE : Z;
  ERROR_TOO_CHANNELS : Z;
  ERROR_TUNE : Z;
  ERROR_CREATE_FILE : Z;
  NOT_READY : Z;
  ALMOST_READY : Z;
  F_USER : Z;
  PSI_TABLES_FILTERING_NONE : Z;
  PSI_TABLES_FILTERING_PAT_ONLY : Z;
  PSI_TABLES_FILTERING_PAT_CAT_ONLY : Z;
  OPTION_UNDEFINED : Z;
  OPTION_ON : Z;
  OPTION_OFF : Z;
  AUTOCONF_MODE_NONE : Z;
  LOGGING_FILE : Z;
  DEFAULT_TS_BUFFER_SIZE : Z;
  DEFAULT_THREAD_BUFFER_SIZE : Z;
  ALARM_TIME_TIMEOUT_NO_DIFF : Z;
  CONFIG_FILE_SEPARATOR : string;
  PIDFILE_PATH : string;
  STREAMED_LIST_PATH : Z -> Z -> string;
  NOT_STREAMED_LIST_PATH : Z -> Z -> string;
  CAM_INFO_LIST_PATH : Z -> Z -> string;
  ENABLE_CAM_SUPPORT : bool;
  ENABLE_SCAM_SUPPORT : bool
}.

(** Signal numbers of [<signal.h>] on Linux (x86 and ARM numbering). *)
Definition SIGHUP : Z := 1.
Definition SIGUSR1 : Z := 10.
Definition SIGUSR2 : Z := 12.
Definition SIGPIPE : Z := 13.
Definition SIGALRM : Z := 14.

(* ===================================================================== *)
(** ** Events                                                             *)
(* ===================================================================== *)

Inductive msg_level := MSG_ERROR | MSG_WARN | MSG_INFO | MSG_DEBUG | MSG_FLOOD.

(** What [main] and [SignalHandler] do to the outside world, in program
    order.  [EvLog] keeps the level and the format string of
    [log_message]. *)
Inductive event :=
| EvLog (lvl : msg_level) (fmt : string)
| EvFopen (path mode : string) (ok : bool)
| EvFclose (path : string)
| EvFprintfPid (path : string)
| EvSignal (signum : Z)          (* signal (signum, SignalHandler) *)
| EvSignalIgn (signum : Z)       (* signal (signum, SIG_IGN) *)
| EvAlarm (seconds : Z)
| EvOpenFe (path : string) (tuner : Z) (is_file : bool)
| EvTuneIt
| EvCloseCardFd
| EvSetInterrupted (value : Z)
| EvMumudvbClose (interrupted_arg : Z).

(** Undefined behaviour that the embedding makes explicit. *)
Inductive fault :=
| ChannelOutOfBounds (index : Z)   (* chan_p.channels[index] outside the array *)
| PidOutOfBounds (index : Z)       (* pid_i.pids[index] outside the array *)
| NullString                       (* a NULL token handed to atoi, strcmp, strlen, strncpy *)
| NumberOverflow (value : Z).      (* sprintf (number, "%d", value) past the end of number[10] *)

(* ===================================================================== *)
(** ** Data model                                                         *)
(* ===================================================================== *)

(** One entry of [chan_p.channels]; the fields are those [main] reads or
    writes.  [MU_F (x)] is the companion flag [x_f]. *)
Record mumudvb_channel_t := {
  channel_ready : Z;
  service_id : Z;
  pid_f : Z;                (* pid_i.pid_f *)
  pids : list Z;            (* pid_i.pids[MAX_PIDS] *)
  num_pids : Z;             (* pid_i.num_pids *)
  pmt_pid : Z;              (* pid_i.pmt_pid *)
  pmt_pid_f : Z;
  pmt_rewrite : Z;
  name : string;
  name_f : Z;
  user_name : string
}.

Record mumu_chan_p_t := {
  channels : list mumudvb_channel_t;     (* channels[MAX_CHANNELS] *)
  number_of_channels : Z;
  psi_tables_filtering : Z;
  filter_transport_error : Z;
  check_cc : Z;
  t2mi_pid : Z;
  t2mi_plp : Z
}.

Record card_buffer_t := {
  dvr_buffer_size : Z;
  threaded_read : Z;
  max_thread_buffer_size : Z
}.

Record tune_p_t := {
  card : Z;
  tuner : Z;
  tuning_timeout : Z;
  read_file_path : string;
  card_dev_path : string;
  card_tuned : Z
}.

Record auto_p_t := { autoconfiguration : Z }.
Record sap_p_t := { sap : Z }.
Record cam_p_t := { cam_support : Z; filename_cam_info : string }.
Record scam_parameters_t := { scam_support : Z }.
Record unicast_parameters_t := {
  unicast : Z;
  portOut_str : option string;
  portOut : Z
}.
Record multi_p_t := { multicast : Z; ttl : Z; rtp_header : Z }.
Record rewrite_parameters_t := { rewrite_pat : Z; rewrite_sdt : Z }.
Record stats_infos_t := { show_buffer_stats : Z }.
Record log_params_t := {
  log_type : Z;
  log_file_path : option string;
  log_file : bool                      (* log_params.log_file != NULL *)
}.

(** The variables of [main], the globals of the file and the [interrupted]
    flag behind [set_interrupted] / [get_interrupted], with the trace of
    events so far. *)
Record mstate := {
  tune_p : tune_p_t;
  auto_p : auto_p_t;
  sap_p : sap_p_t;
  cam_p : cam_p_t;
  scam_vars : scam_parameters_t;
  unic_p : unicast_parameters_t;
  multi_p : multi_p_t;
  rewrite_vars : rewrite_parameters_t;
  stats_infos : stats_infos_t;
  log_params : log_params_t;
  chan_p : mumu_chan_p_t;
  card_buffer : card_buffer_t;
  ichan : Z;
  curr_channel_old : Z;
  server_id : Z;
  filename_pid : string;
  filename_channels_streamed : string;
  filename_channels_not_streamed : string;
  timeout_no_diff : Z;
  tuning_no_diff : Z;
  dont_send_scrambled : Z;
  write_streamed_channels : Z;
  received_signal : Z;
  card_tuned_ptr : bool;        (* int *card_tuned != NULL; it designates tune_p.card_tuned *)
  interrupted : Z;
  no_daemon : Z;
  iRet : Z;
  trace : list event
}.

(** Field updates: [with_f v r] is [r] with field [f] replaced by [v]. *)

Definition with_channel_ready (v : Z) (r : mumudvb_channel_t) : mumudvb_channel_t :=
  match r with Build_mumudvb_channel_t _ x1 x2 x3 x4 x5 x6 x7 x8 x9 x10 => Build_mumudvb_channel_t v x1 x2 x3 x4 x5 x6 x7 x8 x9 x10 end.

Definition with_service_id (v : Z) (r : mumudvb_channel_t) : mumudvb_channel_t :=
  match r with Build_mumudvb_channel_t x0 _ x2 x3 x4 x5 x6 x7 x8 x9 x10 => Build_mumudvb_channel_t x0 v x2 x3 x4 x5 x6 x7 x8 x9 x10 end.

Definition with_pid_f (v : Z) (r : mumudvb_channel_t) : mumudvb_channel_t :=
  match r with Build_mumudvb_channel_t x0 x1 _ x3 x4 x5 x6 x7 x8 x9 x10 => Build_mumudvb_channel_t x0 x1 v x3 x4 x5 x6 x7 x8 x9 x10 end.

Definition with_pids (v : list Z) (r : mumudvb_channel_t) : mumudvb_channel_t :=
  match r with Build_mumudvb_channel_t x0 x1 x2 _ x4 x5 x6 x7 x8 x9 x10 => Build_mumudvb_channel_t x0 x1 x2 v x4 x5 x6 x7 x8 x9 x10 end.

Definition with_num_pids (v : Z) (r : mumudvb_channel_t) : mumudvb_channel_t :=
  match r with Build_mumudvb_channel_t x0 x1 x2 x3 _ x5 x6 x7 x8 x9 x10 => Build_mumudvb_channel_t x0 x1 x2 x3 v x5 x6 x7 x8 x9 x10 end.

Definition with_pmt_pid (v : Z) (r : mumudvb_channel_t) : mumudvb_channel_t :=
  match r with Build_mumudvb_channel_t x0 x1 x2 x3 x4 _ x6 x7 x8 x9 x10 => Build_mumudvb_channel_t x0 x1 x2 x3 x4 v x6 x7 x8 x9 x10 end.

Definition with_pmt_pid_f (v : Z) (r : mumudvb_channel_t) : mumudvb_channel_t :=
  match r with Build_mumudvb_channel_t x0 x1 x2 x3 x4 x5 _ x7 x8 x9 x10 => Build_mumudvb_channel_t x0 x1 x2 x3 x4 x5 v x7 x8 x9 x10 end.

Definition with_pmt_rewrite (v : Z) (r : mumudvb_channel_t) : mumudvb_channel_t :=
  match r with Build_mumudvb_channel_t x0 x1 x2 x3 x4 x5 x6 _ x8 x9 x10 => Build_mumudvb_channel_t x0 x1 x2 x3 x4 x5 x6 v x8 x9 x10 end.

Definition with_name (v : string) (r : mumudvb_channel_t) : mumudvb_channel_t :=
  match r with Build_mumudvb_channel_t x0 x1 x2 x3 x4 x5 x6 x7 _ x9 x10 => Build_mumudvb_channel_t x0 x1 x2 x3 x4 x5 x6 x7 v x9 x10 end.

Definition with_name_f (v : Z) (r : mumudvb_channel_t) : mumudvb_channel_t :=
  match r with Build_mumudvb_channel_t x0 x1 x2 x3 x4 x5 x6 x7 x8 _ x10 => Build_mumudvb_channel_t x0 x1 x2 x3 x4 x5 x6 x7 x8 v x10 end.

Definition with_user_name (v : string) (r : mumudvb_channel_t) : mumudvb_channel_t :=
  match r with Build_mumudvb_channel_t x0 x1 x2 x3 x4 x5 x6 x7 x8 x9 _ => Build_mumudvb_channel_t x0 x1 x2 x3 x4 x5 x6 x7 x8 x9 v end.

Definition with_channels (v : list mumudvb_channel_t) (r : mumu_chan_p_t) : mumu_chan_p_t :=
  match r with Build_mumu_chan_p_t _ x1 x2 x3 x4 x5 x6 => Build_mumu_chan_p_t v x1 x2 x3 x4 x5 x6 end.

Definition with_number_of_channels (v : Z) (r : mumu_chan_p_t) : mumu_chan_p_t :=
  match r with Build_mumu_chan_p_t x0 _ x2 x3 x4 x5 x6 => Build_mumu_chan_p_t x0 v x2 x3 x4 x5 x6 end.

Definition with_psi_tables_filtering (v : Z) (r : mumu_chan_p_t) : mumu_chan_p_t :=
  match r with Build_mumu_chan_p_t x0 x1 _ x3 x4 x5 x6 => Build_mumu_chan_p_t x0 x1 v x3 x4 x5 x6 end.

Definition with_filter_transport_error (v : Z) (r : mumu_chan_p_t) : mumu_chan_p_t :=
  match r with Build_mumu_chan_p_t x0 x1 x2 _ x4 x5 x6 => Build_mumu_chan_p_t x0 x1 x2 v x4 x5 x6 end.

Definition with_check_cc (v : Z) (r : mumu_chan_p_t) : mumu_chan_p_t :=
  match r with Build_mumu_chan_p_t x0 x1 x2 x3 _ x5 x6 => Build_mumu_chan_p_t x0 x1 x2 x3 v x5 x6 end.

Definition with_t2mi_pid (v : Z) (r : mumu_chan_p_t) : mumu_chan_p_t :=
  match r with Build_mumu_chan_p_t x0 x1 x2 x3 x4 _ x6 => Build_mumu_chan_p_t x0 x1 x2 x3 x4 v x6 end.

Definition with_t2mi_plp (v : Z) (r : mumu_chan_p_t) : mumu_chan_p_t :=
  match r with Build_mumu_chan_p_t x0 x1 x2 x3 x4 x5 _ => Build_mumu_chan_p_t x0 x1 x2 x3 x4 x5 v end.

Definition with_dvr_buffer_size (v : Z) (r : card_buffer_t) : card_buffer_t :=
  match r with Build_card_buffer_t _ x1 x2 => Build_card_buffer_t v x1 x2 end.

Definition with_threaded_read (v : Z) (r : card_buffer_t) : card_buffer_t :=
  match r with Build_card_buffer_t x0 _ x2 => Build_card_buffer_t x0 v x2 end.

Definition with_max_thread_buffer_size (v : Z) (r : card_buffer_t) : card_buffer_t :=
  match r with Build_card_buffer_t x0 x1 _ => Build_card_buffer_t x0 x1 v end.

Definition with_card (v : Z) (r : tune_p_t) : tune_p_t :=
  match r with Build_tune_p_t _ x1 x2 x3 x4 x5 => Build_tune_p_t v x1 x2 x3 x4 x5 end.

Definition with_tuner (v : Z) (r : tune_p_t) : tune_p_t :=
  match r with Build_tune_p_t x0 _ x2 x3 x4 x5 => Build_tune_p_t x0 v x2 x3 x4 x5 end.

Definition with_tuning_timeout (v : Z) (r : tune_p_t) : tune_p_t :=
  match r with Build_tune_p_t x0 x1 _ x3 x4 x5 => Build_tune_p_t x0 x1 v x3 x4 x5 end.

Definition with_read_file_path (v : string) (r : tune_p_t) : tune_p_t :=
  match r with Build_tune_p_t x0 x1 x2 _ x4 x5 => Build_tune_p_t x0 x1 x2 v x4 x5 end.

Definition with_card_dev_path (v : string) (r : tune_p_t) : tune_p_t :=
  match r with Build_tune_p_t x0 x1 x2 x3 _ x5 => Build_tune_p_t x0 x1 x2 x3 v x5 end.

Definition with_card_tuned (v : Z) (r : tune_p_t) : tune_p_t :=
  match r with Build_tune_p_t x0 x1 x2 x3 x4 _ => Build_tune_p_t x0 x1 x2 x3 x4 v end.

Definition with_cam_support (v : Z) (r : cam_p_t) : cam_p_t :=
  match r with Build_cam_p_t _ x1 => Build_cam_p_t v x1 end.

Definition with_filename_cam_info (v : string) (r : cam_p_t) : cam_p_t :=
  match r with Build_cam_p_t x0 _ => Build_cam_p_t x0 v end.

Definition with_unicast (v : Z) (r : unicast_parameters_t) : unicast_parameters_t :=
  match r with Build_unicast_parameters_t _ x1 x2 => Build_unicast_parameters_t v x1 x2 end.

Definition with_portOut_str (v : option string) (r : unicast_parameters_t) : unicast_parameters_t :=
  match r with Build_unicast_parameters_t x0 _ x2 => Build_unicast_parameters_t x0 v x2 end.

Definition with_portOut (v : Z) (r : unicast_parameters_t) : unicast_parameters_t :=
  match r with Build_unicast_parameters_t x0 x1 _ => Build_unicast_parameters_t x0 x1 v end.

Definition with_multicast (v : Z) (r : multi_p_t) : multi_p_t :=
  match r with Build_multi_p_t _ x1 x2 => Build_multi_p_t v x1 x2 end.

Definition with_ttl (v : Z) (r : multi_p_t) : multi_p_t :=
  match r with Build_multi_p_t x0 _ x2 => Build_multi_p_t x0 v x2 end.

Definition with_rtp_header (v : Z) (r : multi_p_t) : multi_p_t :=
  match r with Build_multi_p_t x0 x1 _ => Build_multi_p_t x0 x1 v end.

Definition with_rewrite_pat (v : Z) (r : rewrite_parameters_t) : rewrite_parameters_t :=
  match r with Build_rewrite_parameters_t _ x1 => Build_rewrite_parameters_t v x1 end.

Definition with_rewrite_sdt (v : Z) (r : rewrite_parameters_t) : rewrite_parameters_t :=
  match r with Build_rewrite_parameters_t x0 _ => Build_rewrite_parameters_t x0 v end.

Definition with_log_type (v : Z) (r : log_params_t) : log_params_t :=
  match r with Build_log_params_t _ x1 x2 => Build_log_params_t v x1 x2 end.

Definition with_log_file_path (v : option string) (r : log_params_t) : log_params_t :=
  match r with Build_log_params_t x0 _ x2 => Build_log_params_t x0 v x2 end.

Definition with_log_file (v : bool) (r : log_params_t) : log_params_t :=
  match r with Build_log_params_t x0 x1 _ => Build_log_params_t x0 x1 v end.

Definition with_tune_p (v : tune_p_t) (r : mstate) : mstate :=
  match r with Build_mstate _ x1 x2 x3 x4 x5 x6 x7 x8 x9 x10 x11 x12 x13 x14 x15 x16 x17 x18 x19 x20 x21 x22 x23 x24 x25 x26 x27 => Build_mstate v x1 x2 x3 x4 x5 x6 x7 x8 x9 x10 x11 x12 x13 x14 x15 x16 x17 x18 x19 x20 x21 x22 x23 x24 x25 x26 x27 end.

Definition with_auto_p (v : auto_p_t) (r : mstate) : mstate :=
  match r with Build_mstate x0 _ x2 x3 x4 x5 x6 x7 x8 x9 x10 x11 x12 x13 x14 x15 x16 x17 x18 x19 x20 x21 x22 x23 x24 x25 x26 x27 => Build_mstate x0 v x2 x3 x4 x5 x6 x7 x8 x9 x10 x11 x12 x13 x14 x15 x16 x17 x18 x19 x20 x21 x22 x23 x24 x25 x26 x27 end.

Definition with_sap_p (v : sap_p_t) (r : mstate) : mstate :=
  match r with Build_mstate x0 x1 _ x3 x4 x5 x6 x7 x8 x9 x10 x11 x12 x13 x14 x15 x16 x17 x18 x19 x20 x21 x22 x23 x24 x25 x26 x27 => Build_mstate x0 x1 v x3 x4 x5 x6 x7 x8 x9 x10 x11 x12 x13 x14 x15 x16 x17 x18 x19 x20 x21 x22 x23 x24 x25 x26 x27 end.

Definition with_cam_p (v : cam_p_t) (r : mstate) : mstate :=
  match r with Build_mstate x0 x1 x2 _ x4 x5 x6 x7 x8 x9 x10 x11 x12 x13 x14 x15 x16 x17 x18 x19 x20 x21 x22 x23 x24 x25 x26 x27 => Build_mstate x0 x1 x2 v x4 x5 x6 x7 x8 x9 x10 x11 x12 x13 x14 x15 x16 x17 x18 x19 x20 x21 x22 x23 x24 x25 x26 x27 end.

Definition with_scam_vars (v : scam_parameters_t) (r : mstate) : mstate :=
  match r with Build_mstate x0 x1 x2 x3 _ x5 x6 x7 x8 x9 x10 x11 x12 x13 x14 x15 x16 x17 x18 x19 x20 x21 x22 x23 x24 x25 x26 x27 => Build_mstate x0 x1 x2 x3 v x5 x6 x7 x8 x9 x10 x11 x12 x13 x14 x15 x16 x17 x18 x19 x20 x21 x22 x23 x24 x25 x26 x27 end.

Definition with_unic_p (v : unicast_parameters_t) (r : mstate) : mstate :=
  match r with Build_mstate x0 x1 x2 x3 x4 _ x6 x7 x8 x9 x10 x11 x12 x13 x14 x15 x16 x17 x18 x19 x20 x21 x22 x23 x24 x25 x26 x27 => Build_mstate x0 x1 x2 x3 x4 v x6 x7 x8 x9 x10 x11 x12 x13 x14 x15 x16 x17 x18 x19 x20 x21 x22 x23 x24 x25 x26 x27 end.

Definition with_multi_p (v : multi_p_t) (r : mstate) : mstate :=
  match r with Build_mstate x0 x1 x2 x3 x4 x5 _ x7 x8 x9 x10 x11 x12 x13 x14 x15 x16 x17 x18 x19 x20 x21 x22 x23 x24 x25 x26 x27 => Build_mstate x0 x1 x2 x3 x4 x5 v x7 x8 x9 x10 x11 x12 x13 x14 x15 x16 x17 x18 x19 x20 x21 x22 x23 x24 x25 x26 x27 end.

Definition with_rewrite_vars (v : rewrite_parameters_t) (r : mstate) : mstate :=
  match r with Build_mstate x0 x1 x2 x3 x4 x5 x6 _ x8 x9 x10 x11 x12 x13 x14 x15 x16 x17 x18 x19 x20 x21 x22 x23 x24 x25 x26 x27 => Build_mstate x0 x1 x2 x3 x4 x5 x6 v x8 x9 x10 x11 x12 x13 x14 x15 x16 x17 x18 x19 x20 x21 x22 x23 x24 x25 x26 x27 end.

Definition with_stats_infos (v : stats_infos_t) (r : mstate) : mstate :=
  match r with Build_mstate x0 x1 x2 x3 x4 x5 x6 x7 _ x9 x10 x11 x12 x13 x14 x15 x16 x17 x18 x19 x20 x21 x22 x23 x24 x25 x26 x27 => Build_mstate x0 x1 x2 x3 x4 x5 x6 x7 v x9 x10 x11 x12 x13 x14 x15 x16 x17 x18 x19 x20 x21 x22 x23 x24 x25 x26 x27 end.

Definition with_log_params (v : log_params_t) (r : mstate) : mstate :=
  match r with Build_mstate x0 x1 x2 x3 x4 x5 x6 x7 x8 _ x10 x11 x12 x13 x14 x15 x16 x17 x18 x19 x20 x21 x22 x23 x24 x25 x26 x27 => Build_mstate x0 x1 x2 x3 x4 x5 x6 x7 x8 v x10 x11 x12 x13 x14 x15 x16 x17 x18 x19 x20 x21 x22 x23 x24 x25 x26 x27 end.

Definition with_chan_p (v : mumu_chan_p_t) (r : mstate) : mstate :=
  match r with Build_mstate x0 x1 x2 x3 x4 x5 x6 x7 x8 x9 _ x11 x12 x13 x14 x15 x16 x17 x18 x19 x20 x21 x22 x23 x24 x25 x26 x27 => Build_mstate x0 x1 x2 x3 x4 x5 x6 x7 x8 x9 v x11 x12 x13 x14 x15 x16 x17 x18 x19 x20 x21 x22 x23 x24 x25 x26 x27 end.

Definition with_card_buffer (v : card_buffer_t) (r : mstate) : mstate :=
  match r with Build_mstate x0 x1 x2 x3 x4 x5 x6 x7 x8 x9 x10 _ x12 x13 x14 x15 x16 x17 x18 x19 x20 x21 x22 x23 x24 x25 x26 x27 => Build_mstate x0 x1 x2 x3 x4 x5 x6 x7 x8 x9 x10 v x12 x13 x14 x15 x16 x17 x18 x19 x20 x21 x22 x23 x24 x25 x26 x27 end.

Definition with_ichan (v : Z) (r : mstate) : mstate :=
  match r with Build_mstate x0 x1 x2 x3 x4 x5 x6 x7 x8 x9 x10 x11 _ x13 x14 x15 x16 x17 x18 x19 x20 x21 x22 x23 x24 x25 x26 x27 => Build_mstate x0 x1 x2 x3 x4 x5 x6 x7 x8 x9 x10 x11 v x13 x14 x15 x16 x17 x18 x19 x20 x21 x22 x23 x24 x25 x26 x27 end.

Definition with_curr_channel_old (v : Z) (r : mstate) : mstate :=
  match r with Build_mstate x0 x1 x2 x3 x4 x5 x6 x7 x8 x9 x10 x11 x12 _ x14 x15 x16 x17 x18 x19 x20 x21 x22 x23 x24 x25 x26 x27 => Build_mstate x0 x1 x2 x3 x4 x5 x6 x7 x8 x9 x10 x11 x12 v x14 x15 x16 x17 x18 x19 x20 x21 x22 x23 x24 x25 x26 x27 end.

Definition with_server_id (v : Z) (r : mstate) : mstate :=
  match r with Build_mstate x0 x1 x2 x3 x4 x5 x6 x7 x8 x9 x10 x11 x12 x13 _ x15 x16 x17 x18 x19 x20 x21 x22 x23 x24 x25 x26 x27 => Build_mstate x0 x1 x2 x3 x4 x5 x6 x7 x8 x9 x10 x11 x12 x13 v x15 x16 x17 x18 x19 x20 x21 x22 x23 x24 x25 x26 x27 end.

Definition with_filename_pid (v : string) (r : mstate) : mstate :=
  match r with Build_mstate x0 x1 x2 x3 x4 x5 x6 x7 x8 x9 x10 x11 x12 x13 x14 _ x16 x17 x18 x19 x20 x21 x22 x23 x24 x25 x26 x27 => Build_mstate x0 x1 x2 x3 x4 x5 x6 x7 x8 x9 x10 x11 x12 x13 x14 v x16 x17 x18 x19 x20 x21 x22 x23 x24 x25 x26 x27 end.

Definition with_filename_channels_streamed (v : string) (r : mstate) : mstate :=
  match r with Build_mstate x0 x1 x2 x3 x4 x5 x6 x7 x8 x9 x10 x11 x12 x13 x14 x15 _ x17 x18 x19 x20 x21 x22 x23 x24 x25 x26 x27 => Build_mstate x0 x1 x2 x3 x4 x5 x6 x7 x8 x9 x10 x11 x12 x13 x14 x15 v x17 x18 x19 x20 x21 x22 x23 x24 x25 x26 x27 end.

Definition with_filename_channels_not_streamed (v : string) (r : mstate) : mstate :=
  match r with Build_mstate x0 x1 x2 x3 x4 x5 x6 x7 x8 x9 x10 x11 x12 x13 x14 x15 x16 _ x18 x19 x20 x21 x22 x23 x24 x25 x26 x27 => Build_mstate x0 x1 x2 x3 x4 x5 x6 x7 x8 x9 x10 x11 x12 x13 x14 x15 x16 v x18 x19 x20 x21 x22 x23 x24 x25 x26 x27 end.

Definition with_timeout_no_diff (v : Z) (r : mstate) : mstate :=
  match r with Build_mstate x0 x1 x2 x3 x4 x5 x6 x7 x8 x9 x10 x11 x12 x13 x14 x15 x16 x17 _ x19 x20 x21 x22 x23 x24 x25 x26 x27 => Build_mstate x0 x1 x2 x3 x4 x5 x6 x7 x8 x9 x10 x11 x12 x13 x14 x15 x16 x17 v x19 x20 x21 x22 x23 x24 x25 x26 x27 end.

Definition with_tuning_no_diff (v : Z) (r : mstate) : mstate :=
  match r with Build_mstate x0 x1 x2 x3 x4 x5 x6 x7 x8 x9 x10 x11 x12 x13 x14 x15 x16 x17 x18 _ x20 x21 x22 x23 x24 x25 x26 x27 => Build_mstate x0 x1 x2 x3 x4 x5 x6 x7 x8 x9 x10 x11 x12 x13 x14 x15 x16 x17 x18 v x20 x21 x22 x23 x24 x25 x26 x27 end.

Definition with_dont_send_scrambled (v : Z) (r : mstate) : mstate :=
  match r with Build_mstate x0 x1 x2 x3 x4 x5 x6 x7 x8 x9 x10 x11 x12 x13 x14 x15 x16 x17 x18 x19 _ x21 x22 x23 x24 x25 x26 x27 => Build_mstate x0 x1 x2 x3 x4 x5 x6 x7 x8 x9 x10 x11 x12 x13 x14 x15 x16 x17 x18 x19 v x21 x22 x23 x24 x25 x26 x27 end.

Definition with_write_streamed_channels (v : Z) (r : mstate) : mstate :=
  match r with Build_mstate x0 x1 x2 x3 x4 x5 x6 x7 x8 x9 x10 x11 x12 x13 x14 x15 x16 x17 x18 x19 x20 _ x22 x23 x24 x25 x26 x27 => Build_mstate x0 x1 x2 x3 x4 x5 x6 x7 x8 x9 x10 x11 x12 x13 x14 x15 x16 x17 x18 x19 x20 v x22 x23 x24 x25 x26 x27 end.

Definition with_received_signal (v : Z) (r : mstate) : mstate :=
  match r with Build_mstate x0 x1 x2 x3 x4 x5 x6 x7 x8 x9 x10 x11 x12 x13 x14 x15 x16 x17 x18 x19 x20 x21 _ x23 x24 x25 x26 x27 => Build_mstate x0 x1 x2 x3 x4 x5 x6 x7 x8 x9 x10 x11 x12 x13 x14 x15 x16 x17 x18 x19 x20 x21 v x23 x24 x25 x26 x27 end.

Definition with_card_tuned_ptr (v : bool) (r : mstate) : mstate :=
  match r with Build_mstate x0 x1 x2 x3 x4 x5 x6 x7 x8 x9 x10 x11 x12 x13 x14 x15 x16 x17 x18 x19 x20 x21 x22 _ x24 x25 x26 x27 => Build_mstate x0 x1 x2 x3 x4 x5 x6 x7 x8 x9 x10 x11 x12 x13 x14 x15 x16 x17 x18 x19 x20 x21 x22 v x24 x25 x26 x27 end.

Definition with_interrupted (v : Z) (r : mstate) : mstate :=
  match r with Build_mstate x0 x1 x2 x3 x4 x5 x6 x7 x8 x9 x10 x11 x12 x13 x14 x15 x16 x17 x18 x19 x20 x21 x22 x23 _ x25 x26 x27 => Build_mstate x0 x1 x2 x3 x4 x5 x6 x7 x8 x9 x10 x11 x12 x13 x14 x15 x16 x17 x18 x19 x20 x21 x22 x23 v x25 x26 x27 end.

Definition with_no_daemon (v : Z) (r : mstate) : mstate :=
  match r with Build_mstate x0 x1 x2 x3 x4 x5 x6 x7 x8 x9 x10 x11 x12 x13 x14 x15 x16 x17 x18 x19 x20 x21 x22 x23 x24 _ x26 x27 => Build_mstate x0 x1 x2 x3 x4 x5 x6 x7 x8 x9 x10 x11 x12 x13 x14 x15 x16 x17 x18 x19 x20 x21 x22 x23 x24 v x26 x27 end.

Definition with_iRet (v : Z) (r : mstate) : mstate :=
  match r with Build_mstate x0 x1 x2 x3 x4 x5 x6 x7 x8 x9 x10 x11 x12 x13 x14 x15 x16 x17 x18 x19 x20 x21 x22 x23 x24 x25 _ x27 => Build_mstate x0 x1 x2 x3 x4 x5 x6 x7 x8 x9 x10 x11 x12 x13 x14 x15 x16 x17 x18 x19 x20 x21 x22 x23 x24 x25 v x27 end.

Definition with_trace (v : list event) (r : mstate) : mstate :=
  match r with Build_mstate x0 x1 x2 x3 x4 x5 x6 x7 x8 x9 x10 x11 x12 x13 x14 x15 x16 x17 x18 x19 x20 x21 x22 x23 x24 x25 x26 _ => Build_mstate x0 x1 x2 x3 x4 x5 x6 x7 x8 x9 x10 x11 x12 x13 x14 x15 x16 x17 x18 x19 x20 x21 x22 x23 x24 x25 x26 v end.

(** [tune_p.x = v;] and the like, on the state of [main]. *)
Definition upd_tune_p (f : tune_p_t -> tune_p_t) (st : mstate) : mstate :=
  with_tune_p (f (tune_p st)) st.
Definition upd_chan_p (f : mumu_chan_p_t -> mumu_chan_p_t) (st : mstate) : mstate :=
  with_chan_p (f (chan_p st)) st.
Definition upd_card_buffer (f : card_buffer_t -> card_buffer_t) (st : mstate) : mstate :=
  with_card_buffer (f (card_buffer st)) st.
Definition upd_multi_p (f : multi_p_t -> multi_p_t) (st : mstate) : mstate :=
  with_multi_p (f (multi_p st)) st.
Definition upd_unic_p (f : unicast_parameters_t -> unicast_parameters_t)
    (st : mstate) : mstate :=
  with_unic_p (f (unic_p st)) st.
Definition upd_rewrite_vars (f : rewrite_parameters_t -> rewrite_parameters_t)
    (st : mstate) : mstate :=
  with_rewrite_vars (f (rewrite_vars st)) st.
Definition upd_log_params (f : log_params_t -> log_params_t) (st : mstate) : mstate :=
  with_log_params (f (log_params st)) st.

Definition emit (e : event) (st : mstate) : mstate :=
  with_trace (trace st ++ [e]) st.

(** [log_message (log_module, lvl, fmt, ...)] *)
Definition log_message (lvl : msg_level) (fmt : string) (st : mstate) : mstate :=
  emit (EvLog lvl fmt) st.

(* ===================================================================== *)
(** ** Control flow                                                       *)
(* ===================================================================== *)

(** How a piece of [main] ends: it falls through to the next statement,
    jumps to the label [mumudvb_close_goto], calls [exit], returns from
    [main], or runs into undefined behaviour. *)
Inductive outcome :=
| Continue (st : mstate)
| GotoClose (st : mstate)
| Exit (code : Z) (st : mstate)
| Returned (value : Z) (st : mstate)
| Fault (f : fault) (st : mstate).

Definition bind (o : outcome) (k : mstate -> outcome) : outcome :=
  match o with
  | Continue st => k st
  | _ => o
  end.

Notation "'do' st <- o ; k" := (bind o (fun st => k))
  (at level 10, st name, o at level 100, k at level 200,
   format "'do'  st  <-  o ;  '/' k").

Definition final_state (o : outcome) : mstate :=
  match o with
  | Continue st | GotoClose st | Exit _ st | Returned _ st | Fault _ st => st
  end.

(** The piece of [main] has run into no undefined behaviour. *)
Definition faultless (o : outcome) : bool :=
  match o with
  | Fault _ _ => false
  | _ => true
  end.

(* ===================================================================== *)
(** ** The configuration readers of the other modules                     *)
(* ===================================================================== *)

(** What a [read_*_configuration] call leaves behind: its return value (0:
    the keyword is not one of its own; -1: error; anything else: line
    consumed), its parameter structure, the channel behind [c_chan] (when the
    function takes one and the pointer is not NULL) and the position saved by
    its own [strtok (NULL, ...)] calls. *)
Record reader_result (X : Type) := {
  rr_ret : Z;
  rr_params : X;
  rr_chan : option mumudvb_channel_t;
  rr_saved : string
}.
Arguments rr_ret {X} _.
Arguments rr_params {X} _.
Arguments rr_chan {X} _.
Arguments rr_saved {X} _.

(** The readers are defined in the modules for tuning, autoconfiguration,
    SAP, CAM, SCAM, unicast, multicast, rewriting and logging.  Arguments:
    the parameter structure, [*c_chan] (or [None] for NULL), [substring] and
    the saved [strtok] position.  What they log is not part of the trace. *)
Class Readers := {
  read_tuning_configuration :
    tune_p_t -> string -> string -> reader_result tune_p_t;
  read_autoconfiguration_configuration :
    auto_p_t -> string -> string -> reader_result auto_p_t;
  read_sap_configuration :
    sap_p_t -> option mumudvb_channel_t -> string -> string -> reader_result sap_p_t;
  read_cam_configuration :
    cam_p_t -> option mumudvb_channel_t -> string -> string -> reader_result cam_p_t;
  read_scam_configuration :
    scam_parameters_t -> option mumudvb_channel_t -> string -> string
    -> reader_result scam_parameters_t;
  read_unicast_configuration :
    unicast_parameters_t -> option mumudvb_channel_t -> string -> string
    -> reader_result unicast_parameters_t;
  read_multicast_configuration :
    multi_p_t -> option mumudvb_channel_t -> string -> string -> reader_result multi_p_t;
  read_rewrite_configuration :
    rewrite_parameters_t -> string -> string -> reader_result rewrite_parameters_t;
  read_logging_configuration :
    stats_infos_t * log_params_t -> string -> string
    -> reader_result (stats_infos_t * log_params_t)
}.

(* ===================================================================== *)
(** ** Functions of other translation units and the environment           *)
(* ===================================================================== *)

(** [set_interrupted], [mumudvb_close], [mumu_string_replace] and
    [string_comput] are defined elsewhere.  [set_interrupted_value v old] is
    the value of the [interrupted] flag after [set_interrupted (v)] when it
    was [old]; [get_interrupted ()] reads the flag.  [mumudvb_close_status]
    is the value [mumudvb_close] returns, which becomes the exit status. *)
Class Extern := {
  set_interrupted_value : Z -> Z -> Z;
  mumudvb_close_status : mstate -> Z;
  mumu_string_replace : string -> string -> string -> string;
  string_comput : string -> Z
}.

(** The answers of the operating system and of the card. *)
Class Environment := {
  fopen_ok : string -> string -> bool;      (* fopen (path, mode) != NULL *)
  signal_was_ignored : Z -> bool;           (* signal (...) == SIG_IGN *)
  open_fe : string -> Z -> bool -> Z;       (* open_fe (&fd, path, tuner, 1, is_file) *)
  tune_it : tune_p_t -> Z                   (* tune_it (fd_frontend, &tune_p) *)
}.

(* ===================================================================== *)
(** ** [main]: reading the configuration file (lines 391-694)             *)
(* ===================================================================== *)

Section Configuration.
Context `{Headers} `{Readers}.

Definition LF : ascii := ascii_of_nat 10.
Definition CR : ascii := ascii_of_nat 13.

(** [char delimiteurs[] = CONFIG_FILE_SEPARATOR;] *)
Definition delimiteurs : string := CONFIG_FILE_SEPARATOR.

(** [if (current_line[line_len-1] == '\r' || ... == '\n')
       current_line[line_len-1] = 0;] *)
Fixpoint strip_eol (s : string) : string :=
  match s with
  | EmptyString => EmptyString
  | String c EmptyString =>
      if Ascii.eqb c CR || Ascii.eqb c LF then EmptyString else s
  | String c s' => String c (strip_eol s')
  end.

(** The buffer [current_line], as a C string, once [strtok] has written a
    NUL after its first token. *)
Fixpoint cut_first_token (started : bool) (s : string) : string :=
  match s with
  | EmptyString => EmptyString
  | String c s' =>
      if LibC.is_delim delimiteurs c
      then (if started then EmptyString else String c (cut_first_token false s'))
      else String c (cut_first_token true s')
  end.

(** The memory as [memset (&chan_p, 0, sizeof (chan_p))] leaves it.  The
    arrays have their declared lengths, [channels[MAX_CHANNELS]] and
    [pids[MAX_PIDS]]. *)
Definition zero_channel : mumudvb_channel_t :=
  {| channel_ready := 0; service_id := 0; pid_f := 0;
     pids := repeat 0 (Z.to_nat MAX_PIDS); num_pids := 0;
     pmt_pid := 0; pmt_pid_f := 0; pmt_rewrite := 0;
     name := EmptyString; name_f := 0; user_name := EmptyString |}.

Definition initial_chan_p : mumu_chan_p_t :=
  {| channels := repeat zero_channel (Z.to_nat MAX_CHANNELS);
     number_of_channels := 0;
     psi_tables_filtering := PSI_TABLES_FILTERING_NONE;
     filter_transport_error := 0; check_cc := 0;
     t2mi_pid := 0; t2mi_plp := 0 |}.

Definition initial_card_buffer : card_buffer_t :=
  {| dvr_buffer_size := DEFAULT_TS_BUFFER_SIZE;
     threaded_read := 0;
     max_thread_buffer_size := DEFAULT_THREAD_BUFFER_SIZE |}.

(** [c_chan]: NULL when [ichan < 0], else [&chan_p.channels[ichan]]. *)
Definition c_chan (st : mstate) : option nat :=
  if ichan st <? 0 then None else Some (Z.to_nat (ichan st)).

(** [chan_p.channels[i].field = ...]: the update of one array element.
    Outside the array the store is undefined behaviour. *)
Definition store_channel (i : Z) (f : mumudvb_channel_t -> mumudvb_channel_t)
    (st : mstate) : outcome :=
  if i <? 0 then Fault (ChannelOutOfBounds i) st
  else
    match channels (chan_p st) !! Z.to_nat i with
    | Some c =>
        Continue (upd_chan_p (with_channels (<[Z.to_nat i := f c]> (channels (chan_p st)))) st)
    | None => Fault (ChannelOutOfBounds i) st
    end.

(** [*c_chan], for the readers: the channel the pointer designates. *)
Definition deref_c_chan (st : mstate) : option mumudvb_channel_t :=
  match c_chan st with
  | Some i => channels (chan_p st) !! i
  | None => None
  end.

(** What a reader did to [*c_chan] is written back to the array. *)
Definition write_back (c' : option mumudvb_channel_t) (st : mstate) : mstate :=
  match c_chan st, c' with
  | Some i, Some c => upd_chan_p (with_channels (<[i := c]> (channels (chan_p st)))) st
  | _, _ => st
  end.

(** *** The chain of [read_*_configuration] calls (lines 432-480) *)

Inductive readers_outcome :=
| RError (st : mstate)                     (* iRet == -1: exit (ERROR_CONF) *)
| RHandled (st : mstate)                   (* iRet != 0 *)
| RDeclined (st : mstate) (saved : string) (* every reader returned 0 *).

Definition classify (ret : Z) (st : mstate) (saved : string)
    (next : mstate -> string -> readers_outcome) : readers_outcome :=
  if ret =? 0 then next st saved
  else if ret =? -1 then RError st
  else RHandled st.

Definition try_logging (substring : string) (st : mstate) (saved : string)
    : readers_outcome :=
  let r := read_logging_configuration (stats_infos st, log_params st) substring saved in
  classify (rr_ret r)
    (with_log_params (snd (rr_params r)) (with_stats_infos (fst (rr_params r)) st))
    (rr_saved r) RDeclined.

Definition try_rewrite (substring : string) (st : mstate) (saved : string)
    : readers_outcome :=
  let r := read_rewrite_configuration (rewrite_vars st) substring saved in
  classify (rr_ret r) (with_rewrite_vars (rr_params r) st) (rr_saved r)
    (try_logging substring).

Definition try_multicast (substring : string) (st : mstate) (saved : string)
    : readers_outcome :=
  let r := read_multicast_configuration (multi_p st) (deref_c_chan st) substring saved in
  classify (rr_ret r) (write_back (rr_chan r) (with_multi_p (rr_params r) st))
    (rr_saved r) (try_rewrite substring).

Definition try_unicast (substring : string) (st : mstate) (saved : string)
    : readers_outcome :=
  let r := read_unicast_configuration (unic_p st) (deref_c_chan st) substring saved in
  classify (rr_ret r) (write_back (rr_chan r) (with_unic_p (rr_params r) st))
    (rr_saved r) (try_multicast substring).

(** [#ifdef ENABLE_SCAM_SUPPORT] *)
Definition try_scam (substring : string) (st : mstate) (saved : string)
    : readers_outcome :=
  if ENABLE_SCAM_SUPPORT then
    let r := read_scam_configuration (scam_vars st) (deref_c_chan st) substring saved in
    classify (rr_ret r) (write_back (rr_chan r) (with_scam_vars (rr_params r) st))
      (rr_saved r) (try_unicast substring)
  else try_unicast substring st saved.

(** [#ifdef ENABLE_CAM_SUPPORT] *)
Definition try_cam (substring : string) (st : mstate) (saved : string)
    : readers_outcome :=
  if ENABLE_CAM_SUPPORT then
    let r := read_cam_configuration (cam_p st) (deref_c_chan st) substring saved in
    classify (rr_ret r) (write_back (rr_chan r) (with_cam_p (rr_params r) st))
      (rr_saved r) (try_scam substring)
  else try_scam substring st saved.

Definition try_sap (substring : string) (st : mstate) (saved : string)
    : readers_outcome :=
  let r := read_sap_configuration (sap_p st) (deref_c_chan st) substring saved in
  classify (rr_ret r) (write_back (rr_chan r) (with_sap_p (rr_params r) st))
    (rr_saved r) (try_cam substring).

Definition try_autoconf (substring : string) (st : mstate) (saved : string)
    : readers_outcome :=
  let r := read_autoconfiguration_configuration (auto_p st) substring saved in
  classify (rr_ret r) (with_auto_p (rr_params r) st) (rr_saved r) (try_sap substring).

Definition run_readers (substring : string) (st : mstate) (saved : string)
    : readers_outcome :=
  let r := read_tuning_configuration (tune_p st) substring saved in
  classify (rr_ret r) (with_tune_p (rr_params r) st) (rr_saved r)
    (try_autoconf substring).

(** *** The keywords of [main] itself (lines 481-677) *)

(** [substring = strtok (NULL, delimiteurs); k (atoi (substring))]; a
    missing value is a NULL pointer passed to [atoi]. *)
Definition with_int (saved : string) (st : mstate) (k : Z -> outcome) : outcome :=
  match fst (LibC.strtok delimiteurs saved) with
  | Some tok => k (LibC.atoi tok)
  | None => Fault NullString st
  end.

(** [c_chan->field = ...] *)
Definition store_c_chan (f : mumudvb_channel_t -> mumudvb_channel_t) (st : mstate)
    : outcome :=
  store_channel (ichan st) f st.

(** [ichan++; chan_p.channels[ichan].channel_ready = ALMOST_READY;] *)
Definition kw_new_channel (st : mstate) : outcome :=
  let st1 := with_ichan (ichan st + 1) st in
  do st2 <- store_channel (ichan st1) (with_channel_ready ALMOST_READY) st1;
  Continue (log_message MSG_INFO "New channel, current number %d" st2).

Definition kw_psi_tables_filtering (saved : string) (st : mstate) : outcome :=
  match fst (LibC.strtok delimiteurs saved) with
  | None => Fault NullString st
  | Some tok =>
      let st1 :=
        if String.eqb tok "pat"
        then upd_chan_p (with_psi_tables_filtering PSI_TABLES_FILTERING_PAT_ONLY) st
        else if String.eqb tok "pat_cat"
        then upd_chan_p (with_psi_tables_filtering PSI_TABLES_FILTERING_PAT_CAT_ONLY) st
        else if String.eqb tok "none"
        then upd_chan_p (with_psi_tables_filtering PSI_TABLES_FILTERING_NONE) st
        else st in
      let st2 :=
        if psi_tables_filtering (chan_p st1) =? PSI_TABLES_FILTERING_PAT_ONLY
        then log_message MSG_INFO
               "You have enabled PSI tables filtering, only PAT will be send" st1
        else st1 in
      let st3 :=
        if psi_tables_filtering (chan_p st2) =? PSI_TABLES_FILTERING_PAT_CAT_ONLY
        then log_message MSG_INFO
               "You have enabled PSI tables filtering, only PAT and CAT will be send" st2
        else st2 in
      Continue st3
  end.

Definition kw_dvr_buffer_size (saved : string) (st : mstate) : outcome :=
  with_int saved st (fun v =>
    let st1 := upd_card_buffer (with_dvr_buffer_size v) st in
    let st2 :=
      if dvr_buffer_size (card_buffer st1) <=? 0
      then upd_card_buffer (with_dvr_buffer_size 1)
             (log_message MSG_WARN "The buffer size MUST be >0, forced to 1 packet" st1)
      else st1 in
    Continue (with_stats_infos {| show_buffer_stats := 1 |} st2)).

Definition kw_dvr_thread (saved : string) (st : mstate) : outcome :=
  with_int saved st (fun v =>
    let st1 := upd_card_buffer (with_threaded_read v) st in
    Continue
      (if threaded_read (card_buffer st1) =? 0 then st1
       else log_message MSG_WARN
              "You want to use a thread for reading the card, please report bugs/problems"
              st1)).

Definition kw_service_id (substring saved : string) (st : mstate) : outcome :=
  let st1 :=
    if String.eqb substring "ts_id"
    then log_message MSG_WARN "The option ts_id is depreciated, use service_id instead." st
    else st in
  match c_chan st1 with
  | None =>
      Exit ERROR_CONF
        (log_message MSG_ERROR
           "service_id : You have to start a channel first (using new_channel)" st1)
  | Some _ => with_int saved st1 (fun v => store_c_chan (with_service_id v) st1)
  end.

(** [c_chan->pid_i.pids[ipid] = v] *)
Definition store_pid (ipid v : Z) (st : mstate) : outcome :=
  match deref_c_chan st with
  | None => Fault (ChannelOutOfBounds (ichan st)) st
  | Some c =>
      if (ipid <? 0) || (Z.of_nat (length (pids c)) <=? ipid)
      then Fault (PidOutOfBounds ipid) st
      else store_c_chan (with_pids (<[Z.to_nat ipid := v]> (pids c))) st
  end.

(** The [while ((substring = strtok (NULL, delimiteurs)) != NULL)] loop of
    the [pids] keyword, over the tokens that remain on the line. *)
Fixpoint pids_loop (toks : list string) (ipid : Z) (st : mstate) : outcome :=
  match toks with
  | [] => store_c_chan (with_num_pids ipid) st
  | substring :: toks' =>
      let v := LibC.atoi substring in
      do st1 <- store_pid ipid v st;
      (* we see if the given pid is good *)
      if (v <? 10) || (8193 <=? v)
      then Exit ERROR_CONF
             (log_message MSG_ERROR "Config issue : %s in pids, given pid : %d" st1)
      else
        let ipid' := ipid + 1 in
        if MAX_PIDS <=? ipid'
        then Exit ERROR_CONF
               (log_message MSG_ERROR "Too many pids : %d channel : %d" st1)
        else pids_loop toks' ipid' st1
  end.

Definition kw_pids (saved : string) (st : mstate) : outcome :=
  match c_chan st with
  | None =>
      Exit ERROR_CONF
        (log_message MSG_ERROR
           "pids : You have to start a channel first (using new_channel)" st)
  | Some _ =>
      (* Pids are now user set; enable PMT rewrite *)
      do st1 <- store_c_chan (fun c => with_pmt_rewrite 1 (with_pid_f F_USER c)) st;
      pids_loop (LibC.tokens delimiteurs saved) 0 st1
  end.

Definition kw_pmt_pid (saved : string) (st : mstate) : outcome :=
  match c_chan st with
  | None =>
      Returned (-1)
        (log_message MSG_ERROR
           "pmt_pid : You have to start a channel first (using new_channel)" st)
  | Some _ =>
      with_int saved st (fun v =>
        do st1 <- store_c_chan (with_pmt_pid v) st;
        if (v <? 10) || (8191 <? v)
        then Returned (-1)
               (log_message MSG_ERROR "Configuration issue in pmt_pid, given PID : %d" st1)
        else store_c_chan (with_pmt_pid_f F_USER) st1)
  end.

Definition kw_name (saved : string) (st : mstate) : outcome :=
  match c_chan st with
  | None =>
      Exit ERROR_CONF
        (log_message MSG_ERROR
           "name : You have to start a channel first (using new_channel)" st)
  | Some _ =>
      do st1 <- store_c_chan (with_name_f F_USER) st;
      (* other substring extraction method in order to keep spaces *)
      match fst (LibC.strtok "=" saved) with
      | None => Fault NullString st1
      | Some substring =>
          let nl := String LF EmptyString in
          match fst (LibC.strtok nl substring) with
          | None => Fault NullString st1
          | Some nm =>
              let n := Z.to_nat (MAX_NAME_LEN - 1) in
              do st2 <- store_c_chan (fun c =>
                          with_user_name (LibC.strncpy n nm)
                            (with_name (LibC.strncpy n nm) c)) st1;
              Continue
                (if MAX_NAME_LEN - 1 <=? LibC.strlen_after_strtok nl substring
                 then log_message MSG_WARN "Channel name too long" st2
                 else st2)
          end
      end
  end.

Definition kw_filename_pid (saved : string) (st : mstate) : outcome :=
  match fst (LibC.strtok delimiteurs saved) with
  | None => Fault NullString st
  | Some tok =>
      Continue
        (if DEFAULT_PATH_LEN <=? Z.of_nat (String.length tok)
         then log_message MSG_WARN "filename_pid too long" st
         else with_filename_pid tok st)
  end.

(** The range test of [t2mi_pid] forces the value, it does not exit. *)
Definition kw_t2mi_pid (saved : string) (st : mstate) : outcome :=
  with_int saved st (fun v =>
    let st1 := upd_chan_p (with_t2mi_pid v) st in
    let st2 := log_message MSG_INFO "Demuxing T2-MI stream on pid %d as input" st1 in
    Continue
      (if (t2mi_pid (chan_p st2) <? 1) || (8192 <? t2mi_pid (chan_p st2))
       then upd_chan_p (with_t2mi_pid 4096)
              (log_message MSG_WARN "wrong t2mi pid, forced to 4096" st2)
       else st2)).

(** The statements after the [if ... else if] chain (lines 679-690). *)
Definition end_of_line (st : mstate) : outcome :=
  if MAX_CHANNELS <? ichan st
  then Exit ERROR_TOO_CHANNELS
         (log_message MSG_ERROR "Too many channels : %d limit : %d" st)
  else
    (* A new channel have been defined *)
    Continue (if curr_channel_old st =? ichan st then st
              else with_curr_channel_old (ichan st) st).

(** The keywords tested by [strcmp] once every reader has returned 0.
    [line_len] is [strlen (current_line)] at that point.  The last branch
    is the [continue] of the unknown keyword. *)
Definition keywords (line_len : Z) (substring saved : string) (st : mstate)
    : outcome :=
  let key k := String.eqb substring k in
  if key "new_channel" then do st' <- kw_new_channel st; end_of_line st'
  else if key "timeout_no_diff" then
    do st' <- with_int saved st (fun v => Continue (with_timeout_no_diff v st));
    end_of_line st'
  else if key "tuning_no_diff" then
    do st' <- with_int saved st (fun v => Continue (with_tuning_no_diff v st));
    end_of_line st'
  else if key "dont_send_scrambled" then
    do st' <- with_int saved st (fun v => Continue (with_dont_send_scrambled v st));
    end_of_line st'
  else if key "filter_transport_error" then
    do st' <- with_int saved st (fun v =>
                Continue (upd_chan_p (with_filter_transport_error v) st));
    end_of_line st'
  else if key "psi_tables_filtering" then
    do st' <- kw_psi_tables_filtering saved st; end_of_line st'
  else if key "dvr_buffer_size" then
    do st' <- kw_dvr_buffer_size saved st; end_of_line st'
  else if key "dvr_thread" then
    do st' <- kw_dvr_thread saved st; end_of_line st'
  else if key "dvr_thread_buffer_size" then
    do st' <- with_int saved st (fun v =>
                Continue (upd_card_buffer (with_max_thread_buffer_size v) st));
    end_of_line st'
  else if key "service_id" || key "ts_id" then
    do st' <- kw_service_id substring saved st; end_of_line st'
  else if key "pids" then do st' <- kw_pids saved st; end_of_line st'
  else if key "pmt_pid" then do st' <- kw_pmt_pid saved st; end_of_line st'
  else if key "name" then do st' <- kw_name saved st; end_of_line st'
  else if key "server_id" then
    do st' <- with_int saved st (fun v => Continue (with_server_id v st));
    end_of_line st'
  else if key "filename_pid" then
    do st' <- kw_filename_pid saved st; end_of_line st'
  else if key "check_cc" then
    do st' <- with_int saved st (fun v => Continue (upd_chan_p (with_check_cc v) st));
    end_of_line st'
  else if key "t2mi_pid" then do st' <- kw_t2mi_pid saved st; end_of_line st'
  else if key "t2mi_plp" then
    do st' <- with_int saved st (fun v => Continue (upd_chan_p (with_t2mi_plp v) st));
    end_of_line st'
  else
    Continue (if 1 <? line_len
              then log_message MSG_WARN "Config issue : unknow symbol : %s" st
              else st).

(** *** One iteration of the [while (fgets (...))] loop (lines 394-691) *)

Definition dispatch (line_len : Z) (substring saved : string) (st : mstate)
    : outcome :=
  match run_readers substring st saved with
  | RError st' => Exit ERROR_CONF st'
  | RHandled st' => end_of_line st'
  | RDeclined st' saved' => keywords line_len substring saved' st'
  end.

Definition first_char_is (c : ascii) (s : string) : bool :=
  match s with
  | String d _ => Ascii.eqb c d
  | EmptyString => false
  end.

(** What the loop does with a line before any keyword is looked at:
    [None] when the line is skipped ([continue]), else
    [strlen (current_line)] after the cut, the first token [substring] and
    the position saved by [strtok]. *)
Definition scan_line (raw : string) : option (Z * string * string) :=
  let line := strip_eol raw in
  (* Line without "=" we continue, unless it is a new_channel line *)
  let skip :=
    if LibC.has_char "="%char line then false
    else match fst (LibC.strtok delimiteurs line) with
         | None => true
         | Some substring => negb (String.eqb substring "new_channel")
         end in
  if skip then None
  else
    (* without "=", strtok has already cut the buffer after new_channel *)
    let current_line :=
      if LibC.has_char "="%char line then line else cut_first_token false line in
    if first_char_is "#"%char current_line then None
    else
      match LibC.strtok delimiteurs current_line with
      | (None, _) => None
      | (Some substring, saved) =>
          if first_char_is "#"%char substring then None
          else Some (Z.of_nat (String.length (cut_first_token false current_line)),
                     substring, saved)
      end.

Definition process_line (st : mstate) (raw : string) : outcome :=
  match scan_line raw with
  | None => Continue st
  | Some (line_len, substring, saved) => dispatch line_len substring saved st
  end.

(** The loop over the lines that [fgets] delivers. *)
Fixpoint parse_config (lines : list string) (st : mstate) : outcome :=
  match lines with
  | [] => Continue st
  | l :: lines' => do st' <- process_line st l; parse_config lines' st'
  end.

End Configuration.

(* ===================================================================== *)
(** ** [main]: from the end of the configuration to [mumudvb_close]       *)
(* ===================================================================== *)

Section Startup.
Context `{Headers} `{Extern} `{Environment}.

Definition get_interrupted (st : mstate) : Z := interrupted st.

Definition set_interrupted (v : Z) (st : mstate) : mstate :=
  emit (EvSetInterrupted v)
    (with_interrupted (set_interrupted_value v (interrupted st)) st).

Definition nonzero (z : Z) : bool := negb (z =? 0).

(** Set default card if not specified (lines 696-698). *)
Definition default_card (st : mstate) : mstate :=
  if card (tune_p st) =? -1 then upd_tune_p (with_card 0) st else st.

(** If autoconfiguration, other options get defaults (lines 708-729). *)
Definition autoconf_defaults (st : mstate) : mstate :=
  if autoconfiguration (auto_p st) =? AUTOCONF_MODE_NONE then st
  else
    let st1 :=
      if (sap (sap_p st) =? OPTION_UNDEFINED) && nonzero (multicast (multi_p st))
      then with_sap_p {| sap := OPTION_ON |}
             (log_message MSG_INFO "Autoconfiguration, we activate SAP announces." st)
      else st in
    let st2 :=
      if rewrite_pat (rewrite_vars st1) =? OPTION_UNDEFINED
      then log_message MSG_INFO "Autoconfiguration, we activate PAT rewriting."
             (upd_rewrite_vars (with_rewrite_pat OPTION_ON) st1)
      else st1 in
    if rewrite_sdt (rewrite_vars st2) =? OPTION_UNDEFINED
    then log_message MSG_INFO "Autoconfiguration, we activate SDT rewriting."
           (upd_rewrite_vars (with_rewrite_sdt OPTION_ON) st2)
    else st2.

(** The two adjustments of the card buffer sizes (lines 731-743). *)
Definition adjust_buffers (st : mstate) : mstate :=
  let st1 :=
    if (0 <? t2mi_pid (chan_p st)) && (dvr_buffer_size (card_buffer st) <? 20)
    then upd_card_buffer (with_dvr_buffer_size 20)
           (log_message MSG_WARN
              "Warning : You set a DVR buffer size too low to accept T2-MI frames, I increase your dvr_buffer_size to 20 ..."
              st)
    else st in
  if max_thread_buffer_size (card_buffer st1) <? dvr_buffer_size (card_buffer st1)
  then upd_card_buffer (with_max_thread_buffer_size (dvr_buffer_size (card_buffer st1)))
         (log_message MSG_WARN
            "Warning : You set a thread buffer size lower than your DVR buffer size, it's not possible to use such values. I increase your dvr_thread_buffer_size ..."
            st1)
  else st1.

(** [char number[10]] (line 748) holds the decimal text of a number of at
    most nine characters, sign included, and its NUL. *)
Definition number_fits (v : Z) : bool :=
  (String.length (LibC.itoa v) <? 10)%nat.

(** [sprintf (number, "%d", v); k (number)]: a text of ten characters or
    more is written past the end of [number]. *)
Definition with_number (v : Z) (st : mstate) (k : string -> outcome) : outcome :=
  if number_fits v then k (LibC.itoa v) else Fault (NumberOverflow v) st.

(** Template for the card dev path (lines 747-751). *)
Definition device_path_template (st : mstate) : outcome :=
  with_number (card (tune_p st)) st (fun number =>
    Continue
      (upd_tune_p
         (with_card_dev_path
            (mumu_string_replace (card_dev_path (tune_p st)) "%card" number)) st)).

(** [%card], [%tuner] and [%server] in a path: three times
    [sprintf (number, ...)] and [mumu_string_replace] (lines 758-763,
    772-777 and 922-927), then what is done with the path.  The state
    that comes with an overrun is the one before the replacements. *)
Definition expand_templates (path : string) (st : mstate) (k : string -> outcome)
    : outcome :=
  with_number (card (tune_p st)) st (fun number =>
    let path1 := mumu_string_replace path "%card" number in
    with_number (tuner (tune_p st)) st (fun number =>
      let path2 := mumu_string_replace path1 "%tuner" number in
      with_number (server_id st) st (fun number =>
        k (mumu_string_replace path2 "%server" number)))).

(** The three numbers fit [number], and the path that the replacements
    then give. *)
Definition templates_fit (st : mstate) : bool :=
  number_fits (card (tune_p st)) && number_fits (tuner (tune_p st))
  && number_fits (server_id st).

Definition expanded (path : string) (st : mstate) : string :=
  mumu_string_replace
    (mumu_string_replace
       (mumu_string_replace path "%card" (LibC.itoa (card (tune_p st))))
       "%tuner" (LibC.itoa (tuner (tune_p st))))
    "%server" (LibC.itoa (server_id st)).

(** If we specified a string for the unicast port out, we parse it
    (lines 753-766). *)
Definition unicast_port_template (st : mstate) : outcome :=
  match portOut_str (unic_p st) with
  | None => Continue st
  | Some s =>
      expand_templates s st (fun s' =>
        Continue
          (log_message MSG_DEBUG "computed unicast master port : %d"
             (upd_unic_p (fun u => with_portOut (string_comput s')
                                     (with_portOut_str (Some s') u)) st)))
  end.

(** The log file (lines 768-783). *)
Definition log_file_template (st : mstate) : outcome :=
  match log_file_path (log_params st) with
  | None => Continue st
  | Some p =>
      expand_templates p st (fun p' =>
        let ok := fopen_ok p' "a" in
        let st1 :=
          emit (EvFopen p' "a" ok)
            (upd_log_params (fun l => with_log_file ok (with_log_file_path (Some p') l))
               st) in
        Continue
          (if ok
           then upd_log_params
                  (fun l => with_log_type (Z.lor (log_type l) LOGGING_FILE) l) st1
           else log_message MSG_WARN "Cannot open log file %s: %s" st1))
  end.

(** Lines 747-783. *)
Definition card_templates (st : mstate) : outcome :=
  do st1 <- device_path_template st;
  do st2 <- unicast_port_template st1;
  log_file_template st2.

(** Lines 788-794. *)
Definition announce_start (st : mstate) : mstate :=
  let st1 :=
    log_message MSG_INFO
      "========== End of configuration, MuMuDVB version %s is starting =========="
      st in
  upd_chan_p (with_number_of_channels (ichan st1 + 1)) st1.

(** We disable things depending on multicast if multicast is suppressed
    (lines 796-814). *)
Definition multicast_switches (st : mstate) : mstate :=
  let st1 :=
    if ttl (multi_p st) =? 0
    then upd_multi_p (with_multicast 0)
           (log_message MSG_INFO
              "The multicast TTL is set to 0, multicast will be disabled." st)
    else st in
  if multicast (multi_p st1) =? 0 then
    let st2 :=
      if nonzero (rtp_header (multi_p st1))
      then log_message MSG_INFO "NO Multicast, RTP Header is disabled."
             (upd_multi_p (with_rtp_header 0) st1)
      else st1 in
    if sap (sap_p st2) =? OPTION_ON
    then with_sap_p {| sap := OPTION_OFF |}
           (log_message MSG_INFO "NO Multicast, SAP announces are disabled." st2)
    else st2
  else st1.

(** Lines 818-823. *)
Definition check_sinks (st : mstate) : outcome :=
  if (multicast (multi_p st) =? 0) && (unicast (unic_p st) =? 0)
  then GotoClose
         (set_interrupted (Z.shiftl ERROR_CONF 8)
            (log_message MSG_ERROR
               "NO Multicast AND NO unicast. No data can be send :(, Exciting ...." st))
  else Continue st.

(** [f = fopen (path, "w"); if (f == NULL) { write_streamed_channels = 0;
    log_message (MSG_WARN, ...); } else fclose (f);] *)
Definition create_list_file (path : string) (st : mstate) : mstate :=
  let ok := fopen_ok path "w" in
  let st1 := emit (EvFopen path "w" ok) st in
  if ok then emit (EvFclose path) st1
  else log_message MSG_WARN "Can't create %s: %s"
         (with_write_streamed_channels 0 st1).

(** The CAM information file, [#ifdef ENABLE_CAM_SUPPORT] (lines 859-872). *)
Definition create_cam_info (st : mstate) : mstate :=
  if ENABLE_CAM_SUPPORT && nonzero (cam_support (cam_p st)) then
    let path := filename_cam_info (cam_p st) in
    let ok := fopen_ok path "w" in
    let st1 := emit (EvFopen path "w" ok) st in
    if ok then emit (EvFclose path) st1
    else log_message MSG_WARN "Can't create %s: %s" st1
  else st.

(** The lists of streamed and not streamed channels (lines 827-876). *)
Definition state_files (st : mstate) : mstate :=
  let c := card (tune_p st) in
  let t := tuner (tune_p st) in
  let st1 := with_filename_channels_streamed (STREAMED_LIST_PATH c t) st in
  let st2 := with_filename_channels_not_streamed (NOT_STREAMED_LIST_PATH c t) st1 in
  let st3 :=
    if ENABLE_CAM_SUPPORT
    then with_cam_p {| cam_support := cam_support (cam_p st2);
                       filename_cam_info := CAM_INFO_LIST_PATH c t |} st2
    else st2 in
  let st4 := create_list_file (filename_channels_streamed st3) st3 in
  let st5 := create_list_file (filename_channels_not_streamed st4) st4 in
  log_message MSG_INFO "Streaming. Freq %f" (create_cam_info st5).

(** [if (signal (signum, SignalHandler) == SIG_IGN) signal (signum, SIG_IGN);] *)
Definition install_handler (signum : Z) (st : mstate) : mstate :=
  let st1 := emit (EvSignal signum) st in
  if signal_was_ignored signum then emit (EvSignalIgn signum) st1 else st1.

(** Lines 882-889. *)
Definition install_handlers (st : mstate) : mstate :=
  install_handler SIGHUP
    (install_handler SIGUSR2 (install_handler SIGUSR1 (install_handler SIGALRM st))).

(** alarm for tuning timeout (lines 890-894). *)
Definition arm_tuning_alarm (st : mstate) : mstate :=
  if nonzero (tuning_timeout (tune_p st))
  then emit (EvAlarm (tuning_timeout (tune_p st))) st
  else st.

Definition reads_file (st : mstate) : bool :=
  negb (String.eqb (read_file_path (tune_p st)) EmptyString).

(** Lines 897-909. *)
Definition open_frontend (st : mstate) : mstate :=
  let st0 := with_iRet (-1) st in
  let tn := tuner (tune_p st0) in
  if reads_file st0 then
    let path := read_file_path (tune_p st0) in
    with_iRet (open_fe path tn true)
      (emit (EvOpenFe path tn true)
         (log_message MSG_DEBUG "Opening source file %s" st0))
  else
    let path := card_dev_path (tune_p st0) in
    with_iRet (open_fe path tn false) (emit (EvOpenFe path tn false) st0).

(** We write our pid in a file if we daemonize (lines 917-938). *)
Definition write_pidfile (st : mstate) : outcome :=
  if no_daemon st =? 0 then
    expand_templates (filename_pid st) st (fun path =>
      let st1 :=
        log_message MSG_INFO "The pid will be written in %s"
          (with_filename_pid path st) in
      let ok := fopen_ok path "w" in
      let st2 := emit (EvFopen path "w" ok) st1 in
      if ok then Continue (emit (EvFclose path) (emit (EvFprintfPid path) st2))
      else Exit ERROR_CREATE_FILE (log_message MSG_INFO "%s: %s" st2))
  else Continue st.

(** Lines 910-947. *)
Definition tune_card (st : mstate) : outcome :=
  if 0 <? iRet st then
    do st1 <- write_pidfile st;
    if reads_file st1 then Continue (with_iRet 1 st1)   (* no tuning if file input *)
    else Continue (with_iRet (tune_it (tune_p st1)) (emit EvTuneIt st1))
  else Continue (with_iRet (-1) st).

Definition close_card_fd (st : mstate) : mstate := emit EvCloseCardFd st.

(** Lines 949-958. *)
Definition check_tuned (st : mstate) : outcome :=
  if iRet st <? 0 then
    GotoClose
      (set_interrupted (Z.shiftl ERROR_TUNE 8)
         (close_card_fd (log_message MSG_INFO "Tuning issue, card %d" st)))
  else
    Continue
      (upd_tune_p (with_card_tuned 1)
         (log_message MSG_INFO "Card %d, tuner %d tuned" st)).

(** Lines 960-964: what [main] does once the card is tuned. *)
Definition after_tuning (st : mstate) : outcome :=
  GotoClose (log_message MSG_INFO "The pid will be written in %s" (close_card_fd st)).

(** The label [mumudvb_close_goto] (lines 966-985). *)
Definition mumudvb_close_goto (st : mstate) : outcome :=
  Returned (mumudvb_close_status st) (emit (EvMumudvbClose (get_interrupted st)) st).

Definition stage := mstate -> outcome.

Definition always (f : mstate -> mstate) : stage := fun st => Continue (f st).

(** The statements of [main] after the configuration file, in order:
    the settings derived from the configuration, ... *)
Definition settling_stages : list stage :=
  [ always default_card; always autoconf_defaults; always adjust_buffers;
    card_templates; always announce_start; always multicast_switches ].

(** ... the check of the outputs, the state files, the signal handlers
    and the alarm, ... *)
Definition preparing_stages : list stage :=
  [ check_sinks; always state_files; always install_handlers;
    always arm_tuning_alarm ].

(** ... the opening and the tuning of the card, ... *)
Definition tuning_stages : list stage := [ always open_frontend; tune_card ].

(** ... and what follows the tuning. *)
Definition closing_stages : list stage := [ check_tuned; after_tuning ].

Definition startup_stages : list stage :=
  settling_stages ++ preparing_stages ++ tuning_stages ++ closing_stages.

(** The statements of a list of stages, as far as they fall through. *)
Fixpoint exec (stages : list stage) (st : mstate) : outcome :=
  match stages with
  | [] => Continue st
  | s :: stages' => do st' <- s st; exec stages' st'
  end.

(** The settled configuration: the state in which the outputs are
    checked.  It is the state that [settling_stages] leave when they fall
    through; when a number overruns [number], the templates are left as
    they were at that point. *)
Definition settle (st : mstate) : mstate :=
  multicast_switches
    (announce_start
       (final_state
          (card_templates (adjust_buffers (autoconf_defaults (default_card st)))))).

Fixpoint run_stages (stages : list stage) (st : mstate) : outcome :=
  match stages with
  | [] => mumudvb_close_goto st
  | s :: stages' =>
      match s st with
      | Continue st' => run_stages stages' st'
      | GotoClose st' => mumudvb_close_goto st'
      | o => o
      end
  end.

Definition main_after_config (st : mstate) : outcome :=
  run_stages startup_stages st.


End Startup.

(* ===================================================================== *)
(** ** The whole of [main], from line 341                                 *)
(* ===================================================================== *)

Section Main.
Context `{Headers} `{Readers} `{Extern} `{Environment}.

(** The configuration file named on the command line. *)
Inductive conf_file :=
| NoConfFile                       (* conf_filename == NULL *)
| Unreadable                       (* fopen (conf_filename, "r") == NULL *)
| ConfLines (lines : list string). (* what fgets delivers, line by line *)

(** The state when the configuration is about to be read: the variables
    that [main] has initialised itself, around what [parse_cmd_line] and
    the [init_*_v] functions left in [st]. *)
Definition at_config_start (st : mstate) : mstate :=
  with_trace []
    (with_iRet 0
       (with_card_tuned_ptr true
          (with_received_signal 0
             (with_write_streamed_channels 1
                (with_dont_send_scrambled 0
                   (with_tuning_no_diff 0
                      (with_timeout_no_diff ALARM_TIME_TIMEOUT_NO_DIFF
                         (with_filename_pid PIDFILE_PATH
                            (with_curr_channel_old (-1)
                               (with_ichan (-1)
                                  (with_card_buffer initial_card_buffer
                                     (with_chan_p initial_chan_p st)))))))))))).

(** The first pass over the file only displays it. *)
Definition display_config (lines : list string) (st : mstate) : mstate :=
  log_message MSG_FLOOD "============ done ==========="
    (fold_left (fun s _ => log_message MSG_FLOOD "%03d %s" s) lines
       (log_message MSG_FLOOD "==== Configuration file ====" st)).

(** Lines 341-694. *)
Definition read_configuration (conf : conf_file) (st : mstate) : outcome :=
  let st0 := at_config_start st in
  match conf with
  | NoConfFile => Continue st0
  | Unreadable => Exit ERROR_CONF_FILE (log_message MSG_ERROR "%s: %s" st0)
  | ConfLines lines => parse_config lines (display_config lines st0)
  end.

Definition main (conf : conf_file) (st : mstate) : outcome :=
  do st1 <- read_configuration conf st;
  main_after_config st1.

End Main.

(* ===================================================================== *)
(** ** [SignalHandler] (lines 1003-1024)                                  *)
(* ===================================================================== *)

Section Signals.
Context `{Headers} `{Extern}.

(** [Continue] is the return of the handler, [Exit] its call of [exit].
    The last statement, [signal (signum, SignalHandler)], installs the
    handler again. *)
Definition SignalHandler (signum : Z) (st : mstate) : outcome :=
  if (signum =? SIGALRM) && (get_interrupted st =? 0) then
    if card_tuned_ptr st && (card_tuned (tune_p st) =? 0)
    then Exit ERROR_TUNE
           (log_message MSG_INFO "Card not tuned after timeout - exiting" st)
    else Continue (emit (EvSignal signum) st)
  else if (signum =? SIGUSR1) || (signum =? SIGUSR2) || (signum =? SIGHUP) then
    Continue (emit (EvSignal signum) (with_received_signal signum st))
  else if negb (signum =? SIGPIPE) then
    Continue
      (emit (EvSignal signum)
         (set_interrupted signum (log_message MSG_ERROR "Caught signal %d" st)))
  else Continue (emit (EvSignal signum) st).

(** What the calls of [signal] in a trace leave installed for [signum]:
    [Some true] for [SignalHandler], [Some false] for [SIG_IGN], [None]
    when the program has not called [signal] for it. *)
Definition disposition_step (signum : Z) (d : option bool) (e : event)
    : option bool :=
  match e with
  | EvSignal n => if n =? signum then Some true else d
  | EvSignalIgn n => if n =? signum then Some false else d
  | _ => d
  end.

Definition disposition (signum : Z) (tr : list event) : option bool :=
  fold_left (disposition_step signum) tr None.

(** The signal arrives while the program is in state [st]: the handler
    runs, or the signal is discarded when it is ignored.  [None]: the
    disposition is the one the process has inherited. *)
Definition deliver (signum : Z) (st : mstate) : option outcome :=
  match disposition signum (trace st) with
  | Some true => Some (SignalHandler signum st)
  | Some false => Some (Continue st)
  | None => None
  end.

End Signals.

(* ===================================================================== *)
(** ** A concrete instance, for the examples                              *)
(* ===================================================================== *)

(** Values for the constants of the headers.  The separators of a
    configuration line are the space and the equals sign. *)
#[local] Instance demo_headers : Headers := {|
  MAX_CHANNELS := 128;
  MAX_PIDS := 16;
  MAX_NAME_LEN := 32;
  DEFAULT_PATH_LEN := 256;
  ERROR_CONF := 3;
  ERROR_CONF_FILE := 2;
  ERROR_TOO_CHANNELS := 4;
  ERROR_TUNE := 7;
  ERROR_CREATE_FILE := 5;
  NOT_READY := 0;
  ALMOST_READY := 1;
  F_USER := 1;
  PSI_TABLES_FILTERING_NONE := 0;
  PSI_TABLES_FILTERING_PAT_ONLY := 1;
  PSI_TABLES_FILTERING_PAT_CAT_ONLY := 2;
  OPTION_UNDEFINED := 0;
  OPTION_ON := 2;
  OPTION_OFF := 1;
  AUTOCONF_MODE_NONE := 0;
  LOGGING_FILE := 8;
  DEFAULT_TS_BUFFER_SIZE := 20;
  DEFAULT_THREAD_BUFFER_SIZE := 5000;
  ALARM_TIME_TIMEOUT_NO_DIFF := 600;
  CONFIG_FILE_SEPARATOR := " =";
  PIDFILE_PATH := "/var/run/mumudvb/mumudvb_adapter%card_tuner%tuner.pid";
  STREAMED_LIST_PATH := fun c t =>
    String.append "/var/run/mumudvb/channels_streamed_adapter"
      (String.append (LibC.itoa c) (String.append "_tuner" (LibC.itoa t)));
  NOT_STREAMED_LIST_PATH := fun c t =>
    String.append "/var/run/mumudvb/channels_unstreamed_adapter"
      (String.append (LibC.itoa c) (String.append "_tuner" (LibC.itoa t)));
  CAM_INFO_LIST_PATH := fun c t =>
    String.append "/var/run/mumudvb/caminfo_adapter"
      (String.append (LibC.itoa c) (String.append "_tuner" (LibC.itoa t)));
  ENABLE_CAM_SUPPORT := false;
  ENABLE_SCAM_SUPPORT := false
|}.

Definition declines {X : Type} (p : X) (c : option mumudvb_channel_t) (saved : string)
    : reader_result X :=
  {| rr_ret := 0; rr_params := p; rr_chan := c; rr_saved := saved |}.

(** Readers that know two keywords: [unicast] (an integer, required) and
    [multicast] (an integer, required). *)
#[local] Instance demo_readers : Readers := {|
  read_tuning_configuration := fun p _ saved => declines p None saved;
  read_autoconfiguration_configuration := fun p _ saved => declines p None saved;
  read_sap_configuration := fun p c _ saved => declines p c saved;
  read_cam_configuration := fun p c _ saved => declines p c saved;
  read_scam_configuration := fun p c _ saved => declines p c saved;
  read_unicast_configuration := fun p c substring saved =>
    if String.eqb substring "unicast" then
      match LibC.strtok " =" saved with
      | (Some tok, rest) =>
          {| rr_ret := 1; rr_params := with_unicast (LibC.atoi tok) p;
             rr_chan := c; rr_saved := rest |}
      | (None, rest) =>
          {| rr_ret := -1; rr_params := p; rr_chan := c; rr_saved := rest |}
      end
    else declines p c saved;
  read_multicast_configuration := fun p c substring saved =>
    if String.eqb substring "multicast" then
      match LibC.strtok " =" saved with
      | (Some tok, rest) =>
          {| rr_ret := 1; rr_params := with_multicast (LibC.atoi tok) p;
             rr_chan := c; rr_saved := rest |}
      | (None, rest) =>
          {| rr_ret := -1; rr_params := p; rr_chan := c; rr_saved := rest |}
      end
    else declines p c saved;
  read_rewrite_configuration := fun p _ saved => declines p None saved;
  read_logging_configuration := fun p _ saved => declines p None saved
|}.

(** [set_interrupted] keeps the first cause; [mumudvb_close] returns the
    high byte of the cause. *)
#[local] Instance demo_extern : Extern := {|
  set_interrupted_value := fun v old => if old =? 0 then v else old;
  mumudvb_close_status := fun st =>
    if interrupted st <? 256 then 0 else Z.shiftr (interrupted st) 8;
  mumu_string_replace := fun s _ _ => s;
  string_comput := LibC.atoi
|}.

(** Every file can be created, the card opens and tunes. *)
#[local] Instance demo_environment : Environment := {|
  fopen_ok := fun _ _ => true;
  signal_was_ignored := fun _ => false;
  open_fe := fun _ _ _ => 3;
  tune_it := fun _ => 0
|}.

(** No file can be created; the card opens and tunes. *)
Definition readonly_environment : Environment := {|
  fopen_ok := fun _ _ => false;
  signal_was_ignored := fun _ => false;
  open_fe := fun _ _ _ => 3;
  tune_it := fun _ => 0
|}.

(** The frontend cannot be opened. *)
Definition failing_environment : Environment := {|
  fopen_ok := fun _ _ => true;
  signal_was_ignored := fun _ => false;
  open_fe := fun _ _ _ => -1;
  tune_it := fun _ => 0
|}.

(** What the command line [-c conf -d] and the [init_*_v] functions leave:
    multicast with a TTL of 2, no unicast, a tuning timeout of 300 s. *)
Definition demo_state : mstate := {|
  tune_p := {| card := -1; tuner := 0; tuning_timeout := 300;
               read_file_path := EmptyString;
               card_dev_path := "/dev/dvb/adapter%card"; card_tuned := 0 |};
  auto_p := {| autoconfiguration := 0 |};
  sap_p := {| sap := 0 |};
  cam_p := {| cam_support := 0; filename_cam_info := EmptyString |};
  scam_vars := {| scam_support := 0 |};
  unic_p := {| unicast := 0; portOut_str := None; portOut := 0 |};
  multi_p := {| multicast := 1; ttl := 2; rtp_header := 0 |};
  rewrite_vars := {| rewrite_pat := 0; rewrite_sdt := 0 |};
  stats_infos := {| show_buffer_stats := 0 |};
  log_params := {| log_type := 0; log_file_path := None; log_file := false |};
  chan_p := initial_chan_p;
  card_buffer := initial_card_buffer;
  ichan := -1;
  curr_channel_old := -1;
  server_id := 0;
  filename_pid := PIDFILE_PATH;
  filename_channels_streamed := EmptyString;
  filename_channels_not_streamed := EmptyString;
  timeout_no_diff := ALARM_TIME_TIMEOUT_NO_DIFF;
  tuning_no_diff := 0;
  dont_send_scrambled := 0;
  write_streamed_channels := 1;
  received_signal := 0;
  card_tuned_ptr := true;
  interrupted := 0;
  no_daemon := 1;
  iRet := 0;
  trace := []
|}.

(** The same without any output: no multicast, no unicast. *)
Definition mute_state : mstate :=
  with_multi_p {| multicast := 0; ttl := 2; rtp_header := 0 |} demo_state.

(** A configuration file with one channel. *)
Definition one_channel : list string := ["# one channel"; "new_channel"; "name=One"].

(** The state of [main] once these lines have been read. *)
Definition after_one_channel : mstate :=
  final_state
    (parse_config one_channel (display_config one_channel (at_config_start demo_state))).

(** A configuration file that sets sizes outside their bounds. *)
Definition odd_sizes : conf_file :=
  ConfLines ["dvr_buffer_size=-3"; "dvr_thread_buffer_size=2"; "t2mi_pid=9000"].

(** The state of [main] when the card is about to be opened, and when the
    result of the tuning is about to be examined. *)
Definition demo_armed : mstate :=
  final_state (exec (settling_stages ++ preparing_stages) demo_state).

Definition demo_tuned : mstate :=
  final_state
    (exec (settling_stages ++ preparing_stages ++ tuning_stages) demo_state).

(** A trace in which the card is closed and [main] is left right after the
    tuning. *)
Definition closes_card_right_after_tuning (tr : list event) : Prop :=
  exists pre i,
    tr = (pre ++ [EvTuneIt; EvLog MSG_INFO "Card %d, tuner %d tuned"; EvCloseCardFd;
                  EvLog MSG_INFO "The pid will be written in %s";
                  EvMumudvbClose i])%list.

(* ===================================================================== *)
(** ** Predicates used in the statements                                  *)
(* ===================================================================== *)

Section Predicates.
Context `{Headers}.

(** The entries of the array other than the one [ichan] designates are
    the same in [a] and [b]. *)
Definition others_kept (a b : mstate) : Prop :=
  forall j : nat, Z.of_nat j <> ichan a ->
    channels (chan_p b) !! j = channels (chan_p a) !! j.

(** What the readers of the other modules cannot touch: they receive
    their own parameter structure and [*c_chan], nothing else. *)
Definition readers_frame (a b : mstate) : Prop :=
  ichan b = ichan a /\
  card_buffer b = card_buffer a /\
  length (channels (chan_p b)) = length (channels (chan_p a)) /\
  t2mi_pid (chan_p b) = t2mi_pid (chan_p a) /\
  trace b = trace a /\
  others_kept a b.

Definition readers_outcome_state (r : readers_outcome) : mstate :=
  match r with
  | RError st | RHandled st | RDeclined st _ => st
  end.

(** A state that differs from [a] in the contents of the channels only. *)
Definition channels_replaced (l : list mumudvb_channel_t) (a b : mstate) : Prop :=
  b = upd_chan_p (with_channels l) a.

(** What matters to the invariants of the loop is left alone. *)
Definition quiet (a b : mstate) : Prop :=
  ichan b = ichan a /\
  dvr_buffer_size (card_buffer b) = dvr_buffer_size (card_buffer a) /\
  length (channels (chan_p b)) = length (channels (chan_p a)) /\
  others_kept a b.

(** The entries after [ichan] are as [memset] left them. *)
Definition unused_inv (st : mstate) : Prop :=
  forall (j : nat) (c : mumudvb_channel_t),
    ichan st < Z.of_nat j -> channels (chan_p st) !! j = Some c -> c = zero_channel.

(** What a line of the configuration may do to the array, the index and
    the DVR buffer size. *)
Definition line_effect (st st' : mstate) : Prop :=
  length (channels (chan_p st')) = length (channels (chan_p st)) /\
  (1 <= dvr_buffer_size (card_buffer st) -> 1 <= dvr_buffer_size (card_buffer st')) /\
  (ichan st' = ichan st \/
   ichan st' = ichan st + 1 /\
   0 <= ichan st' < Z.of_nat (length (channels (chan_p st')))) /\
  (unused_inv st -> unused_inv st').

(** The array has [MAX_CHANNELS] entries and [ichan] is -1 or the index of
    one of them. *)
Definition channels_inv (st : mstate) : Prop :=
  length (channels (chan_p st)) = Z.to_nat MAX_CHANNELS /\
  -1 <= ichan st < Z.of_nat (length (channels (chan_p st))).

Definition is_alarm (e : event) : bool :=
  match e with EvAlarm _ => true | _ => false end.

(** The events on the card: opening the frontend and tuning. *)
Definition touches_card (e : event) : bool :=
  match e with EvOpenFe _ _ _ | EvTuneIt => true | _ => false end.

(** Messages and ordinary files. *)
Definition is_note (e : event) : bool :=
  match e with
  | EvLog _ _ | EvFopen _ _ _ | EvFclose _ | EvFprintfPid _ => true
  | _ => false
  end.

(** [b] has the trace of [a], followed by events that satisfy [P]. *)
Definition appended (P : event -> bool) (a b : mstate) : Prop :=
  exists evs, trace b = (trace a ++ evs)%list /\ forallb P evs = true.

(** The fields on which the supervision of the tuning depends, and the
    configured outputs. *)
Definition watched (st : mstate) : Z * Z * bool * Z * Z * Z :=
  (interrupted st, card_tuned (tune_p st), card_tuned_ptr st,
   tuning_timeout (tune_p st), unicast (unic_p st), ttl (multi_p st)).

Definition kept (a b : mstate) : Prop :=
  watched b = watched a /\
  write_streamed_channels b = write_streamed_channels a /\
  t2mi_pid (chan_p b) = t2mi_pid (chan_p a).

(** A piece of [main] that can only fall through or overrun [number]. *)
Definition passes_or_overruns (o : outcome) : Prop :=
  (exists s, o = Continue s) \/
  (exists v s, o = Fault (NumberOverflow v) s /\ number_fits v = false).

(** Neither the alarm nor the card. *)
Definition calm (e : event) : bool := negb (is_alarm e) && negb (touches_card e).

Definition no_alarm (e : event) : bool := negb (is_alarm e).

(** The number of [alarm] calls in a trace. *)
Definition alarms (tr : list event) : nat := length (List.filter is_alarm tr).

End Predicates.

(* ===================================================================== *)
(** ** Notions used by the properties of the loop and of the run          *)
(* ===================================================================== *)

Section Notions.
Context `{Headers}.

(** The keywords that [main] itself compares [substring] with, in the
    order of the [else if] chain (lines 481-665). *)
Definition keywords_of_main : list string :=
  [ "new_channel"; "timeout_no_diff"; "tuning_no_diff"; "dont_send_scrambled";
    "filter_transport_error"; "psi_tables_filtering"; "dvr_buffer_size";
    "dvr_thread"; "dvr_thread_buffer_size"; "service_id"; "ts_id"; "pids";
    "pmt_pid"; "name"; "server_id"; "filename_pid"; "check_cc"; "t2mi_pid";
    "t2mi_plp" ].

(** Those whose value goes to [atoi], [strcmp] or [strlen] without a test
    of the pointer, and that need no channel. *)
Definition keywords_with_value : list string :=
  [ "timeout_no_diff"; "tuning_no_diff"; "dont_send_scrambled";
    "filter_transport_error"; "psi_tables_filtering"; "dvr_buffer_size";
    "dvr_thread"; "dvr_thread_buffer_size"; "server_id"; "filename_pid";
    "check_cc"; "t2mi_pid"; "t2mi_plp" ].


(** A line on which the loop reaches the [new_channel] keyword. *)
Definition opens_channel (raw : string) : bool :=
  match scan_line raw with
  | Some (_, substring, _) => String.eqb substring "new_channel"
  | None => false
  end.

(** No reader of another module takes [new_channel] for one of its own
    keywords. *)
Definition new_channel_is_mains `{Readers} : Prop :=
  forall s sv, exists s1 sv1, run_readers "new_channel" s sv = RDeclined s1 sv1.

(** An output is configured: unicast, or multicast with a TTL (lines
    796-823). *)
Definition has_output (st : mstate) : bool :=
  negb (unicast (unic_p st) =? 0) ||
  (negb (multicast (multi_p st) =? 0) && negb (ttl (multi_p st) =? 0)).

(** What the statements between the configuration file and the tuning
    leave alone. *)
Definition steady (a b : mstate) : Prop :=
  no_daemon b = no_daemon a /\
  ichan b = ichan a /\
  channels (chan_p b) = channels (chan_p a) /\
  read_file_path (tune_p b) = read_file_path (tune_p a) /\
  tuner (tune_p b) = tuner (tune_p a) /\
  filename_pid b = filename_pid a /\
  server_id b = server_id a.

(** The calls of [signal]. *)
Definition is_disposition (e : event) : bool :=
  match e with EvSignal _ | EvSignalIgn _ => true | _ => false end.

(** Neither [alarm] nor [signal]. *)
Definition leaves_timer (e : event) : bool :=
  negb (is_alarm e) && negb (is_disposition e).

Definition card_opened (e : event) : bool :=
  match e with EvOpenFe _ _ _ => true | _ => false end.

Definition card_closed (e : event) : bool :=
  match e with EvCloseCardFd => true | _ => false end.

Definition is_tune_it (e : event) : bool :=
  match e with EvTuneIt => true | _ => false end.

(** The number of events of a kind in a trace. *)
Definition count (P : event -> bool) (tr : list event) : nat :=
  length (List.filter P tr).

(** The path handed to [open_fe], and whether it is a file (lines
    901-909). *)
Definition frontend_path (st : mstate) : string :=
  if reads_file st then read_file_path (tune_p st) else card_dev_path (tune_p st).

(** What opening the frontend adds to the trace. *)
Definition opening_events (st : mstate) : list event :=
  (if reads_file st then [EvLog MSG_DEBUG "Opening source file %s"] else []) ++
  [EvOpenFe (frontend_path st) (tuner (tune_p st)) (reads_file st)].

End Notions.

Section RunNotions.
Context `{Headers} `{Extern}.

(** The name of the pid file once its templates are replaced (lines
    920-927). *)
Definition pid_file_path (st : mstate) : string :=
  expanded (filename_pid st) st.

(** What writing the pid file adds to the trace when it succeeds; nothing
    when the program does not daemonize. *)
Definition pid_file_events (st : mstate) : list event :=
  if no_daemon st =? 0
  then [ EvLog MSG_INFO "The pid will be written in %s";
         EvFopen (pid_file_path st) "w" true;
         EvFprintfPid (pid_file_path st);
         EvFclose (pid_file_path st) ]
  else [].

(** The events with which [main] reports a failed tuning (lines 949-955)
    and a successful one (lines 957-961). *)
Definition tuning_issue_events : list event :=
  [ EvLog MSG_INFO "Tuning issue, card %d"; EvCloseCardFd;
    EvSetInterrupted (Z.shiftl ERROR_TUNE 8) ].

Definition tuned_events : list event :=
  [ EvLog MSG_INFO "Card %d, tuner %d tuned"; EvCloseCardFd;
    EvLog MSG_INFO "The pid will be written in %s" ].

(** The variables on which the run depends once the frontend is being
    opened. *)
Definition tail_view (st : mstate) : tune_p_t * Z * Z * string * Z :=
  (tune_p st, interrupted st, no_daemon st, filename_pid st, server_id st).

(** The shapes of the run from the opening of the frontend on: the
    tuning has failed, it has succeeded, or the pid file could not be
    created. *)
Definition ends_failed (o : outcome) (s : mstate) (evs : list event) : Prop :=
  exists fin,
    o = Returned (mumudvb_close_status fin)
          (emit (EvMumudvbClose (interrupted fin)) fin) /\
    trace fin = (trace s ++ opening_events s ++ evs ++ tuning_issue_events)%list /\
    interrupted fin = set_interrupted_value (Z.shiftl ERROR_TUNE 8) (interrupted s) /\
    card_tuned (tune_p fin) = card_tuned (tune_p s).

Definition ends_tuned (o : outcome) (s : mstate) (evs : list event) : Prop :=
  exists fin,
    o = Returned (mumudvb_close_status fin)
          (emit (EvMumudvbClose (interrupted fin)) fin) /\
    trace fin = (trace s ++ opening_events s ++ evs ++ tuned_events)%list /\
    interrupted fin = interrupted s /\
    card_tuned (tune_p fin) = 1.

Definition ends_without_pid_file (o : outcome) (s : mstate) : Prop :=
  exists fin,
    o = Exit ERROR_CREATE_FILE fin /\
    trace fin =
      (trace s ++ opening_events s ++
       [ EvLog MSG_INFO "The pid will be written in %s";
         EvFopen (pid_file_path s) "w" false;
         EvLog MSG_INFO "%s: %s" ])%list.

(** The state of [main] while [tune_it] runs (line 944), when the run
    gets there. *)
Definition during_tuning `{Environment} (sA : mstate) : option mstate :=
  let s1 := open_frontend sA in
  if 0 <? iRet s1 then
    match write_pidfile s1 with
    | Continue s2 => if reads_file s2 then None else Some (emit EvTuneIt s2)
    | _ => None
    end
  else None.

(** A number does not fit [number] when the pid file is named: the
    run is undefined from there on. *)
Definition ends_overrun (o : outcome) (s : mstate) : Prop :=
  exists v fin,
    o = Fault (NumberOverflow v) fin /\
    number_fits v = false /\
    trace fin = (trace s ++ opening_events s)%list.

End RunNotions.

Section FileNotions.
Context `{Headers} `{Readers} `{Extern} `{Environment}.

(** The lines that the loop reads: those of the file, none without a
    file. *)
Definition lines_of (conf : conf_file) : list string :=
  match conf with
  | ConfLines lines => lines
  | NoConfFile | Unreadable => []
  end.

End FileNotions.

(* ===================================================================== *)
(** ** More concrete inputs, for the examples                             *)
(* ===================================================================== *)

(** The frontend opens, the tuning fails. *)
Definition untunable_environment : Environment := {|
  fopen_ok := fun _ _ => true;
  signal_was_ignored := fun _ => false;
  open_fe := fun _ _ _ => 3;
  tune_it := fun _ => -1
|}.

(** [SIGALRM] is ignored when the program starts, as under a parent that
    has set it to [SIG_IGN]; the card opens and tunes. *)
Definition ignoring_environment : Environment := {|
  fopen_ok := fun _ _ => true;
  signal_was_ignored := fun signum => signum =? SIGALRM;
  open_fe := fun _ _ _ => 3;
  tune_it := fun _ => 0
|}.

(** The state of [main] when the card is about to be opened, in a given
    environment. *)
Definition armed_in (env : Environment) (st : mstate) : mstate :=
  final_state
    (exec (settling_stages (H1 := env) ++ preparing_stages (H1 := env)) st).

(** The command line without [-d]: the program daemonizes. *)
Definition daemon_state : mstate := with_no_daemon 0 demo_state.

(** A recorded transport stream as input instead of a card. *)
Definition file_state : mstate :=
  upd_tune_p (with_read_file_path "/srv/capture.ts") demo_state.



(** As many values as [pids[MAX_PIDS]] has entries in [demo_headers]. *)
Definition sixteen_pids : string :=
  "pids=100 101 102 103 104 105 106 107 108 109 110 111 112 113 114 115".

(** Two channels. *)
Definition two_channels : conf_file :=
  ConfLines [ "new_channel"; "name=One"; "pids=100 200"; "# the second";
              "new_channel"; "name=Two" ].

(** As many [new_channel] lines as [channels[MAX_CHANNELS]] has entries in
    [demo_headers], and the state of [main] once they have been read. *)
Definition full_file : list string := repeat "new_channel" (Z.to_nat MAX_CHANNELS).

Definition full_table : mstate :=
  final_state (parse_config full_file (display_config [] (at_config_start demo_state))).

(** A server number of ten digits. *)
Definition wide_server : conf_file := ConfLines [ "server_id=1234567890" ].

(* ===================================================================== *)
(** * Properties                                                          *)
(* ===================================================================== *)

(** Tactics for goals about the state of [main]. *)

Ltac open_state st :=
  destruct st as [[] [] [] [] [] [] [] [] [] [] [] [] ? ? ? ? ? ? ? ? ? ? ? ? ? ? ? ?].

Ltac split_ifs :=
  repeat match goal with
         | |- context [if ?b then _ else _] => destruct b eqn:?
         | |- context [match ?x with Some _ => _ | None => _ end] => destruct x eqn:?
         end.

Ltac show_appended :=
  unfold appended; cbn; rewrite <- ?app_assoc; cbn;
  eexists; (split; [reflexivity || (rewrite app_nil_r; reflexivity)|reflexivity]).

Ltac show_in := rewrite ?in_app_iff; cbn; auto 10.

Ltac stage_effect st :=
  unfold kept, watched, log_message, emit, upd_tune_p, upd_unic_p, upd_log_params,
    upd_chan_p, upd_multi_p, upd_card_buffer, upd_rewrite_vars, nonzero;
  cbv zeta; split_ifs; open_state st; cbn in *;
  repeat match goal with
         | |- appended _ _ _ => show_appended
         | |- _ /\ _ => split
         | |- _ => reflexivity || assumption
         end.

(** ** The C library model *)

Module LibCFacts.
Import LibC.

Lemma skip_delims_length (d s : string) :
  (String.length (skip_delims d s) <= String.length s)%nat.
Proof.
  induction s as [|c s IH]; simpl; [lia|].
  destruct (is_delim d c); simpl; lia.
Qed.

Lemma span_token_length (d s : string) :
  (String.length (snd (span_token d s)) <= String.length s)%nat.
Proof.
  induction s as [|c s IH]; simpl; [lia|].
  destruct (is_delim d c); simpl; [lia|].
  destruct (span_token d s) as [tok rest]; simpl in *; lia.
Qed.

(** A call of [strtok] that returns a token moves the saved position
    forward. *)
Lemma strtok_shrinks (d s tok rest : string) :
  strtok d s = (Some tok, rest) ->
  (String.length rest < String.length s)%nat.
Proof.
  unfold strtok. intros Hs.
  pose proof (skip_delims_length d s) as Hlen.
  destruct (skip_delims d s) as [|c t] eqn:Hsk; [discriminate|].
  pose proof (span_token_length d (String c t)) as Hsp.
  destruct (span_token d (String c t)) as [tok' rest'] eqn:Htok.
  injection Hs as <- <-.
  assert (is_delim d c = false) as Hc.
  { clear -Hsk. induction s as [|a s IH]; simpl in Hsk; [discriminate|].
    destruct (is_delim d a) eqn:Ha; [auto|]. injection Hsk as -> _. exact Ha. }
  simpl in Htok. rewrite Hc in Htok.
  pose proof (span_token_length d t) as Ht.
  destruct (span_token d t) as [tok1 rest1]. injection Htok as _ <-.
  simpl in *. lia.
Qed.

Lemma tokens_fuel_enough (d : string) (n m : nat) (s : string) :
  (String.length s < n)%nat -> (String.length s < m)%nat ->
  tokens_fuel n d s = tokens_fuel m d s.
Proof.
  revert m s. induction n as [|n IH]; intros m s Hn Hm; [lia|].
  destruct m as [|m]; [lia|]. simpl.
  destruct (strtok d s) as [[tok|] rest] eqn:Hs; [|reflexivity].
  apply strtok_shrinks in Hs. f_equal. apply IH; lia.
Qed.

(** The fuel of [tokens] is enough: the list is the sequence of the
    results of [strtok] until [NULL]. *)
Lemma tokens_unfold (d s : string) :
  tokens d s =
  match strtok d s with
  | (Some tok, rest) => tok :: tokens d rest
  | (None, _) => []
  end.
Proof.
  unfold tokens at 1. simpl.
  destruct (strtok d s) as [[tok|] rest] eqn:Hs; [|reflexivity].
  apply strtok_shrinks in Hs. f_equal. apply tokens_fuel_enough; lia.
Qed.

(** [atoi] returns an [int]. *)
Lemma atoi_range (s : string) : INT_MIN <= atoi s <= INT_MAX.
Proof.
  unfold atoi, to_int, INT_MIN, INT_MAX.
  pose proof (Z.mod_pos_bound (strtol s + 2 ^ 31) (2 ^ 32)). lia.
Qed.

End LibCFacts.

(** ** The configuration loop *)

Section ConfigurationFacts.
Context `{Headers} `{Readers}.

Lemma readers_frame_refl (a : mstate) : readers_frame a a.
Proof. repeat split. Qed.

Lemma readers_frame_trans (a b c : mstate) :
  readers_frame a b -> readers_frame b c -> readers_frame a c.
Proof.
  unfold readers_frame, others_kept.
  intros (Hi & Hc & Hl & Ht & Htr & Ho) (Hi' & Hc' & Hl' & Ht' & Htr' & Ho').
  repeat split; try congruence.
  intros j Hj. rewrite Ho', Ho; [reflexivity|exact Hj|congruence].
Qed.

Lemma write_back_frame (c' : option mumudvb_channel_t) (st : mstate) :
  readers_frame st (write_back c' st).
Proof.
  unfold write_back, c_chan.
  destruct (ichan st <? 0) eqn:Hneg; [apply readers_frame_refl|].
  destruct c'; [|apply readers_frame_refl].
  destruct st as []; unfold readers_frame, others_kept, upd_chan_p; cbn in *.
  destruct chan_p0; cbn. rewrite length_insert. repeat split.
  intros j Hj. apply list_lookup_insert_ne. lia.
Qed.

Ltac frame_of_setter :=
  match goal with
  | |- readers_frame ?st _ =>
      destruct st; unfold readers_frame, others_kept; cbn; auto 10
  end.

Lemma classify_frame (st0 st : mstate) (ret : Z) (saved : string)
    (next : mstate -> string -> readers_outcome) :
  readers_frame st0 st ->
  (forall s sv, readers_frame st0 s ->
                readers_frame st0 (readers_outcome_state (next s sv))) ->
  readers_frame st0 (readers_outcome_state (classify ret st saved next)).
Proof.
  intros Hst Hnext. unfold classify.
  destruct (ret =? 0); [auto|]. destruct (ret =? -1); exact Hst.
Qed.

Lemma try_logging_frame (st0 : mstate) (sub : string) (s : mstate) (sv : string) :
  readers_frame st0 s ->
  readers_frame st0 (readers_outcome_state (try_logging sub s sv)).
Proof.
  intros Hs. unfold try_logging. apply classify_frame; [|auto].
  eapply readers_frame_trans; [exact Hs|]. frame_of_setter.
Qed.

Lemma try_rewrite_frame (st0 : mstate) (sub : string) (s : mstate) (sv : string) :
  readers_frame st0 s ->
  readers_frame st0 (readers_outcome_state (try_rewrite sub s sv)).
Proof.
  intros Hs. unfold try_rewrite.
  apply classify_frame; [|intros; by apply try_logging_frame].
  eapply readers_frame_trans; [exact Hs|]. frame_of_setter.
Qed.

Lemma try_multicast_frame (st0 : mstate) (sub : string) (s : mstate) (sv : string) :
  readers_frame st0 s ->
  readers_frame st0 (readers_outcome_state (try_multicast sub s sv)).
Proof.
  intros Hs. unfold try_multicast.
  apply classify_frame; [|intros; by apply try_rewrite_frame].
  eapply readers_frame_trans; [exact Hs|].
  eapply readers_frame_trans; [|apply write_back_frame]. frame_of_setter.
Qed.

Lemma try_unicast_frame (st0 : mstate) (sub : string) (s : mstate) (sv : string) :
  readers_frame st0 s ->
  readers_frame st0 (readers_outcome_state (try_unicast sub s sv)).
Proof.
  intros Hs. unfold try_unicast.
  apply classify_frame; [|intros; by apply try_multicast_frame].
  eapply readers_frame_trans; [exact Hs|].
  eapply readers_frame_trans; [|apply write_back_frame]. frame_of_setter.
Qed.

Lemma try_scam_frame (st0 : mstate) (sub : string) (s : mstate) (sv : string) :
  readers_frame st0 s ->
  readers_frame st0 (readers_outcome_state (try_scam sub s sv)).
Proof.
  intros Hs. unfold try_scam.
  destruct ENABLE_SCAM_SUPPORT; [|by apply try_unicast_frame].
  apply classify_frame; [|intros; by apply try_unicast_frame].
  eapply readers_frame_trans; [exact Hs|].
  eapply readers_frame_trans; [|apply write_back_frame]. frame_of_setter.
Qed.

Lemma try_cam_frame (st0 : mstate) (sub : string) (s : mstate) (sv : string) :
  readers_frame st0 s ->
  readers_frame st0 (readers_outcome_state (try_cam sub s sv)).
Proof.
  intros Hs. unfold try_cam.
  destruct ENABLE_CAM_SUPPORT; [|by apply try_scam_frame].
  apply classify_frame; [|intros; by apply try_scam_frame].
  eapply readers_frame_trans; [exact Hs|].
  eapply readers_frame_trans; [|apply write_back_frame]. frame_of_setter.
Qed.

Lemma try_sap_frame (st0 : mstate) (sub : string) (s : mstate) (sv : string) :
  readers_frame st0 s ->
  readers_frame st0 (readers_outcome_state (try_sap sub s sv)).
Proof.
  intros Hs. unfold try_sap.
  apply classify_frame; [|intros; by apply try_cam_frame].
  eapply readers_frame_trans; [exact Hs|].
  eapply readers_frame_trans; [|apply write_back_frame]. frame_of_setter.
Qed.

Lemma try_autoconf_frame (st0 : mstate) (sub : string) (s : mstate) (sv : string) :
  readers_frame st0 s ->
  readers_frame st0 (readers_outcome_state (try_autoconf sub s sv)).
Proof.
  intros Hs. unfold try_autoconf.
  apply classify_frame; [|intros; by apply try_sap_frame].
  eapply readers_frame_trans; [exact Hs|]. frame_of_setter.
Qed.

(** The chain of readers leaves the variables of [main] alone. *)
Lemma run_readers_frame (sub : string) (st : mstate) (saved : string) :
  readers_frame st (readers_outcome_state (run_readers sub st saved)).
Proof.
  unfold run_readers.
  apply classify_frame; [|intros; by apply try_autoconf_frame].
  frame_of_setter.
Qed.

(** *** Stores into the channel array *)

Lemma bind_Continue (o : outcome) (k : mstate -> outcome) (st' : mstate) :
  bind o k = Continue st' ->
  exists s, o = Continue s /\ k s = Continue st'.
Proof. destruct o; simpl; try discriminate. eauto. Qed.

Lemma store_channel_Continue (i : Z) (f : mumudvb_channel_t -> mumudvb_channel_t)
    (st st' : mstate) :
  store_channel i f st = Continue st' ->
  0 <= i /\
  exists c, channels (chan_p st) !! Z.to_nat i = Some c /\
    st' = upd_chan_p (with_channels (<[Z.to_nat i := f c]> (channels (chan_p st)))) st.
Proof.
  unfold store_channel. destruct (i <? 0) eqn:Hi; [discriminate|].
  destruct (channels (chan_p st) !! Z.to_nat i) as [c|] eqn:Hc; [|discriminate].
  intros [= <-]. split; [lia|]. eauto.
Qed.

Lemma channels_replaced_proj (l : list mumudvb_channel_t) (a b : mstate) :
  channels_replaced l a b ->
  channels (chan_p b) = l /\ ichan b = ichan a /\ card_buffer b = card_buffer a /\
  t2mi_pid (chan_p b) = t2mi_pid (chan_p a) /\ trace b = trace a.
Proof.
  intros ->. destruct a as []; destruct chan_p0; cbn. auto.
Qed.

Lemma store_c_chan_Continue (f : mumudvb_channel_t -> mumudvb_channel_t)
    (st st' : mstate) :
  store_c_chan f st = Continue st' ->
  exists c, deref_c_chan st = Some c /\ deref_c_chan st' = Some (f c) /\
    0 <= ichan st /\
    channels_replaced (<[Z.to_nat (ichan st) := f c]> (channels (chan_p st))) st st'.
Proof.
  unfold store_c_chan. intros Hs.
  apply store_channel_Continue in Hs as (Hi & c & Hc & ->).
  exists c. unfold deref_c_chan, c_chan.
  assert ((ichan st <? 0) = false) as Hneg by lia.
  destruct st as []; destruct chan_p0; cbn in *. rewrite Hneg.
  split; [exact Hc|]. split; [|split; [lia|reflexivity]].
  apply list_lookup_insert_eq. by eapply lookup_lt_Some.
Qed.

Lemma quiet_refl (a : mstate) : quiet a a.
Proof. repeat split. Qed.

Lemma quiet_trans (a b c : mstate) : quiet a b -> quiet b c -> quiet a c.
Proof.
  unfold quiet, others_kept.
  intros (Hi & Hd & Hl & Ho) (Hi' & Hd' & Hl' & Ho').
  repeat split; try congruence.
  intros j Hj. rewrite Ho', Ho; [reflexivity|exact Hj|congruence].
Qed.

Lemma store_channel_quiet (f : mumudvb_channel_t -> mumudvb_channel_t)
    (st st' : mstate) :
  store_channel (ichan st) f st = Continue st' -> quiet st st'.
Proof.
  intros Hs. apply store_channel_Continue in Hs as (Hi & c & _ & ->).
  destruct st as []; destruct chan_p0; unfold quiet, others_kept; cbn in *.
  rewrite length_insert. repeat split.
  intros j Hj. apply list_lookup_insert_ne. lia.
Qed.

Lemma log_message_quiet (lvl : msg_level) (fmt : string) (st : mstate) :
  quiet st (log_message lvl fmt st).
Proof. destruct st; repeat split. Qed.

Lemma with_int_quiet (saved : string) (st st' : mstate) (k : Z -> outcome) :
  (forall v, k v = Continue st' -> quiet st st') ->
  with_int saved st k = Continue st' -> quiet st st'.
Proof.
  intros Hk. unfold with_int.
  destruct (fst (LibC.strtok delimiteurs saved)); [apply Hk|discriminate].
Qed.

Ltac quiet_setter :=
  match goal with
  | |- quiet ?st _ =>
      destruct st; try (match goal with c : mumu_chan_p_t |- _ => destruct c end);
      try (match goal with c : card_buffer_t |- _ => destruct c end);
      unfold quiet, others_kept; cbn; auto 10
  end.

Lemma end_of_line_Continue (st st' : mstate) :
  end_of_line st = Continue st' -> ichan st <= MAX_CHANNELS /\ quiet st st'.
Proof.
  unfold end_of_line. destruct (MAX_CHANNELS <? ichan st) eqn:Hm; [discriminate|].
  intros [= <-]. split; [lia|].
  destruct (curr_channel_old st =? ichan st); [apply quiet_refl|quiet_setter].
Qed.

Lemma kw_psi_tables_filtering_quiet (saved : string) (st st' : mstate) :
  kw_psi_tables_filtering saved st = Continue st' -> quiet st st'.
Proof.
  unfold kw_psi_tables_filtering.
  destruct (fst (LibC.strtok delimiteurs saved)) as [tok|]; [|discriminate].
  intros [= <-].
  repeat match goal with
         | |- context [if ?b then _ else _] => destruct b
         end; quiet_setter.
Qed.

Lemma store_c_chan_quiet (f : mumudvb_channel_t -> mumudvb_channel_t)
    (st st' : mstate) :
  store_c_chan f st = Continue st' -> quiet st st'.
Proof. apply store_channel_quiet. Qed.

Lemma kw_dvr_thread_quiet (saved : string) (st st' : mstate) :
  kw_dvr_thread saved st = Continue st' -> quiet st st'.
Proof.
  apply with_int_quiet. intros v [= <-].
  destruct (threaded_read _ =? 0); quiet_setter.
Qed.

Lemma kw_service_id_quiet (substring saved : string) (st st' : mstate) :
  kw_service_id substring saved st = Continue st' -> quiet st st'.
Proof.
  unfold kw_service_id.
  set (st1 := if String.eqb substring "ts_id" then _ else st).
  assert (quiet st st1) as H1.
  { subst st1. destruct (String.eqb substring "ts_id");
      [apply log_message_quiet|apply quiet_refl]. }
  destruct (c_chan st1); [|discriminate].
  intros Hk. eapply quiet_trans; [exact H1|].
  revert Hk. apply with_int_quiet. intros v. apply store_c_chan_quiet.
Qed.

Lemma store_pid_quiet (ipid v : Z) (st st' : mstate) :
  store_pid ipid v st = Continue st' -> quiet st st'.
Proof.
  unfold store_pid. destruct (deref_c_chan st); [|discriminate].
  destruct (_ || _); [discriminate|]. apply store_c_chan_quiet.
Qed.

Lemma pids_loop_quiet (toks : list string) (ipid : Z) (st st' : mstate) :
  pids_loop toks ipid st = Continue st' -> quiet st st'.
Proof.
  revert ipid st. induction toks as [|tok toks IH]; intros ipid st; simpl.
  - apply store_c_chan_quiet.
  - intros Hb. apply bind_Continue in Hb as (s & Hs & Hk).
    apply store_pid_quiet in Hs.
    destruct (_ || _); [discriminate|].
    destruct (MAX_PIDS <=? ipid + 1); [discriminate|].
    eapply quiet_trans; [exact Hs|]. by eapply IH.
Qed.

Lemma kw_pids_quiet (saved : string) (st st' : mstate) :
  kw_pids saved st = Continue st' -> quiet st st'.
Proof.
  unfold kw_pids. destruct (c_chan st); [|discriminate].
  intros Hb. apply bind_Continue in Hb as (s & Hs & Hk).
  eapply quiet_trans; [by eapply store_c_chan_quiet|by eapply pids_loop_quiet].
Qed.

Lemma kw_pmt_pid_quiet (saved : string) (st st' : mstate) :
  kw_pmt_pid saved st = Continue st' -> quiet st st'.
Proof.
  unfold kw_pmt_pid. destruct (c_chan st); [|discriminate].
  apply with_int_quiet. intros v Hb.
  apply bind_Continue in Hb as (s & Hs & Hk).
  destruct (_ || _); [discriminate|].
  eapply quiet_trans; by eapply store_c_chan_quiet.
Qed.

Lemma kw_name_quiet (saved : string) (st st' : mstate) :
  kw_name saved st = Continue st' -> quiet st st'.
Proof.
  unfold kw_name. destruct (c_chan st); [|discriminate].
  intros Hb. apply bind_Continue in Hb as (s & Hs & Hk).
  apply store_c_chan_quiet in Hs.
  destruct (fst (LibC.strtok "=" saved)) as [substring|]; [|discriminate].
  destruct (fst (LibC.strtok _ substring)) as [nm|]; [|discriminate].
  apply bind_Continue in Hk as (s2 & Hs2 & Hk).
  apply store_c_chan_quiet in Hs2.
  eapply quiet_trans; [exact Hs|]. eapply quiet_trans; [exact Hs2|].
  destruct (_ <=? _); injection Hk as <-;
    [apply log_message_quiet|apply quiet_refl].
Qed.

Lemma kw_filename_pid_quiet (saved : string) (st st' : mstate) :
  kw_filename_pid saved st = Continue st' -> quiet st st'.
Proof.
  unfold kw_filename_pid.
  destruct (fst (LibC.strtok delimiteurs saved)) as [tok|]; [|discriminate].
  intros [= <-]. destruct (_ <=? _); quiet_setter.
Qed.

Lemma kw_t2mi_pid_quiet (saved : string) (st st' : mstate) :
  kw_t2mi_pid saved st = Continue st' -> quiet st st'.
Proof.
  apply with_int_quiet. intros v [= <-].
  destruct (_ || _); quiet_setter.
Qed.

(** [new_channel]: the index moves to the next entry of the array, and
    that entry is marked [ALMOST_READY]; nothing else changes in the
    array. *)
Lemma kw_new_channel_Continue (st st' : mstate) :
  kw_new_channel st = Continue st' ->
  ichan st' = ichan st + 1 /\
  dvr_buffer_size (card_buffer st') = dvr_buffer_size (card_buffer st) /\
  length (channels (chan_p st')) = length (channels (chan_p st)) /\
  0 <= ichan st' < Z.of_nat (length (channels (chan_p st'))) /\
  (exists c0,
     channels (chan_p st) !! Z.to_nat (ichan st') = Some c0 /\
     channels (chan_p st') !! Z.to_nat (ichan st')
       = Some (with_channel_ready ALMOST_READY c0)) /\
  (forall j : nat, Z.of_nat j <> ichan st + 1 ->
     channels (chan_p st') !! j = channels (chan_p st) !! j).
Proof.
  unfold kw_new_channel. intros Hb.
  apply bind_Continue in Hb as (s & Hs & [= <-]).
  apply store_channel_Continue in Hs as (Hi & c & Hc & ->).
  apply lookup_lt_Some in Hc as Hlt.
  destruct st as []; destruct chan_p0; cbn in *.
  rewrite length_insert. repeat split; try lia.
  - exists c. split; [exact Hc|]. by apply list_lookup_insert_eq.
  - intros j Hj. apply list_lookup_insert_ne. lia.
Qed.

(** [dvr_buffer_size]: whatever the value, the size ends up positive. *)
Lemma kw_dvr_buffer_size_Continue (saved : string) (st st' : mstate) :
  kw_dvr_buffer_size saved st = Continue st' ->
  ichan st' = ichan st /\
  chan_p st' = chan_p st /\
  1 <= dvr_buffer_size (card_buffer st').
Proof.
  unfold kw_dvr_buffer_size, with_int.
  destruct (fst (LibC.strtok delimiteurs saved)) as [tok|]; [|discriminate].
  intros [= <-].
  destruct st as []; destruct card_buffer0; cbn.
  destruct (LibC.atoi tok <=? 0) eqn:Hv; cbn; repeat split; lia.
Qed.

Lemma quiet_line_effect (a b : mstate) : quiet a b -> line_effect a b.
Proof.
  intros (Hi & Hd & Hl & Ho). unfold line_effect. rewrite Hd.
  split; [exact Hl|]. split; [auto|]. split; [auto|].
  intros Hu j c Hj Hc. rewrite Hi in Hj. rewrite Ho in Hc by lia. by eapply Hu.
Qed.

(** The effect of a line of [main]'s own keywords on the index, the array
    and the buffer size. *)
Lemma keywords_effect (n : Z) (substring saved : string) (st st' : mstate) :
  keywords n substring saved st = Continue st' -> line_effect st st'.
Proof.
  pose proof quiet_line_effect as Hq.
  assert (forall (o : outcome),
            (forall s, o = Continue s -> quiet st s) ->
            (do s <- o; end_of_line s) = Continue st' -> quiet st st') as Hstep.
  { intros o Ho Hb. apply bind_Continue in Hb as (s & Hs & He).
    apply end_of_line_Continue in He as [_ He].
    eapply quiet_trans; [by apply Ho|exact He]. }
  unfold keywords.
  destruct (String.eqb substring "new_channel").
  { intros Hb. apply bind_Continue in Hb as (s & Hs & He).
    apply end_of_line_Continue in He as [_ (Hi & Hd & Hl & Ho)].
    apply kw_new_channel_Continue in Hs as (Hi' & Hd' & Hl' & Hb & _ & Ho').
    unfold line_effect. rewrite Hl, Hd, Hi.
    split; [congruence|]. split; [lia|]. split; [right; lia|].
    intros Hu j c Hj Hc. rewrite Ho in Hc by lia. rewrite Ho' in Hc by lia.
    eapply Hu; [|exact Hc]. lia. }
  destruct (String.eqb substring "timeout_no_diff").
  { intros Hb. apply Hq. revert Hb. apply Hstep. intros s.
    apply with_int_quiet. intros v [= <-]. quiet_setter. }
  destruct (String.eqb substring "tuning_no_diff").
  { intros Hb. apply Hq. revert Hb. apply Hstep. intros s.
    apply with_int_quiet. intros v [= <-]. quiet_setter. }
  destruct (String.eqb substring "dont_send_scrambled").
  { intros Hb. apply Hq. revert Hb. apply Hstep. intros s.
    apply with_int_quiet. intros v [= <-]. quiet_setter. }
  destruct (String.eqb substring "filter_transport_error").
  { intros Hb. apply Hq. revert Hb. apply Hstep. intros s.
    apply with_int_quiet. intros v [= <-]. quiet_setter. }
  destruct (String.eqb substring "psi_tables_filtering").
  { intros Hb. apply Hq. revert Hb. apply Hstep. intros s.
    apply kw_psi_tables_filtering_quiet. }
  destruct (String.eqb substring "dvr_buffer_size").
  { intros Hb. apply bind_Continue in Hb as (s & Hs & He).
    apply end_of_line_Continue in He as [_ (Hi & Hd & Hl & Ho)].
    apply kw_dvr_buffer_size_Continue in Hs as (Hi' & Hc' & Hd').
    unfold line_effect. rewrite Hl, Hd, Hi, Hc'.
    split; [reflexivity|]. split; [lia|]. split; [left; lia|].
    intros Hu j c Hj Hc. rewrite Ho in Hc by lia. rewrite Hc' in Hc.
    eapply Hu; [|exact Hc]. lia. }
  destruct (String.eqb substring "dvr_thread").
  { intros Hb. apply Hq. revert Hb. apply Hstep. intros s.
    apply kw_dvr_thread_quiet. }
  destruct (String.eqb substring "dvr_thread_buffer_size").
  { intros Hb. apply Hq. revert Hb. apply Hstep. intros s.
    apply with_int_quiet. intros v [= <-]. quiet_setter. }
  destruct (String.eqb substring "service_id" || String.eqb substring "ts_id").
  { intros Hb. apply Hq. revert Hb. apply Hstep. intros s.
    apply kw_service_id_quiet. }
  destruct (String.eqb substring "pids").
  { intros Hb. apply Hq. revert Hb. apply Hstep. intros s. apply kw_pids_quiet. }
  destruct (String.eqb substring "pmt_pid").
  { intros Hb. apply Hq. revert Hb. apply Hstep. intros s. apply kw_pmt_pid_quiet. }
  destruct (String.eqb substring "name").
  { intros Hb. apply Hq. revert Hb. apply Hstep. intros s. apply kw_name_quiet. }
  destruct (String.eqb substring "server_id").
  { intros Hb. apply Hq. revert Hb. apply Hstep. intros s.
    apply with_int_quiet. intros v [= <-]. quiet_setter. }
  destruct (String.eqb substring "filename_pid").
  { intros Hb. apply Hq. revert Hb. apply Hstep. intros s.
    apply kw_filename_pid_quiet. }
  destruct (String.eqb substring "check_cc").
  { intros Hb. apply Hq. revert Hb. apply Hstep. intros s.
    apply with_int_quiet. intros v [= <-]. quiet_setter. }
  destruct (String.eqb substring "t2mi_pid").
  { intros Hb. apply Hq. revert Hb. apply Hstep. intros s. apply kw_t2mi_pid_quiet. }
  destruct (String.eqb substring "t2mi_plp").
  { intros Hb. apply Hq. revert Hb. apply Hstep. intros s.
    apply with_int_quiet. intros v [= <-]. quiet_setter. }
  intros [= <-]. apply Hq. destruct (1 <? n); [apply log_message_quiet|apply quiet_refl].
Qed.

(** *** One line, then the whole file *)

Lemma readers_frame_line_effect (a b : mstate) :
  readers_frame a b -> line_effect a b.
Proof.
  intros (Hi & Hc & Hl & _ & _ & Ho). unfold line_effect. rewrite Hc.
  split; [exact Hl|]. split; [auto|]. split; [auto|].
  intros Hu j c Hj Hlk. rewrite Hi in Hj. rewrite Ho in Hlk by lia. by eapply Hu.
Qed.

Lemma line_effect_after_readers (a b c : mstate) :
  readers_frame a b -> line_effect b c -> line_effect a c.
Proof.
  intros Hf (Hl & Hd & Hi & Hu).
  destruct (readers_frame_line_effect a b Hf) as (Hl0 & Hd0 & _ & Hu0).
  destruct Hf as (Hi0 & _).
  unfold line_effect. rewrite <- Hi0, <- Hl0.
  split; [exact Hl|]. split; [auto|]. split; [exact Hi|auto].
Qed.

Lemma dispatch_effect (n : Z) (substring saved : string) (st st' : mstate) :
  dispatch n substring saved st = Continue st' -> line_effect st st'.
Proof.
  unfold dispatch.
  pose proof (run_readers_frame substring st saved) as Hf.
  destruct (run_readers substring st saved) as [s|s|s sv]; simpl in Hf;
    [discriminate| |].
  - intros He. apply end_of_line_Continue in He as [_ He].
    eapply line_effect_after_readers; [exact Hf|by apply quiet_line_effect].
  - intros Hk. apply keywords_effect in Hk.
    by eapply line_effect_after_readers.
Qed.

Lemma process_line_effect (raw : string) (st st' : mstate) :
  process_line st raw = Continue st' -> line_effect st st'.
Proof.
  unfold process_line. destruct (scan_line raw) as [[[n sub] saved]|].
  - apply dispatch_effect.
  - intros [= <-]. apply quiet_line_effect, quiet_refl.
Qed.

Lemma parse_config_inv (lines : list string) (st st' : mstate) :
  parse_config lines st = Continue st' ->
  (channels_inv st -> channels_inv st') /\
  (1 <= dvr_buffer_size (card_buffer st) -> 1 <= dvr_buffer_size (card_buffer st')) /\
  (unused_inv st -> unused_inv st').
Proof.
  revert st. induction lines as [|l lines IH]; intros st; simpl.
  - intros [= <-]. auto.
  - intros Hb. apply bind_Continue in Hb as (s & Hs & Hp).
    apply process_line_effect in Hs as (Hl & Hd & Hi & Hu).
    apply IH in Hp as (Hc' & Hd' & Hu'). split; [|auto].
    intros [Hlen Hich]. apply Hc'. unfold channels_inv. rewrite Hl. split; [exact Hlen|].
    rewrite Hl in Hi. lia.
Qed.

Lemma parse_config_app (l1 l2 : list string) (st : mstate) :
  parse_config (l1 ++ l2) st = (do st' <- parse_config l1 st; parse_config l2 st').
Proof.
  revert st. induction l1 as [|l l1 IH]; intros st; simpl; [reflexivity|].
  destruct (process_line st l); simpl; auto.
Qed.

Lemma fold_log_fields (lines : list string) (st : mstate) :
  let st' := fold_left (fun s _ => log_message MSG_FLOOD "%03d %s" s) lines st in
  chan_p st' = chan_p st /\ card_buffer st' = card_buffer st /\ ichan st' = ichan st.
Proof.
  revert st. induction lines as [|l lines IH]; intros st; simpl; [auto|].
  destruct (IH (log_message MSG_FLOOD "%03d %s" st)) as (-> & -> & ->).
  by destruct st.
Qed.

Lemma display_config_fields (lines : list string) (st : mstate) :
  chan_p (display_config lines st) = chan_p st /\
  card_buffer (display_config lines st) = card_buffer st /\
  ichan (display_config lines st) = ichan st.
Proof.
  unfold display_config.
  set (s1 := log_message MSG_FLOOD "==== Configuration file ====" st).
  pose proof (fold_log_fields lines s1) as Hf. simpl in Hf.
  set (s2 := fold_left _ lines s1) in *. destruct Hf as (H1 & H2 & H3).
  assert (chan_p s1 = chan_p st /\ card_buffer s1 = card_buffer st /\
          ichan s1 = ichan st) as (E1 & E2 & E3) by (by destruct st).
  rewrite <- E1, <- E2, <- E3, <- H1, <- H2, <- H3. by destruct s2.
Qed.

Lemma at_config_start_fields (st : mstate) :
  chan_p (at_config_start st) = initial_chan_p /\
  card_buffer (at_config_start st) = initial_card_buffer /\
  ichan (at_config_start st) = -1.
Proof. by destruct st. Qed.

Lemma config_start_inv (shown : list string) (st0 : mstate) :
  channels_inv (display_config shown (at_config_start st0)).
Proof.
  destruct (display_config_fields shown (at_config_start st0)) as (Hc & _ & Hi).
  destruct (at_config_start_fields st0) as (Hc0 & _ & Hi0).
  unfold channels_inv. rewrite Hc, Hi, Hc0, Hi0. simpl.
  rewrite repeat_length. split; [reflexivity|lia].
Qed.

Lemma config_start_unused (shown : list string) (st0 : mstate) :
  unused_inv (display_config shown (at_config_start st0)).
Proof.
  destruct (display_config_fields shown (at_config_start st0)) as (Hc & _ & _).
  destruct (at_config_start_fields st0) as (Hc0 & _ & _).
  intros j c _. rewrite Hc, Hc0. simpl. intros Hlk.
  apply list_elem_of_lookup_2, list_elem_of_In in Hlk. by apply repeat_spec in Hlk.
Qed.

Lemma end_of_line_ok (st : mstate) :
  ichan st <= MAX_CHANNELS ->
  exists st', end_of_line st = Continue st' /\
    chan_p st' = chan_p st /\ ichan st' = ichan st /\
    card_buffer st' = card_buffer st /\ trace st' = trace st.
Proof.
  intros Hi. unfold end_of_line.
  assert ((MAX_CHANNELS <? ichan st) = false) as -> by lia.
  eexists. split; [reflexivity|].
  destruct (curr_channel_old st =? ichan st); by destruct st.
Qed.

Lemma process_line_declined (raw : string) (n : Z) (key saved saved1 : string)
    (st st1 : mstate) :
  scan_line raw = Some (n, key, saved) ->
  run_readers key st saved = RDeclined st1 saved1 ->
  process_line st raw = keywords n key saved1 st1 /\ readers_frame st st1.
Proof.
  intros Hscan Hrd. unfold process_line, dispatch. rewrite Hscan, Hrd.
  split; [reflexivity|].
  pose proof (run_readers_frame key st saved) as Hf. by rewrite Hrd in Hf.
Qed.

Lemma store_channel_ok (i : Z) (f : mumudvb_channel_t -> mumudvb_channel_t)
    (st : mstate) (c : mumudvb_channel_t) :
  0 <= i ->
  channels (chan_p st) !! Z.to_nat i = Some c ->
  store_channel i f st =
  Continue (upd_chan_p (with_channels (<[Z.to_nat i := f c]> (channels (chan_p st)))) st).
Proof.
  intros Hi Hc. unfold store_channel.
  assert ((i <? 0) = false) as -> by lia. by rewrite Hc.
Qed.

Lemma kw_new_channel_ok (st : mstate) :
  0 <= ichan st + 1 < Z.of_nat (length (channels (chan_p st))) ->
  exists st', kw_new_channel st = Continue st'.
Proof.
  intros Hb. unfold kw_new_channel.
  assert (ichan (with_ichan (ichan st + 1) st) = ichan st + 1) as E
    by (by destruct st).
  assert (chan_p (with_ichan (ichan st + 1) st) = chan_p st) as E'
    by (by destruct st).
  destruct (lookup_lt_is_Some_2 (channels (chan_p st)) (Z.to_nat (ichan st + 1)))
    as [c Hc]; [lia|].
  rewrite E. erewrite store_channel_ok; [|lia|by rewrite E'].
  simpl. eauto.
Qed.

(** C6 (the code, with the failing input as a case).  For every
    [new_channel] line met while the configuration is read.  If the array
    has an entry left, the line is accepted, [ichan] designates the newly
    declared channel, that entry was as [memset] left it (readiness 0,
    which is [NOT_READY] when this constant of the header is 0), and it is
    the same entry with its readiness state set to [ALMOST_READY].  If
    the array is full, [ichan] becomes [MAX_CHANNELS] and the store of
    [ALMOST_READY] goes to [chan_p.channels[MAX_CHANNELS]], outside the
    array: no channel takes the state. *)
Theorem new_channel_line_sets_almost_ready
    (shown before : list string) (st0 st st1 : mstate)
    (raw saved saved1 : string) (n : Z) :
  parse_config before (display_config shown (at_config_start st0)) = Continue st ->
  scan_line raw = Some (n, "new_channel", saved) ->
  run_readers "new_channel" st saved = RDeclined st1 saved1 ->
  0 <= MAX_CHANNELS ->
  (ichan st + 1 < MAX_CHANNELS ->
   exists st' c,
     process_line st raw = Continue st' /\
     ichan st' = ichan st + 1 /\
     channels (chan_p st) !! Z.to_nat (ichan st') = Some zero_channel /\
     channel_ready zero_channel = 0 /\
     (NOT_READY = 0 -> channel_ready zero_channel = NOT_READY) /\
     channels (chan_p st') !! Z.to_nat (ichan st') = Some c /\
     c = with_channel_ready ALMOST_READY zero_channel /\
     channel_ready c = ALMOST_READY) /\
  (MAX_CHANNELS <= ichan st + 1 ->
   ichan st + 1 = MAX_CHANNELS /\
   exists st',
     process_line st raw = Fault (ChannelOutOfBounds MAX_CHANNELS) st' /\
     ichan st' = MAX_CHANNELS /\
     Z.of_nat (length (channels (chan_p st'))) = MAX_CHANNELS /\
     channels (chan_p st') = channels (chan_p st1)).
Proof.
  intros Hreach Hscan Hrd Hmax.
  apply parse_config_inv in Hreach as (Hinv & _ & Hunused).
  destruct (Hinv (config_start_inv shown st0)) as [Hlen Hich].
  specialize (Hunused (config_start_unused shown st0)).
  destruct (process_line_declined _ _ _ _ _ _ _ Hscan Hrd)
    as [-> (Hi & _ & Hl & _ & _ & Ho)].
  unfold keywords. simpl String.eqb. cbv iota.
  split.
  - intros Hroom.
    destruct (kw_new_channel_ok st1) as [s Hkw]; [lia|]. rewrite Hkw. simpl.
    apply kw_new_channel_Continue in Hkw
      as (Hi' & _ & Hl' & Hb & (c0 & Hc0 & Hc) & _).
    destruct (end_of_line_ok s) as (st' & He & Hcp & Hie & _); [lia|].
    rewrite Ho in Hc0 by lia.
    assert (c0 = zero_channel) as ->.
    { eapply Hunused; [|exact Hc0]. lia. }
    exists st', (with_channel_ready ALMOST_READY zero_channel).
    rewrite He, Hie, Hcp. repeat split; auto; try lia; try congruence.
  - intros Hfull. split; [lia|].
    unfold kw_new_channel, store_channel.
    assert (ichan (with_ichan (ichan st1 + 1) st1) = MAX_CHANNELS) as E
      by (destruct st1; cbn in *; lia).
    assert (chan_p (with_ichan (ichan st1 + 1) st1) = chan_p st1) as E'
      by (by destruct st1).
    rewrite E, E'.
    assert ((MAX_CHANNELS <? 0) = false) as -> by lia.
    rewrite (proj2 (lookup_ge_None _ _)) by lia.
    simpl. eexists. split; [reflexivity|]. rewrite E, E'.
    split; [reflexivity|]. split; [lia|reflexivity].
Qed.

(** *** More channels than the array holds *)

Lemma new_channel_line_run (st : mstate) (n : Z) (saved : string) :
  scan_line "new_channel" = Some (n, "new_channel", saved) ->
  (forall s sv, exists s1 sv1, run_readers "new_channel" s sv = RDeclined s1 sv1) ->
  channels_inv st ->
  ichan st + 1 < MAX_CHANNELS ->
  exists st', process_line st "new_channel" = Continue st' /\
              channels_inv st' /\ ichan st' = ichan st + 1.
Proof.
  intros Hscan Hdecl [Hlen Hich] Hroom.
  destruct (Hdecl st saved) as (st1 & saved1 & Hrd).
  destruct (process_line_declined _ _ _ _ _ _ _ Hscan Hrd)
    as [-> (Hi & _ & Hl & _ & _)].
  unfold keywords. simpl String.eqb. cbv iota.
  destruct (kw_new_channel_ok st1) as [s Hkw]; [lia|]. rewrite Hkw. simpl.
  apply kw_new_channel_Continue in Hkw as (Hi' & _ & Hl' & Hb & _).
  destruct (end_of_line_ok s) as (st' & He & Hcp & Hie & _); [lia|].
  exists st'. split; [exact He|]. unfold channels_inv. rewrite Hcp, Hie. lia.
Qed.

Lemma new_channel_lines_run (k : nat) (st : mstate) (n : Z) (saved : string) :
  scan_line "new_channel" = Some (n, "new_channel", saved) ->
  (forall s sv, exists s1 sv1, run_readers "new_channel" s sv = RDeclined s1 sv1) ->
  channels_inv st ->
  ichan st + Z.of_nat k < MAX_CHANNELS ->
  exists st', parse_config (repeat "new_channel" k) st = Continue st' /\
              channels_inv st' /\ ichan st' = ichan st + Z.of_nat k.
Proof.
  intros Hscan Hdecl. revert st.
  induction k as [|k IH]; intros st Hinv Hroom; simpl repeat.
  - exists st. simpl. split; [reflexivity|]. split; [exact Hinv|lia].
  - destruct (new_channel_line_run st n saved Hscan Hdecl Hinv) as (s & Hs & Hinv' & Hi);
      [lia|].
    destruct (IH s Hinv') as (st' & Hp & Hinv'' & Hi'); [lia|].
    exists st'. simpl. rewrite Hs. simpl. split; [exact Hp|]. split; [exact Hinv''|lia].
Qed.

(** C3 (the code at the failing input).  With one [new_channel] line more
    than the array has entries, the configuration loop stores into
    [chan_p.channels[MAX_CHANNELS]], one past the end of the array; the
    test against [MAX_CHANNELS] comes after the store and has not stopped
    the run with [ERROR_TOO_CHANNELS]. *)
Theorem one_channel_too_many_overruns_array
    (shown : list string) (st0 : mstate) (n : Z) (saved : string) :
  scan_line "new_channel" = Some (n, "new_channel", saved) ->
  (forall s sv, exists s1 sv1, run_readers "new_channel" s sv = RDeclined s1 sv1) ->
  0 <= MAX_CHANNELS ->
  exists st',
    parse_config (repeat "new_channel" (S (Z.to_nat MAX_CHANNELS)))
      (display_config shown (at_config_start st0))
    = Fault (ChannelOutOfBounds MAX_CHANNELS) st'.
Proof.
  intros Hscan Hdecl Hmax.
  replace (S (Z.to_nat MAX_CHANNELS)) with (Z.to_nat MAX_CHANNELS + 1)%nat by lia.
  rewrite repeat_app, parse_config_app.
  pose proof (config_start_inv shown st0) as Hinv.
  set (s0 := display_config shown (at_config_start st0)) in *.
  assert (ichan s0 = -1) as Hi0.
  { subst s0. destruct (display_config_fields shown (at_config_start st0)) as (_ & _ & ->).
    by destruct st0. }
  destruct (new_channel_lines_run (Z.to_nat MAX_CHANNELS) s0 n saved Hscan Hdecl Hinv)
    as (s & -> & [Hlen Hich] & Hi); [lia|].
  simpl. destruct (Hdecl s saved) as (s1 & saved1 & Hrd).
  destruct (process_line_declined _ _ _ _ _ _ _ Hscan Hrd)
    as [-> (Hi1 & _ & Hl1 & _ & _)].
  unfold keywords. simpl String.eqb. cbv iota.
  unfold kw_new_channel, store_channel.
  assert (ichan (with_ichan (ichan s1 + 1) s1) = MAX_CHANNELS) as E
    by (destruct s1; cbn in *; lia).
  assert (chan_p (with_ichan (ichan s1 + 1) s1) = chan_p s1) as E'
    by (by destruct s1).
  rewrite E, E'.
  assert ((MAX_CHANNELS <? 0) = false) as -> by lia.
  rewrite (proj2 (lookup_ge_None _ _)) by lia.
  simpl. eauto.
Qed.

(** *** The [t2mi_pid] keyword *)

Lemma keywords_t2mi_pid (n : Z) (saved : string) (st : mstate) :
  keywords n "t2mi_pid" saved st = (do st' <- kw_t2mi_pid saved st; end_of_line st').
Proof. reflexivity. Qed.

(** C10.  A [t2mi_pid] line whose value is below 1 or above 8192 does not
    end the run: the line is accepted, a warning is logged after the
    information message, and [chan_p.t2mi_pid] is 4096. *)
Theorem t2mi_pid_out_of_range_is_forced
    (st st1 : mstate) (raw saved saved1 tok rest : string) (n : Z) :
  scan_line raw = Some (n, "t2mi_pid", saved) ->
  run_readers "t2mi_pid" st saved = RDeclined st1 saved1 ->
  LibC.strtok delimiteurs saved1 = (Some tok, rest) ->
  LibC.atoi tok < 1 \/ 8192 < LibC.atoi tok ->
  ichan st <= MAX_CHANNELS ->
  exists st',
    process_line st raw = Continue st' /\
    t2mi_pid (chan_p st') = 4096 /\
    trace st' = (trace st ++ [EvLog MSG_INFO "Demuxing T2-MI stream on pid %d as input";
                              EvLog MSG_WARN "wrong t2mi pid, forced to 4096"])%list.
Proof.
  intros Hscan Hrd Htok Hout Hich.
  destruct (process_line_declined _ _ _ _ _ _ _ Hscan Hrd)
    as [-> (Hi & _ & _ & _ & Htr & _)].
  rewrite keywords_t2mi_pid. unfold kw_t2mi_pid, with_int. rewrite Htok.
  simpl fst. cbv beta iota zeta.
  set (v := LibC.atoi tok) in *.
  set (s2 := log_message MSG_INFO _ (upd_chan_p (with_t2mi_pid v) st1)).
  assert (t2mi_pid (chan_p s2) = v) as Hv
    by (subst s2; destruct st1 as []; by destruct chan_p0).
  rewrite Hv.
  assert (((v <? 1) || (8192 <? v)) = true) as -> by lia.
  set (s3 := upd_chan_p _ _).
  destruct (end_of_line_ok s3) as (st' & He & Hcp & _ & _ & Htr').
  { subst s3 s2. destruct st1 as []; destruct chan_p0; cbn in *. lia. }
  exists st'. simpl. rewrite He, Hcp, Htr', <- Htr.
  split; [reflexivity|]. subst s3 s2.
  destruct st1 as []; destruct chan_p0; cbn.
  rewrite <- app_assoc. auto.
Qed.

(** *** The [pids] keyword *)

Lemma keywords_pids (n : Z) (saved : string) (st : mstate) :
  keywords n "pids" saved st = (do st' <- kw_pids saved st; end_of_line st').
Proof. reflexivity. Qed.

Lemma deref_c_chan_Some (st : mstate) (c : mumudvb_channel_t) :
  deref_c_chan st = Some c ->
  0 <= ichan st /\ channels (chan_p st) !! Z.to_nat (ichan st) = Some c.
Proof.
  unfold deref_c_chan, c_chan. destruct (ichan st <? 0) eqn:Hi; [discriminate|].
  intros Hc. split; [lia|exact Hc].
Qed.

Lemma store_c_chan_ok (f : mumudvb_channel_t -> mumudvb_channel_t)
    (st : mstate) (c : mumudvb_channel_t) :
  deref_c_chan st = Some c ->
  exists st', store_c_chan f st = Continue st' /\ deref_c_chan st' = Some (f c).
Proof.
  intros Hd. apply deref_c_chan_Some in Hd as Hc. destruct Hc as [Hi Hc].
  unfold store_c_chan. rewrite (store_channel_ok _ f st c Hi Hc).
  eexists. split; [reflexivity|].
  pose proof (store_channel_ok _ f st c Hi Hc) as Hs.
  apply store_c_chan_Continue in Hs as (c0 & Hd0 & Hd' & _).
  congruence.
Qed.

(** What a successful run of the loop leaves in the channel: the first
    [ipid] entries as they were, then the values of the tokens, each
    between 10 and 8192, and their number. *)
Lemma pids_loop_Continue (toks : list string) (ipid : nat) (st st' : mstate) :
  pids_loop toks (Z.of_nat ipid) st = Continue st' ->
  exists c c',
    deref_c_chan st = Some c /\ deref_c_chan st' = Some c' /\
    num_pids c' = Z.of_nat (ipid + length toks) /\
    (forall k, (k < ipid)%nat -> pids c' !! k = pids c !! k) /\
    (forall k tok, toks !! k = Some tok ->
       pids c' !! (ipid + k)%nat = Some (LibC.atoi tok) /\
       10 <= LibC.atoi tok <= 8192).
Proof.
  revert ipid st. induction toks as [|t toks IH]; intros ipid st; simpl.
  - intros Hs. apply store_c_chan_Continue in Hs as (c & Hc & Hc' & _).
    exists c, (with_num_pids (Z.of_nat ipid) c).
    split; [exact Hc|]. split; [exact Hc'|].
    split; [destruct c; cbn; f_equal; lia|].
    split; [intros; by destruct c|]. intros k tok Hk. discriminate.
  - intros Hb. apply bind_Continue in Hb as (s1 & Hs1 & Hk).
    unfold store_pid in Hs1.
    destruct (deref_c_chan st) as [c|] eqn:Hc; [|discriminate].
    destruct ((Z.of_nat ipid <? 0) || (Z.of_nat (length (pids c)) <=? Z.of_nat ipid))
      eqn:Hbound; [discriminate|].
    apply store_c_chan_Continue in Hs1 as (c0 & Hc0 & Hc1 & _).
    rewrite Hc in Hc0. injection Hc0 as <-.
    destruct ((LibC.atoi t <? 10) || (8193 <=? LibC.atoi t)) eqn:Hrange;
      [discriminate|].
    destruct (MAX_PIDS <=? Z.of_nat ipid + 1); [discriminate|].
    replace (Z.of_nat ipid + 1) with (Z.of_nat (S ipid)) in Hk by lia.
    apply IH in Hk as (c1 & c' & Hd1 & Hd' & Hnum & Hkeep & Htoks).
    rewrite Hc1 in Hd1. injection Hd1 as <-.
    exists c, c'. split; [reflexivity|]. split; [exact Hd'|].
    split; [rewrite Hnum; f_equal; lia|].
    assert (pids (with_pids (<[Z.to_nat (Z.of_nat ipid) := LibC.atoi t]> (pids c)) c)
            = <[ipid := LibC.atoi t]> (pids c)) as Hp
      by (rewrite Nat2Z.id; by destruct c).
    split.
    + intros k Hlt. rewrite Hkeep by lia. rewrite Hp.
      apply list_lookup_insert_ne. lia.
    + intros [|k] tok Hk; simpl in Hk.
      * injection Hk as <-. rewrite Nat.add_0_r, Hkeep by lia. rewrite Hp.
        split; [apply list_lookup_insert_eq; lia|lia].
      * replace (ipid + S k)%nat with (S ipid + k)%nat by lia. by apply Htoks.
Qed.

(** A value below 10 or above 8192 among the tokens ends the run with
    [ERROR_CONF]. *)
Lemma pids_loop_rejects (toks : list string) (ipid : Z) (st : mstate)
    (c : mumudvb_channel_t) :
  deref_c_chan st = Some c ->
  length (pids c) = Z.to_nat MAX_PIDS ->
  0 <= ipid < MAX_PIDS ->
  Exists (fun tok => LibC.atoi tok < 10 \/ 8192 < LibC.atoi tok) toks ->
  exists st', pids_loop toks ipid st = Exit ERROR_CONF st'.
Proof.
  revert ipid st c. induction toks as [|t toks IH]; intros ipid st c Hc Hlen Hip Hbad.
  - inversion Hbad.
  - simpl. unfold store_pid. rewrite Hc.
    assert (((ipid <? 0) || (Z.of_nat (length (pids c)) <=? ipid)) = false) as ->
      by lia.
    destruct (store_c_chan_ok (with_pids (<[Z.to_nat ipid := LibC.atoi t]> (pids c))) st c Hc)
      as (s1 & -> & Hc1).
    simpl.
    destruct ((LibC.atoi t <? 10) || (8193 <=? LibC.atoi t)) eqn:Hrange; [eauto|].
    destruct (MAX_PIDS <=? ipid + 1) eqn:Hmax; [eauto|].
    inversion Hbad as [? ? Hhead|? ? Htail]; subst; [lia|].
    eapply IH; [exact Hc1| |lia|exact Htail].
    destruct c; cbn in *. by rewrite length_insert.
Qed.

(** C2 (as amended).  On a [pids] line the values that are accepted lie
    between 10 and 8192: when the line is accepted, the channel holds the
    values of the tokens, in order, each in that range, and their number;
    when some value is below 10 or above 8192, the run ends with
    [exit (ERROR_CONF)] while the configuration is read. *)
Theorem pids_line_accepts_10_to_8192
    (st st1 : mstate) (raw saved saved1 : string) (n : Z) :
  scan_line raw = Some (n, "pids", saved) ->
  run_readers "pids" st saved = RDeclined st1 saved1 ->
  (ichan st1 < 0 \/
   exists c, deref_c_chan st1 = Some c /\ length (pids c) = Z.to_nat MAX_PIDS /\
             0 < MAX_PIDS) ->
  (forall st', process_line st raw = Continue st' ->
     exists c, deref_c_chan st' = Some c /\
       num_pids c = Z.of_nat (length (LibC.tokens delimiteurs saved1)) /\
       forall k tok, LibC.tokens delimiteurs saved1 !! k = Some tok ->
         pids c !! k = Some (LibC.atoi tok) /\ 10 <= LibC.atoi tok <= 8192) /\
  (Exists (fun tok => LibC.atoi tok < 10 \/ 8192 < LibC.atoi tok)
     (LibC.tokens delimiteurs saved1) ->
   exists st', process_line st raw = Exit ERROR_CONF st').
Proof.
  intros Hscan Hrd Hwf.
  destruct (process_line_declined _ _ _ _ _ _ _ Hscan Hrd) as [-> _].
  rewrite keywords_pids. split.
  - intros st' Hb. apply bind_Continue in Hb as (s & Hs & He).
    unfold kw_pids in Hs. destruct (c_chan st1); [|discriminate].
    apply bind_Continue in Hs as (s1 & _ & Hloop).
    apply (pids_loop_Continue _ 0) in Hloop as (c & c' & _ & Hc' & Hnum & _ & Htoks).
    unfold end_of_line in He. destruct (MAX_CHANNELS <? ichan s); [discriminate|].
    exists c'. split; [|split; [exact Hnum|exact Htoks]].
    injection He as <-.
    destruct (curr_channel_old s =? ichan s); [exact Hc'|].
    rewrite <- Hc'. by destruct s.
  - intros Hbad. unfold kw_pids, c_chan.
    destruct Hwf as [Hneg|(c & Hc & Hlen & Hmax)].
    + assert ((ichan st1 <? 0) = true) as -> by lia. simpl. eauto.
    + apply deref_c_chan_Some in Hc as Hi. destruct Hi as [Hi _].
      assert ((ichan st1 <? 0) = false) as -> by lia.
      destruct (store_c_chan_ok (fun c => with_pmt_rewrite 1 (with_pid_f F_USER c)) st1 c Hc)
        as (s1 & -> & Hc1).
      simpl.
      destruct (pids_loop_rejects (LibC.tokens delimiteurs saved1) 0 s1 _ Hc1)
        as (st' & ->); [by destruct c|lia|exact Hbad|].
      simpl. eauto.
Qed.

End ConfigurationFacts.

(** ** The start-up sequence: the settled configuration *)

Section SettleFacts.
Context `{Headers} `{Extern} `{Environment}.

Lemma appended_refl (P : event -> bool) (a : mstate) : appended P a a.
Proof. exists []. by rewrite app_nil_r. Qed.

Lemma appended_trans (P : event -> bool) (a b c : mstate) :
  appended P a b -> appended P b c -> appended P a c.
Proof.
  intros (e1 & E1 & F1) (e2 & E2 & F2). exists (e1 ++ e2)%list.
  rewrite E2, E1, <- app_assoc, forallb_app, F1, F2. auto.
Qed.

Lemma appended_weaken (P Q : event -> bool) (a b : mstate) :
  (forall e, P e = true -> Q e = true) -> appended P a b -> appended Q a b.
Proof.
  intros HPQ (evs & Htr & HP). exists evs. split; [exact Htr|].
  rewrite forallb_forall in *. auto.
Qed.

Lemma appended_In (P : event -> bool) (a b : mstate) (e : event) :
  appended P a b -> In e (trace a) -> In e (trace b).
Proof. intros (evs & -> & _) Hin. apply in_or_app. by left. Qed.

Lemma kept_refl (a : mstate) : kept a a.
Proof. repeat split. Qed.

Lemma kept_trans (a b c : mstate) : kept a b -> kept b c -> kept a c.
Proof. unfold kept. intuition congruence. Qed.

Lemma watched_eq (a b : mstate) :
  watched b = watched a ->
  interrupted b = interrupted a /\
  card_tuned (tune_p b) = card_tuned (tune_p a) /\
  card_tuned_ptr b = card_tuned_ptr a /\
  tuning_timeout (tune_p b) = tuning_timeout (tune_p a) /\
  unicast (unic_p b) = unicast (unic_p a) /\
  ttl (multi_p b) = ttl (multi_p a).
Proof. unfold watched. intros [= -> -> -> -> -> ->]. repeat split. Qed.

Lemma note_calm (e : event) : is_note e = true -> calm e = true.
Proof. by destruct e. Qed.

Lemma calm_no_alarm (e : event) : calm e = true -> no_alarm e = true.
Proof. by destruct e. Qed.

Lemma calm_no_card (e : event) : calm e = true -> touches_card e = false.
Proof. by destruct e. Qed.

(** *** The settings derived from the configuration *)

Lemma default_card_effect (st : mstate) :
  appended is_note st (default_card st) /\ kept st (default_card st) /\
  card_buffer (default_card st) = card_buffer st /\
  multi_p (default_card st) = multi_p st.
Proof. unfold default_card. stage_effect st. Qed.

Lemma autoconf_defaults_effect (st : mstate) :
  appended is_note st (autoconf_defaults st) /\ kept st (autoconf_defaults st) /\
  card_buffer (autoconf_defaults st) = card_buffer st /\
  multi_p (autoconf_defaults st) = multi_p st.
Proof. unfold autoconf_defaults. stage_effect st. Qed.

Lemma adjust_buffers_effect (st : mstate) :
  appended is_note st (adjust_buffers st) /\ kept st (adjust_buffers st) /\
  multi_p (adjust_buffers st) = multi_p st.
Proof. unfold adjust_buffers. stage_effect st. Qed.

(** *** The templates and [number] *)

Lemma with_number_fits (v : Z) (st : mstate) (k : string -> outcome) :
  number_fits v = true -> with_number v st k = k (LibC.itoa v).
Proof. intros Hv. unfold with_number. by rewrite Hv. Qed.

Lemma with_number_overrun (v : Z) (st : mstate) (k : string -> outcome) :
  number_fits v = false -> with_number v st k = Fault (NumberOverflow v) st.
Proof. intros Hv. unfold with_number. by rewrite Hv. Qed.

Lemma expand_templates_fit (path : string) (st : mstate) (k : string -> outcome) :
  templates_fit st = true ->
  expand_templates path st k = k (expanded path st).
Proof.
  unfold templates_fit. intros Hf.
  apply andb_prop in Hf as [Hf H3]. apply andb_prop in Hf as [H1' H2'].
  unfold expand_templates. by rewrite !with_number_fits.
Qed.

Lemma expand_templates_overrun (path : string) (st : mstate)
    (k : string -> outcome) :
  templates_fit st = false ->
  exists v,
    expand_templates path st k = Fault (NumberOverflow v) st /\
    number_fits v = false.
Proof.
  unfold templates_fit, expand_templates. intros Hf.
  destruct (number_fits (card (tune_p st))) eqn:E1;
    [|eexists; split; [by apply with_number_overrun|exact E1]].
  rewrite with_number_fits by exact E1. cbv zeta.
  destruct (number_fits (tuner (tune_p st))) eqn:E2;
    [|eexists; split; [by apply with_number_overrun|exact E2]].
  rewrite with_number_fits by exact E2. simpl in Hf.
  eexists. split; [by apply with_number_overrun|exact Hf].
Qed.

Lemma expand_templates_cases (path : string) (st : mstate)
    (k : string -> outcome) :
  expand_templates path st k = k (expanded path st) \/
  exists v,
    expand_templates path st k = Fault (NumberOverflow v) st /\
    number_fits v = false.
Proof.
  destruct (templates_fit st) eqn:E.
  - left. by apply expand_templates_fit.
  - right. by apply expand_templates_overrun.
Qed.

Lemma device_path_template_effect (st : mstate) :
  let s := final_state (device_path_template st) in
  appended is_note st s /\ kept st s /\
  card_buffer s = card_buffer st /\ multi_p s = multi_p st /\
  passes_or_overruns (device_path_template st).
Proof.
  cbv zeta. unfold device_path_template, with_number, passes_or_overruns.
  destruct (number_fits (card (tune_p st))) eqn:E; simpl final_state.
  - generalize (LibC.itoa (card (tune_p st))). intros number.
    clear E. stage_effect st. eauto.
  - split; [apply appended_refl|]. split; [apply kept_refl|]. eauto 8.
Qed.

Lemma unicast_port_template_effect (st : mstate) :
  let s := final_state (unicast_port_template st) in
  appended is_note st s /\ kept st s /\
  card_buffer s = card_buffer st /\ multi_p s = multi_p st /\
  passes_or_overruns (unicast_port_template st).
Proof.
  cbv zeta. unfold unicast_port_template, passes_or_overruns.
  destruct (portOut_str (unic_p st)) as [p|] eqn:Ep; simpl final_state;
    [|split; [apply appended_refl|]; split; [apply kept_refl|]; eauto 8].
  match goal with |- context [expand_templates p st ?k] =>
    destruct (expand_templates_cases p st k) as [-> | (v & -> & Hv)] end;
    simpl final_state;
    [|split; [apply appended_refl|]; split; [apply kept_refl|]; eauto 8].
  generalize (expanded p st). intros p'. clear Ep.
  stage_effect st. eauto.
Qed.

Lemma log_file_template_effect (st : mstate) :
  let s := final_state (log_file_template st) in
  appended is_note st s /\ kept st s /\
  card_buffer s = card_buffer st /\ multi_p s = multi_p st /\
  passes_or_overruns (log_file_template st).
Proof.
  cbv zeta. unfold log_file_template, passes_or_overruns.
  destruct (log_file_path (log_params st)) as [p|] eqn:Ep; simpl final_state;
    [|split; [apply appended_refl|]; split; [apply kept_refl|]; eauto 8].
  match goal with |- context [expand_templates p st ?k] =>
    destruct (expand_templates_cases p st k) as [-> | (v & -> & Hv)] end;
    simpl final_state;
    [|split; [apply appended_refl|]; split; [apply kept_refl|]; eauto 8].
  generalize (expanded p st). intros p'. clear Ep.
  stage_effect st; eauto.
Qed.

Lemma card_templates_effect (st : mstate) :
  let s := final_state (card_templates st) in
  appended is_note st s /\ kept st s /\
  card_buffer s = card_buffer st /\ multi_p s = multi_p st /\
  passes_or_overruns (card_templates st).
Proof.
  cbv zeta. unfold card_templates.
  destruct (device_path_template_effect st) as (A1 & K1 & C1 & M1 & O1).
  destruct O1 as [(s1 & E1)|(v & s1 & E1 & Hv)]; rewrite E1 in *;
    simpl in A1, K1, C1, M1; simpl bind;
    [|simpl final_state; unfold passes_or_overruns; eauto 10].
  destruct (unicast_port_template_effect s1) as (A2 & K2 & C2 & M2 & O2).
  destruct O2 as [(s2 & E2)|(v & s2 & E2 & Hv)]; rewrite E2 in *;
    simpl in A2, K2, C2, M2; simpl bind.
  - destruct (log_file_template_effect s2) as (A3 & K3 & C3 & M3 & O3).
    split; [|split; [|split; [|split]]].
    + repeat (eapply appended_trans; [eassumption|]). apply appended_refl.
    + repeat (eapply kept_trans; [eassumption|]). apply kept_refl.
    + congruence.
    + congruence.
    + exact O3.
  - simpl final_state. split; [|split; [|split; [|split]]].
    + eapply appended_trans; eassumption.
    + eapply kept_trans; eassumption.
    + congruence.
    + congruence.
    + unfold passes_or_overruns. eauto 10.
Qed.

Lemma announce_start_effect (st : mstate) :
  appended is_note st (announce_start st) /\ kept st (announce_start st) /\
  card_buffer (announce_start st) = card_buffer st /\
  multi_p (announce_start st) = multi_p st.
Proof. unfold announce_start. stage_effect st. Qed.

Lemma multicast_switches_effect (st : mstate) :
  appended is_note st (multicast_switches st) /\ kept st (multicast_switches st) /\
  card_buffer (multicast_switches st) = card_buffer st /\
  multicast (multi_p (multicast_switches st)) =
    (if ttl (multi_p st) =? 0 then 0 else multicast (multi_p st)).
Proof.
  unfold multicast_switches. stage_effect st; lia.
Qed.


Lemma settle_effect (st : mstate) :
  appended is_note st (settle st) /\ kept st (settle st) /\
  card_buffer (settle st) =
    card_buffer (adjust_buffers (autoconf_defaults (default_card st))) /\
  multicast (multi_p (settle st)) =
    (if ttl (multi_p st) =? 0 then 0 else multicast (multi_p st)).
Proof.
  unfold settle.
  destruct (default_card_effect st) as (A1 & K1 & C1 & M1).
  set (s1 := default_card st) in *.
  destruct (autoconf_defaults_effect s1) as (A2 & K2 & C2 & M2).
  set (s2 := autoconf_defaults s1) in *.
  destruct (adjust_buffers_effect s2) as (A3 & K3 & M3).
  set (s3 := adjust_buffers s2) in *.
  destruct (card_templates_effect s3) as (A4 & K4 & C4 & M4 & _).
  set (s4 := final_state (card_templates s3)) in *.
  destruct (announce_start_effect s4) as (A5 & K5 & C5 & M5).
  set (s5 := announce_start s4) in *.
  destruct (multicast_switches_effect s5) as (A6 & K6 & C6 & M6).
  split; [|split; [|split]].
  - repeat (eapply appended_trans; [eassumption|]). apply appended_refl.
  - repeat (eapply kept_trans; [eassumption|]). apply kept_refl.
  - congruence.
  - rewrite M6, M5, M4, M3, M2, M1. reflexivity.
Qed.

End SettleFacts.

(** ** The start-up sequence: from the check of the outputs *)

Section StartupFacts.
Context `{Headers} `{Extern} `{Environment}.

(** *** The check of the outputs and the state files *)

Lemma run_stages_exec (a b : list stage) (st s : mstate) :
  exec a st = Continue s -> run_stages (a ++ b) st = run_stages b s.
Proof.
  revert st. induction a as [|f a IH]; intros st; simpl.
  - by intros [= ->].
  - intros Hb. destruct (f st) as [s1| | | |] eqn:Hf; simpl in Hb; try discriminate.
    by apply IH.
Qed.

Lemma run_stages_cons (f : stage) (stages : list stage) (st : mstate) :
  run_stages (f :: stages) st =
  match f st with
  | Continue st' => run_stages stages st'
  | GotoClose st' => mumudvb_close_goto st'
  | o => o
  end.
Proof. reflexivity. Qed.

Lemma run_stages_always (f : mstate -> mstate) (stages : list stage) (st : mstate) :
  run_stages (always f :: stages) st = run_stages stages (f st).
Proof. reflexivity. Qed.

Lemma exec_app (a b : list stage) (st : mstate) :
  exec (a ++ b) st = (do s <- exec a st; exec b s).
Proof.
  revert st. induction a as [|f a IH]; intros st; simpl; [reflexivity|].
  destruct (f st); simpl; auto.
Qed.

Lemma run_stages_fault (a b : list stage) (st s : mstate) (f : fault) :
  exec a st = Fault f s -> run_stages (a ++ b) st = Fault f s.
Proof.
  revert st. induction a as [|g a IH]; intros st; simpl; [discriminate|].
  destruct (g st) as [s1| | | |] eqn:Hg; simpl; try discriminate.
  - apply IH.
  - by intros [= -> ->].
Qed.

(** *** The settings, as far as [number] holds the numbers *)

Lemma settling_exec (st : mstate) :
  exec settling_stages st =
  (do s <- card_templates (adjust_buffers (autoconf_defaults (default_card st)));
   Continue (multicast_switches (announce_start s))).
Proof.
  cbv [exec settling_stages always bind].
  by destruct (card_templates _).
Qed.

Lemma settling_cases (st : mstate) :
  exec settling_stages st = Continue (settle st) \/
  exists v s,
    exec settling_stages st = Fault (NumberOverflow v) s /\
    number_fits v = false /\ appended is_note st s.
Proof.
  rewrite settling_exec. unfold settle.
  destruct (default_card_effect st) as (A1 & _).
  set (s1 := default_card st) in *.
  destruct (autoconf_defaults_effect s1) as (A2 & _).
  set (s2 := autoconf_defaults s1) in *.
  destruct (adjust_buffers_effect s2) as (A3 & _).
  set (s3 := adjust_buffers s2) in *.
  destruct (card_templates_effect s3) as (A4 & _ & _ & _ & O4).
  destruct O4 as [(s4 & E4)|(v & s4 & E4 & Hv)]; rewrite E4 in *; simpl in *.
  - by left.
  - right. exists v, s4. split; [reflexivity|]. split; [exact Hv|].
    repeat (eapply appended_trans; [eassumption|]). apply appended_refl.
Qed.

Lemma settling_Continue (st s : mstate) :
  exec settling_stages st = Continue s -> s = settle st.
Proof.
  destruct (settling_cases st) as [-> | (v & s' & -> & _)]; [|discriminate].
  by intros [= <-].
Qed.

Lemma main_after_config_settle (st s : mstate) :
  exec settling_stages st = Continue s ->
  s = settle st /\
  main_after_config st =
    run_stages (preparing_stages ++ tuning_stages ++ closing_stages) s.
Proof.
  intros Hs. split; [by apply settling_Continue|].
  unfold main_after_config, startup_stages. by apply run_stages_exec.
Qed.

Lemma main_after_config_overrun (st s : mstate) (f : fault) :
  exec settling_stages st = Fault f s -> main_after_config st = Fault f s.
Proof. apply run_stages_fault. Qed.

Lemma faultless_settles (st : mstate) :
  faultless (main_after_config st) = true ->
  exec settling_stages st = Continue (settle st).
Proof.
  intros Hf. destruct (settling_cases st) as [E | (v & s & E & _)]; [exact E|].
  rewrite (main_after_config_overrun _ _ _ E) in Hf. discriminate.
Qed.

Lemma check_sinks_pass (st : mstate) :
  unicast (unic_p st) <> 0 \/ multicast (multi_p st) <> 0 ->
  check_sinks st = Continue st.
Proof.
  intros Hs. unfold check_sinks.
  destruct (multicast (multi_p st) =? 0) eqn:Hm; [|reflexivity].
  destruct (unicast (unic_p st) =? 0) eqn:Hu; [lia|reflexivity].
Qed.

Lemma settle_outputs (st : mstate) :
  unicast (unic_p st) <> 0 \/
  (multicast (multi_p st) <> 0 /\ ttl (multi_p st) <> 0) ->
  check_sinks (settle st) = Continue (settle st).
Proof.
  intros Hs. apply check_sinks_pass.
  destruct (settle_effect st) as (_ & (Hw & _) & _ & Hm).
  apply watched_eq in Hw as (_ & _ & _ & _ & Hu & Ht).
  rewrite Hu, Hm. destruct (ttl (multi_p st) =? 0) eqn:E; lia.
Qed.

Lemma create_list_file_effect (path : string) (st : mstate) :
  appended is_note st (create_list_file path st) /\
  watched (create_list_file path st) = watched st /\
  tune_p (create_list_file path st) = tune_p st /\
  filename_channels_not_streamed (create_list_file path st)
    = filename_channels_not_streamed st /\
  In (EvFopen path "w" (fopen_ok path "w")) (trace (create_list_file path st)) /\
  (fopen_ok path "w" = false ->
   write_streamed_channels (create_list_file path st) = 0 /\
   In (EvLog MSG_WARN "Can't create %s: %s") (trace (create_list_file path st))) /\
  (fopen_ok path "w" = true ->
   write_streamed_channels (create_list_file path st) = write_streamed_channels st) /\
  (write_streamed_channels st = 0 ->
   write_streamed_channels (create_list_file path st) = 0).
Proof.
  unfold create_list_file, watched, log_message, emit.
  destruct (fopen_ok path "w"); open_state st; cbn;
    (split; [show_appended|]); repeat (split; [reflexivity|]);
    (split; [show_in|]);
    (split; [intros Hf; first [discriminate Hf|split; [reflexivity|show_in]]|]);
    (split; [intros Hf; first [discriminate Hf|reflexivity]|auto]).
Qed.

Lemma create_cam_info_effect (st : mstate) :
  appended is_note st (create_cam_info st) /\
  watched (create_cam_info st) = watched st /\
  write_streamed_channels (create_cam_info st) = write_streamed_channels st.
Proof.
  unfold create_cam_info, watched, log_message, emit.
  split_ifs; open_state st; cbn; (split; [show_appended|auto]).
Qed.

Lemma state_files_effect (st : mstate) :
  let p1 := STREAMED_LIST_PATH (card (tune_p st)) (tuner (tune_p st)) in
  let p2 := NOT_STREAMED_LIST_PATH (card (tune_p st)) (tuner (tune_p st)) in
  appended is_note st (state_files st) /\
  watched (state_files st) = watched st /\
  In (EvFopen p1 "w" (fopen_ok p1 "w")) (trace (state_files st)) /\
  In (EvFopen p2 "w" (fopen_ok p2 "w")) (trace (state_files st)) /\
  (fopen_ok p1 "w" = false \/ fopen_ok p2 "w" = false ->
   write_streamed_channels (state_files st) = 0 /\
   In (EvLog MSG_WARN "Can't create %s: %s") (trace (state_files st))) /\
  (fopen_ok p1 "w" = true -> fopen_ok p2 "w" = true ->
   write_streamed_channels (state_files st) = write_streamed_channels st).
Proof.
  cbn zeta. unfold state_files. cbv zeta.
  set (c := card (tune_p st)). set (t := tuner (tune_p st)).
  set (st2 := with_filename_channels_not_streamed _ _).
  set (st3 := if ENABLE_CAM_SUPPORT then _ else st2).
  assert (trace st3 = trace st /\ watched st3 = watched st /\
          write_streamed_channels st3 = write_streamed_channels st /\
          filename_channels_streamed st3 = STREAMED_LIST_PATH c t /\
          filename_channels_not_streamed st3 = NOT_STREAMED_LIST_PATH c t)
    as (T3 & W3 & S3 & P1 & P2).
  { subst st3 st2 c t. unfold watched.
    destruct ENABLE_CAM_SUPPORT; open_state st; cbn; auto. }
  rewrite P1.
  destruct (create_list_file_effect (STREAMED_LIST_PATH c t) st3)
    as (A4 & W4 & _ & N4 & I4 & F4 & O4 & _).
  set (st4 := create_list_file _ st3) in *.
  rewrite N4, P2.
  destruct (create_list_file_effect (NOT_STREAMED_LIST_PATH c t) st4)
    as (A5 & W5 & _ & _ & I5 & F5 & O5 & Z5).
  set (st5 := create_list_file _ st4) in *.
  destruct (create_cam_info_effect st5) as (A6 & W6 & S6).
  set (st6 := create_cam_info st5) in *.
  assert (appended is_note st6 (log_message MSG_INFO "Streaming. Freq %f" st6) /\
          watched (log_message MSG_INFO "Streaming. Freq %f" st6) = watched st6 /\
          write_streamed_channels (log_message MSG_INFO "Streaming. Freq %f" st6)
            = write_streamed_channels st6) as (A7 & W7 & S7).
  { generalize st6. intros s. unfold watched, log_message, emit.
    open_state s. cbn. split; [show_appended|auto]. }
  set (st7 := log_message _ _ st6) in *.
  assert (appended is_note st st4) as A04.
  { destruct A4 as (evs & E & F). exists evs. by rewrite E, T3. }
  split; [|split; [|split; [|split; [|split]]]].
  - eapply appended_trans; [exact A04|]. eapply appended_trans; [exact A5|].
    eapply appended_trans; [exact A6|]. exact A7.
  - congruence.
  - eapply appended_In; [exact A7|]. eapply appended_In; [exact A6|].
    eapply appended_In; [exact A5|]. exact I4.
  - eapply appended_In; [exact A7|]. eapply appended_In; [exact A6|]. exact I5.
  - intros [Hf|Hf].
    + destruct (F4 Hf) as [Z4 L4]. split; [rewrite S7, S6; auto|].
      eapply appended_In; [exact A7|]. eapply appended_In; [exact A6|].
      eapply appended_In; [exact A5|]. exact L4.
    + destruct (F5 Hf) as [Z L5]. split; [rewrite S7, S6; auto|].
      eapply appended_In; [exact A7|]. eapply appended_In; [exact A6|]. exact L5.
  - intros O1 O2. rewrite S7, S6, (O5 O2), (O4 O1). exact S3.
Qed.

(** *** Signal handlers, alarm, tuning *)

Lemma install_handler_effect (signum : Z) (st : mstate) :
  appended calm st (install_handler signum st) /\ kept st (install_handler signum st).
Proof. unfold install_handler. stage_effect st. Qed.

Lemma install_handlers_effect (st : mstate) :
  appended calm st (install_handlers st) /\ kept st (install_handlers st).
Proof.
  unfold install_handlers.
  destruct (install_handler_effect SIGALRM st) as (A1 & K1).
  set (s1 := install_handler SIGALRM st) in *.
  destruct (install_handler_effect SIGUSR1 s1) as (A2 & K2).
  set (s2 := install_handler SIGUSR1 s1) in *.
  destruct (install_handler_effect SIGUSR2 s2) as (A3 & K3).
  set (s3 := install_handler SIGUSR2 s2) in *.
  destruct (install_handler_effect SIGHUP s3) as (A4 & K4).
  split.
  - repeat (eapply appended_trans; [eassumption|]). apply appended_refl.
  - repeat (eapply kept_trans; [eassumption|]). apply kept_refl.
Qed.

Lemma arm_tuning_alarm_effect (st : mstate) :
  kept st (arm_tuning_alarm st) /\
  trace (arm_tuning_alarm st) =
    (if tuning_timeout (tune_p st) =? 0 then trace st
     else trace st ++ [EvAlarm (tuning_timeout (tune_p st))])%list.
Proof.
  unfold arm_tuning_alarm, nonzero.
  destruct (tuning_timeout (tune_p st) =? 0); cbn [negb];
    [split; [apply kept_refl|reflexivity]|].
  unfold kept, watched, emit. open_state st. cbn. auto.
Qed.

Lemma leaves_timer_no_alarm (e : event) : leaves_timer e = true -> no_alarm e = true.
Proof. by destruct e. Qed.

Lemma open_frontend_effect (st : mstate) :
  appended leaves_timer st (open_frontend st) /\ kept st (open_frontend st) /\
  exists path tn is_file, In (EvOpenFe path tn is_file) (trace (open_frontend st)).
Proof.
  unfold open_frontend, reads_file.
  unfold kept, watched, log_message, emit.
  open_state st; cbn; split_ifs; cbn;
    (split; [show_appended|]); (split; [auto|]);
    do 3 eexists; show_in.
Qed.

Lemma write_pidfile_effect (st : mstate) :
  appended leaves_timer st (final_state (write_pidfile st)) /\
  kept st (final_state (write_pidfile st)) /\
  tune_p (final_state (write_pidfile st)) = tune_p st /\
  iRet (final_state (write_pidfile st)) = iRet st /\
  ((exists s, write_pidfile st = Continue s) \/
   (exists s, write_pidfile st = Exit ERROR_CREATE_FILE s) \/
   (exists v s, write_pidfile st = Fault (NumberOverflow v) s /\
                number_fits v = false)).
Proof.
  unfold write_pidfile.
  destruct (no_daemon st =? 0);
    [|simpl; split; [apply appended_refl|]; split; [apply kept_refl|]; eauto 8].
  match goal with |- context [expand_templates ?p st ?k] =>
    destruct (expand_templates_cases p st k) as [-> | (v & -> & Hv)] end;
    [|simpl; split; [apply appended_refl|]; split; [apply kept_refl|]; eauto 10].
  generalize (expanded (filename_pid st) st). intros path.
  unfold kept, watched, log_message, emit. cbv zeta.
  destruct (fopen_ok path "w"); open_state st; cbn;
    (split; [show_appended|]); eauto 10.
Qed.

Lemma tune_card_effect (st : mstate) :
  appended leaves_timer st (final_state (tune_card st)) /\
  kept st (final_state (tune_card st)) /\
  ((exists s, tune_card st = Continue s) \/
   (exists s, tune_card st = Exit ERROR_CREATE_FILE s) \/
   (exists v s, tune_card st = Fault (NumberOverflow v) s /\
                number_fits v = false)).
Proof.
  unfold tune_card.
  destruct (0 <? iRet st).
  - destruct (write_pidfile_effect st) as (A & K & _ & _ & O).
    destruct O as [(s & E)|[(s & E)|(v & s & E & Hv)]]; rewrite E in *;
      simpl in A, K; simpl bind; simpl final_state;
      [|split; [exact A|]; split; [exact K|]; eauto 10 ..].
    assert (forall v, appended leaves_timer s (with_iRet v s) /\
                      kept s (with_iRet v s)) as Hret.
    { intros v. unfold kept, watched. open_state s. cbn.
      split; [exists []; by rewrite app_nil_r|auto]. }
    assert (appended leaves_timer s (emit EvTuneIt s) /\ kept s (emit EvTuneIt s))
      as (At & Kt).
    { unfold kept, watched, emit. open_state s. cbn. split; [show_appended|auto]. }
    destruct (reads_file s); simpl final_state.
    + destruct (Hret 1) as (A1 & K1).
      split; [eapply appended_trans; eassumption|].
      split; [eapply kept_trans; eassumption|]. eauto.
    + destruct (Hret (tune_it (tune_p (emit EvTuneIt s)))) as (A1 & K1).
      assert (with_iRet (tune_it (tune_p s)) (emit EvTuneIt s)
              = emit EvTuneIt (with_iRet (tune_it (tune_p (emit EvTuneIt s))) s))
        as -> by (by destruct s).
      assert (appended leaves_timer
                (with_iRet (tune_it (tune_p (emit EvTuneIt s))) s)
                (emit EvTuneIt (with_iRet (tune_it (tune_p (emit EvTuneIt s))) s)) /\
              kept (with_iRet (tune_it (tune_p (emit EvTuneIt s))) s)
                (emit EvTuneIt (with_iRet (tune_it (tune_p (emit EvTuneIt s))) s)))
        as (A2 & K2).
      { generalize (with_iRet (tune_it (tune_p (emit EvTuneIt s))) s). intros s'.
        unfold kept, watched, emit. open_state s'. cbn. split; [show_appended|auto]. }
      split; [eapply appended_trans; [exact A|]; eapply appended_trans; eassumption|].
      split; [eapply kept_trans; [exact K|]; eapply kept_trans; eassumption|]. eauto.
  - simpl final_state. unfold kept, watched. open_state st. cbn.
    split; [exists []; by rewrite app_nil_r|]. eauto 10.
Qed.

(** Once the result of the tuning is known, nothing but the close of the
    card and [mumudvb_close] follows. *)
Lemma closing_effect (st : mstate) :
  exists fin,
    run_stages closing_stages st =
      Returned (mumudvb_close_status fin) (emit (EvMumudvbClose (interrupted fin)) fin) /\
    appended no_alarm st fin /\
    write_streamed_channels fin = write_streamed_channels st.
Proof.
  unfold closing_stages, run_stages, check_tuned, after_tuning, mumudvb_close_goto,
    get_interrupted.
  destruct (iRet st <? 0); eexists; (split; [reflexivity|]);
    unfold set_interrupted, close_card_fd, log_message, emit, upd_tune_p;
    open_state st; cbn; (split; [show_appended|reflexivity]).
Qed.

(** *** Runs *)

Lemma appended_alarms (a b : mstate) :
  appended no_alarm a b -> alarms (trace b) = alarms (trace a).
Proof.
  intros (evs & -> & Hall). unfold alarms.
  rewrite List.filter_app, List.length_app.
  enough (List.filter is_alarm evs = []) as -> by (simpl; lia).
  induction evs as [|e evs IH]; [reflexivity|].
  simpl in *. apply andb_prop in Hall as [He Hall].
  unfold no_alarm in He. destruct (is_alarm e); [discriminate|auto].
Qed.

Lemma emit_close_effect (fin : mstate) :
  let fin' := emit (EvMumudvbClose (interrupted fin)) fin in
  appended no_alarm fin fin' /\
  write_streamed_channels fin' = write_streamed_channels fin.
Proof. unfold emit. open_state fin. cbn. split; [show_appended|reflexivity]. Qed.

(** From the installation of the handlers to the end of [main]: the
    card is opened, the list switch is left alone, and [alarm] is called
    once if a tuning timeout is configured, never otherwise. *)
Lemma rest_of_run_effect (st : mstate) :
  let fin :=
    final_state
      (run_stages (always install_handlers :: always arm_tuning_alarm
                     :: tuning_stages ++ closing_stages) st) in
  (forall e, In e (trace st) -> In e (trace fin)) /\
  write_streamed_channels fin = write_streamed_channels st /\
  (exists path tn is_file, In (EvOpenFe path tn is_file) (trace fin)) /\
  alarms (trace fin) =
    (alarms (trace st) + (if (tuning_timeout (tune_p st) =? 0)%Z then 0 else 1))%nat.
Proof.
  cbn zeta. unfold tuning_stages. cbn [app].
  rewrite !run_stages_always, run_stages_cons.
  destruct (install_handlers_effect st) as (A1 & K1).
  set (s1 := install_handlers st) in *.
  destruct (arm_tuning_alarm_effect s1) as (K2 & T2).
  set (s2 := arm_tuning_alarm s1) in *.
  destruct (open_frontend_effect s2) as (A3 & K3 & Hopen).
  apply appended_weaken with (Q := no_alarm) in A3; [|apply leaves_timer_no_alarm].
  set (s3 := open_frontend s2) in *.
  destruct (tune_card_effect s3) as (A4 & K4 & Hout).
  apply appended_weaken with (Q := no_alarm) in A4; [|apply leaves_timer_no_alarm].
  assert (tuning_timeout (tune_p s1) = tuning_timeout (tune_p st)) as Ht1.
  { destruct K1 as (Hw & _). by apply watched_eq in Hw as (_ & _ & _ & ? & _). }
  assert (alarms (trace s2) =
          (alarms (trace st) + (if (tuning_timeout (tune_p st) =? 0)%Z then 0 else 1))%nat)
    as Hal2.
  { rewrite T2, Ht1. apply appended_weaken with (Q := no_alarm) in A1;
      [|apply calm_no_alarm].
    apply appended_alarms in A1.
    destruct (tuning_timeout (tune_p st) =? 0); [lia|].
    unfold alarms in *. rewrite List.filter_app, List.length_app. simpl. lia. }
  assert (forall e, In e (trace st) -> In e (trace s3)) as Hin3.
  { intros e He. eapply appended_In; [exact A3|].
    rewrite T2. destruct (tuning_timeout (tune_p s1) =? 0);
      [|apply in_or_app; left]; by eapply appended_In. }
  assert (write_streamed_channels s3 = write_streamed_channels st) as Hw3.
  { destruct K1 as (_ & E1 & _), K2 as (_ & E2 & _), K3 as (_ & E3 & _).
    congruence. }
  destruct Hopen as (path & tn & isf & Hopen).
  assert ((exists s4, tune_card s3 = Continue s4) \/
          (forall b, run_stages (tune_card :: b) s3 = tune_card s3)) as Hout'.
  { destruct Hout as [Hc|[(s4 & E)|(v & s4 & E & _)]]; [by left|right..];
      intros b; rewrite run_stages_cons, E; reflexivity. }
  clear Hout. destruct Hout' as [[s4 Hs4]|Hstop].
  2: { rewrite <- run_stages_cons, Hstop. split; [|split; [|split]].
       - intros e He. eapply appended_In; [exact A4|]. auto.
       - destruct K4 as (_ & E4 & _). congruence.
       - exists path, tn, isf. by eapply appended_In.
       - rewrite (appended_alarms _ _ A4), (appended_alarms _ _ A3). exact Hal2. }
  rewrite Hs4 in *; simpl in A4, K4.
  destruct (closing_effect s4) as (fin & -> & A5 & W5).
  destruct (emit_close_effect fin) as (A6 & W6). simpl final_state.
  split; [|split; [|split]].
  - intros e He. eapply appended_In; [exact A6|]. eapply appended_In; [exact A5|].
    eapply appended_In; [exact A4|]. auto.
  - rewrite W6, W5. destruct K4 as (_ & E4 & _). congruence.
  - exists path, tn, isf. eapply appended_In; [exact A6|].
    eapply appended_In; [exact A5|]. by eapply appended_In.
  - rewrite (appended_alarms _ _ A6), (appended_alarms _ _ A5),
      (appended_alarms _ _ A4), (appended_alarms _ _ A3). exact Hal2.
Qed.



(** C1 (as amended).  When the frontend has been opened and the tuning
    has not failed ([iRet >= 0] after the tuning stages), [main] logs that
    the card is tuned, sets [card_tuned], closes the card, logs once more
    and returns through [mumudvb_close]: these are all the events after
    the tuning. *)
Theorem tuned_card_is_closed_at_once (st sT : mstate) :
  exec (settling_stages ++ preparing_stages ++ tuning_stages) st = Continue sT ->
  0 <= iRet sT ->
  exists fin,
    main_after_config st =
      Returned (mumudvb_close_status fin)
        (emit (EvMumudvbClose (interrupted fin)) fin) /\
    card_tuned (tune_p fin) = 1 /\
    interrupted fin = interrupted sT /\
    trace fin =
      (trace sT ++
       [EvLog MSG_INFO "Card %d, tuner %d tuned"; EvCloseCardFd;
        EvLog MSG_INFO "The pid will be written in %s"])%list.
Proof.
  intros Hexec Hret. unfold main_after_config, startup_stages.
  rewrite !app_assoc. rewrite <- (app_assoc settling_stages).
  rewrite (run_stages_exec _ closing_stages st sT Hexec).
  unfold closing_stages, run_stages, check_tuned, after_tuning, mumudvb_close_goto,
    get_interrupted.
  assert ((iRet sT <? 0) = false) as -> by lia.
  eexists. split; [reflexivity|].
  unfold close_card_fd, log_message, emit, upd_tune_p.
  open_state sT. cbn. split; [reflexivity|]. split; [reflexivity|].
  by rewrite <- !app_assoc.
Qed.

End StartupFacts.

(** ** The buffer sizes at the end of the configuration *)

Section MainFacts.
Context `{Headers} `{Readers} `{Extern} `{Environment}.


(** *** The lines that set the sizes *)






(** *** The two adjustments, lines 731-743 *)




End MainFacts.

(** ** The signal handler *)

Section SignalFacts.
Context `{Headers} `{Extern}.

(** C4 (as amended).  What [SignalHandler] does, signal by signal.
    [SIGALRM] with no interrupt pending: [exit (ERROR_TUNE)] if the card
    is not tuned, nothing otherwise.  [SIGUSR1], [SIGUSR2], [SIGHUP]: the
    signal is recorded in [received_signal].  [SIGPIPE]: nothing.  Any
    other signal, and [SIGALRM] while an interrupt is pending: an error is
    logged and [set_interrupted (signum)] is called.  Whenever the handler
    returns it has installed itself again for the signal. *)
Theorem signal_handler_policy (signum : Z) (st : mstate) :
  (signum = SIGALRM -> interrupted st = 0 ->
   card_tuned_ptr st = true -> card_tuned (tune_p st) = 0 ->
   exists st', SignalHandler signum st = Exit ERROR_TUNE st' /\
     trace st' =
       (trace st ++ [EvLog MSG_INFO "Card not tuned after timeout - exiting"])%list) /\
  (signum = SIGALRM -> interrupted st = 0 ->
   card_tuned_ptr st = false \/ card_tuned (tune_p st) <> 0 ->
   exists st', SignalHandler signum st = Continue st' /\
     interrupted st' = interrupted st /\
     received_signal st' = received_signal st /\
     trace st' = (trace st ++ [EvSignal signum])%list) /\
  (signum = SIGUSR1 \/ signum = SIGUSR2 \/ signum = SIGHUP ->
   exists st', SignalHandler signum st = Continue st' /\
     interrupted st' = interrupted st /\
     received_signal st' = signum /\
     trace st' = (trace st ++ [EvSignal signum])%list) /\
  (signum = SIGPIPE ->
   exists st', SignalHandler signum st = Continue st' /\
     interrupted st' = interrupted st /\
     received_signal st' = received_signal st /\
     trace st' = (trace st ++ [EvSignal signum])%list) /\
  ((signum = SIGALRM /\ interrupted st <> 0) \/
   (signum <> SIGALRM /\ signum <> SIGUSR1 /\ signum <> SIGUSR2 /\
    signum <> SIGHUP /\ signum <> SIGPIPE) ->
   exists st', SignalHandler signum st = Continue st' /\
     interrupted st' = set_interrupted_value signum (interrupted st) /\
     received_signal st' = received_signal st /\
     trace st' =
       (trace st ++ [EvLog MSG_ERROR "Caught signal %d"; EvSetInterrupted signum;
                     EvSignal signum])%list).
Proof.
  unfold SignalHandler, get_interrupted, set_interrupted, log_message, emit,
    SIGALRM, SIGUSR1, SIGUSR2, SIGHUP, SIGPIPE.
  open_state st. cbn.
  repeat split.
  - intros -> -> -> ->. cbn. eauto.
  - intros -> -> [-> | Hc]; cbn.
    + eauto 6.
    + apply Z.eqb_neq in Hc. rewrite Hc, andb_false_r. eauto 6.
  - intros [-> | [-> | ->]]; cbn; eauto 6.
  - intros ->. cbn. eauto 6.
  - intros [[-> Hi] | (N1 & N2 & N3 & N4 & N5)].
    + apply Z.eqb_neq in Hi. rewrite Hi. cbn.
      rewrite <- !app_assoc. eauto 6.
    + apply Z.eqb_neq in N1, N2, N3, N4, N5. rewrite N1, N2, N3, N4, N5.
      cbn. rewrite <- !app_assoc. eauto 6.
Qed.


End SignalFacts.

(** ** The tuning timeout *)

Section TimeoutFacts.
Context `{Headers} `{Extern} `{Environment}.

Lemma check_sinks_Continue (s s' : mstate) :
  check_sinks s = Continue s' -> s' = s.
Proof.
  unfold check_sinks. destruct (_ && _); [discriminate|]. by intros [= <-].
Qed.

Lemma exec_to_alarm (st sA : mstate) :
  exec (settling_stages ++ preparing_stages) st = Continue sA ->
  exec settling_stages st = Continue (settle st) /\
  check_sinks (settle st) = Continue (settle st) /\
  sA = arm_tuning_alarm (install_handlers (state_files (settle st))).
Proof.
  rewrite exec_app.
  destruct (settling_cases st) as [-> | (v & s' & -> & _)]; [|discriminate].
  cbv [exec preparing_stages always bind].
  destruct (check_sinks (settle st)) as [s'| | | |] eqn:Hcs; try discriminate.
  apply check_sinks_Continue in Hcs as Hs'. subst s'. by intros [= <-].
Qed.


(** *** The disposition of [SIGALRM] *)







(** *** The program points *)






End TimeoutFacts.

(** ** The configuration loop: lines, keywords and their edge cases *)

Section LineFacts.
Context `{HH : Headers}.




(** The cut that [strtok] makes in the buffer leaves the leading
    separators and the first word where they were. *)
Lemma cut_first_token_head (c : ascii) (s : string) :
  first_char_is c (cut_first_token false s) = first_char_is c s.
Proof.
  destruct s as [|a s]; [reflexivity|]. simpl.
  by destruct (LibC.is_delim delimiteurs a).
Qed.

Lemma span_token_cut (s : string) :
  fst (LibC.span_token delimiteurs (cut_first_token true s))
  = fst (LibC.span_token delimiteurs s).
Proof.
  induction s as [|a s IH]; [reflexivity|]. simpl.
  destruct (LibC.is_delim delimiteurs a) eqn:E; [reflexivity|].
  simpl. rewrite E.
  destruct (LibC.span_token delimiteurs (cut_first_token true s)) as [t1 r1].
  destruct (LibC.span_token delimiteurs s) as [t2 r2]. simpl in *. by subst.
Qed.

Lemma strtok_cut (s : string) :
  fst (LibC.strtok delimiteurs (cut_first_token false s))
  = fst (LibC.strtok delimiteurs s).
Proof.
  unfold LibC.strtok.
  induction s as [|a s IH]; [reflexivity|]. simpl.
  destruct (LibC.is_delim delimiteurs a) eqn:E; simpl; rewrite E; [exact IH|].
  pose proof (span_token_cut s) as Hc.
  destruct (LibC.span_token delimiteurs (cut_first_token true s)) as [t1 r1].
  destruct (LibC.span_token delimiteurs s) as [t2 r2].
  simpl in *. rewrite ?E. simpl. by subst.
Qed.


End LineFacts.

Section ConfigurationEdges.
Context `{HH : Headers} `{HR : Readers}.


(** X2.  Only the last character of a line is examined for the end of
    line: a carriage return or a line feed there is removed, anything else
    is kept, and the characters before it are never touched (of a line
    that ends in CR LF, the CR stays). *)
Theorem strip_eol_removes_one_terminator (s : string) (c : ascii) :
  strip_eol (s ++ String c EmptyString) =
  if Ascii.eqb c CR || Ascii.eqb c LF then s else s ++ String c EmptyString.
Proof.
  induction s as [|a s IH].
  - simpl. by destruct (Ascii.eqb c CR || Ascii.eqb c LF).
  - change (String a s ++ String c EmptyString)
      with (String a (s ++ String c EmptyString)).
    assert (strip_eol (String a (s ++ String c EmptyString))
            = String a (strip_eol (s ++ String c EmptyString))) as ->
      by (by destruct s).
    rewrite IH. by destruct (Ascii.eqb c CR || Ascii.eqb c LF).
Qed.

(** X3.  A line whose first word is [new_channel] reaches the keyword
    whatever follows the word, with or without an equals sign, unless the
    line starts with [#]. *)
Theorem new_channel_line_needs_no_value (raw : string) :
  fst (LibC.strtok delimiteurs (strip_eol raw)) = Some "new_channel" ->
  first_char_is "#" (strip_eol raw) = false ->
  exists n saved, scan_line raw = Some (n, "new_channel", saved).
Proof.
  unfold scan_line. cbv zeta. set (line := strip_eol raw).
  intros Htok Hfirst. rewrite Htok.
  destruct (LibC.has_char "=" line).
  - cbv iota. rewrite Hfirst.
    destruct (LibC.strtok delimiteurs line) as [tok saved]. simpl in Htok.
    subst tok. simpl. eauto.
  - simpl negb. cbv iota. rewrite cut_first_token_head, Hfirst.
    pose proof (strtok_cut line) as Hcut. rewrite Htok in Hcut.
    destruct (LibC.strtok delimiteurs (cut_first_token false line)) as [tok saved].
    simpl in Hcut. subst tok. simpl. eauto.
Qed.

(** *** Keywords that need a channel *)

Lemma deref_c_chan_same (a b : mstate) :
  chan_p b = chan_p a -> ichan b = ichan a -> deref_c_chan b = deref_c_chan a.
Proof. unfold deref_c_chan, c_chan. by intros -> ->. Qed.

Lemma c_chan_none (st : mstate) : ichan st < 0 -> c_chan st = None.
Proof. unfold c_chan. intros Hi. by assert ((ichan st <? 0) = true) as -> by lia. Qed.

Lemma c_chan_some (st : mstate) (c : mumudvb_channel_t) :
  deref_c_chan st = Some c -> c_chan st = Some (Z.to_nat (ichan st)).
Proof.
  intros [Hi _]%deref_c_chan_Some. unfold c_chan.
  by assert ((ichan st <? 0) = false) as -> by lia.
Qed.

Lemma log_message_fields (lvl : msg_level) (fmt : string) (st : mstate) :
  chan_p (log_message lvl fmt st) = chan_p st /\
  ichan (log_message lvl fmt st) = ichan st /\
  trace (log_message lvl fmt st) = (trace st ++ [EvLog lvl fmt])%list.
Proof. by destruct st. Qed.

(** X4.  The keywords that describe a channel are refused while no
    channel has been opened: [service_id], [ts_id], [pids] and [name] end
    the run with [exit (ERROR_CONF)], [pmt_pid] makes [main] return -1;
    in each case after an error message, and with nothing stored. *)
Theorem channel_keyword_needs_a_channel
    (st st1 : mstate) (raw key saved saved1 : string) (n : Z) :
  scan_line raw = Some (n, key, saved) ->
  run_readers key st saved = RDeclined st1 saved1 ->
  ichan st < 0 ->
  (key = "service_id" \/ key = "pids" \/ key = "name" ->
   exists msg,
     process_line st raw = Exit ERROR_CONF (log_message MSG_ERROR msg st1)) /\
  (key = "ts_id" ->
   process_line st raw =
   Exit ERROR_CONF
     (log_message MSG_ERROR
        "service_id : You have to start a channel first (using new_channel)"
        (log_message MSG_WARN
           "The option ts_id is depreciated, use service_id instead." st1))) /\
  (key = "pmt_pid" ->
   process_line st raw =
   Returned (-1)
     (log_message MSG_ERROR
        "pmt_pid : You have to start a channel first (using new_channel)" st1)).
Proof.
  intros Hscan Hrd Hneg.
  destruct (process_line_declined _ _ _ _ _ _ _ Hscan Hrd) as [-> (Hi & _)].
  assert (c_chan st1 = None) as Hnone by (apply c_chan_none; lia).
  split; [|split].
  - intros [-> | [-> | ->]]; unfold keywords; simpl String.eqb; cbv iota; simpl orb;
      cbv iota.
    + unfold kw_service_id. simpl String.eqb. cbv iota. rewrite Hnone. simpl. eauto.
    + unfold kw_pids. rewrite Hnone. simpl. eauto.
    + unfold kw_name. rewrite Hnone. simpl. eauto.
  - intros ->. unfold keywords; simpl String.eqb; cbv iota; simpl orb; cbv iota.
    unfold kw_service_id. simpl String.eqb. cbv iota.
    rewrite c_chan_none; [reflexivity|].
    destruct (log_message_fields MSG_WARN
                "The option ts_id is depreciated, use service_id instead." st1)
      as (_ & -> & _). lia.
  - intros ->. unfold keywords; simpl String.eqb; cbv iota; simpl orb; cbv iota.
    unfold kw_pmt_pid. by rewrite Hnone.
Qed.

Lemma store_c_chan_trace (f : mumudvb_channel_t -> mumudvb_channel_t)
    (st st' : mstate) :
  store_c_chan f st = Continue st' -> trace st' = trace st /\ ichan st' = ichan st.
Proof.
  intros (c & _ & _ & _ & Hr)%store_c_chan_Continue.
  apply channels_replaced_proj in Hr as (_ & Hi & _ & _ & Ht). auto.
Qed.

Lemma end_of_line_keeps (st : mstate) :
  ichan st <= MAX_CHANNELS ->
  exists st', end_of_line st = Continue st' /\
    deref_c_chan st' = deref_c_chan st /\ trace st' = trace st.
Proof.
  intros Hi. destruct (end_of_line_ok st Hi) as (st' & He & Hc & Hi' & _ & Ht).
  exists st'. split; [exact He|]. split; [by apply deref_c_chan_same|exact Ht].
Qed.

(** X5.  On a [pmt_pid] line of an opened channel the value is stored
    first and tested afterwards.  A value from 10 to 8191 is kept and
    marked as set by the user; any other value makes [main] return -1 (it
    does not call [exit]) after an error message, the value still in the
    channel. *)
Theorem pmt_pid_line_accepts_10_to_8191
    (st st1 : mstate) (raw saved saved1 tok rest : string) (n : Z)
    (c : mumudvb_channel_t) :
  scan_line raw = Some (n, "pmt_pid", saved) ->
  run_readers "pmt_pid" st saved = RDeclined st1 saved1 ->
  deref_c_chan st1 = Some c ->
  LibC.strtok delimiteurs saved1 = (Some tok, rest) ->
  ichan st <= MAX_CHANNELS ->
  (10 <= LibC.atoi tok <= 8191 ->
   exists st',
     process_line st raw = Continue st' /\
     deref_c_chan st' = Some (with_pmt_pid_f F_USER (with_pmt_pid (LibC.atoi tok) c)) /\
     trace st' = trace st) /\
  (LibC.atoi tok < 10 \/ 8191 < LibC.atoi tok ->
   exists st',
     process_line st raw = Returned (-1) st' /\
     deref_c_chan st' = Some (with_pmt_pid (LibC.atoi tok) c) /\
     trace st' =
       (trace st ++
        [EvLog MSG_ERROR "Configuration issue in pmt_pid, given PID : %d"])%list).
Proof.
  intros Hscan Hrd Hc Htok Hich.
  destruct (process_line_declined _ _ _ _ _ _ _ Hscan Hrd)
    as [-> (Hi & _ & _ & _ & Htr & _)].
  unfold keywords; simpl String.eqb; cbv iota; simpl orb; cbv iota.
  unfold kw_pmt_pid, with_int. rewrite (c_chan_some _ _ Hc), Htok.
  simpl fst. cbv beta iota.
  set (v := LibC.atoi tok).
  destruct (store_c_chan_ok (with_pmt_pid v) st1 c Hc) as (s1 & Hs1 & Hc1).
  rewrite Hs1. destruct (store_c_chan_trace _ _ _ Hs1) as [Ht1 Hi1].
  simpl bind. split.
  - intros Hv. assert (((v <? 10) || (8191 <? v)) = false) as -> by lia.
    destruct (store_c_chan_ok (with_pmt_pid_f F_USER) s1 _ Hc1) as (s2 & Hs2 & Hc2).
    rewrite Hs2. destruct (store_c_chan_trace _ _ _ Hs2) as [Ht2 Hi2].
    simpl bind.
    destruct (end_of_line_keeps s2) as (st' & He & Hd & Ht); [lia|].
    exists st'. split; [exact He|]. split; [congruence|congruence].
  - intros Hv. assert (((v <? 10) || (8191 <? v)) = true) as -> by lia.
    eexists. split; [reflexivity|].
    destruct (log_message_fields MSG_ERROR
                "Configuration issue in pmt_pid, given PID : %d" s1)
      as (Hcp & Hic & Htl).
    split; [|by rewrite Htl, Ht1, Htr].
    rewrite <- Hc1. by apply deref_c_chan_same.
Qed.

(** *** The number of values on a [pids] line *)

Lemma pids_loop_outcome (toks : list string) (ipid : Z) (st : mstate)
    (c : mumudvb_channel_t) :
  deref_c_chan st = Some c ->
  length (pids c) = Z.to_nat MAX_PIDS ->
  0 <= ipid < MAX_PIDS ->
  (exists st', pids_loop toks ipid st = Continue st' /\
               ipid + Z.of_nat (length toks) < MAX_PIDS) \/
  (exists st', pids_loop toks ipid st = Exit ERROR_CONF st').
Proof.
  revert ipid st c. induction toks as [|t toks IH]; intros ipid st c Hc Hlen Hip.
  - left. simpl.
    destruct (store_c_chan_ok (with_num_pids ipid) st c Hc) as (s & -> & _).
    exists s. split; [reflexivity|lia].
  - simpl. unfold store_pid. rewrite Hc.
    assert (((ipid <? 0) || (Z.of_nat (length (pids c)) <=? ipid)) = false) as ->
      by lia.
    destruct (store_c_chan_ok (with_pids (<[Z.to_nat ipid := LibC.atoi t]> (pids c)))
                st c Hc) as (s1 & -> & Hc1).
    simpl bind.
    destruct ((LibC.atoi t <? 10) || (8193 <=? LibC.atoi t)); [right; eauto|].
    destruct (MAX_PIDS <=? ipid + 1) eqn:Hmax; [right; eauto|].
    destruct (IH (ipid + 1) s1 _ Hc1) as [(st' & Hs & Hn)|Hex]; [| lia | |auto].
    + destruct c; cbn in *. by rewrite length_insert.
    + left. exists st'. split; [exact Hs|]. simpl length. lia.
Qed.

(** X6.  A [pids] line of an opened channel never writes outside the
    array [pids[MAX_PIDS]]: the line ends in acceptance or in
    [exit (ERROR_CONF)], never in an access out of bounds.  It is accepted
    only with fewer than [MAX_PIDS] values; with [MAX_PIDS] values or more
    the run ends with [exit (ERROR_CONF)], however good the values. *)
Theorem pids_line_holds_fewer_than_MAX_PIDS
    (st st1 : mstate) (raw saved saved1 : string) (n : Z) (c : mumudvb_channel_t) :
  scan_line raw = Some (n, "pids", saved) ->
  run_readers "pids" st saved = RDeclined st1 saved1 ->
  deref_c_chan st1 = Some c ->
  length (pids c) = Z.to_nat MAX_PIDS ->
  0 < MAX_PIDS ->
  let toks := LibC.tokens delimiteurs saved1 in
  (forall st', process_line st raw = Continue st' ->
     Z.of_nat (length toks) < MAX_PIDS) /\
  (MAX_PIDS <= Z.of_nat (length toks) ->
   exists st', process_line st raw = Exit ERROR_CONF st') /\
  (forall f st', process_line st raw <> Fault f st').
Proof.
  intros Hscan Hrd Hc Hlen Hmax toks.
  destruct (process_line_declined _ _ _ _ _ _ _ Hscan Hrd) as [-> _].
  rewrite keywords_pids. unfold kw_pids. rewrite (c_chan_some _ _ Hc).
  destruct (store_c_chan_ok (fun c => with_pmt_rewrite 1 (with_pid_f F_USER c)) st1 c Hc)
    as (s1 & -> & Hc1).
  simpl bind. fold toks.
  destruct (pids_loop_outcome toks 0 s1 _ Hc1) as [(s2 & -> & Hn)|(s2 & ->)];
    [by destruct c|lia| |]; simpl bind.
  - split; [intros; lia|]. split; [intros; lia|].
    intros f st'. unfold end_of_line.
    destruct (MAX_CHANNELS <? ichan s2); discriminate.
  - split; [discriminate|]. split; [eauto|discriminate].
Qed.

(** *** The [name] keyword *)

Lemma strncpy_length (k : nat) (s : string) :
  String.length (LibC.strncpy k s) = Nat.min k (String.length s).
Proof.
  revert s. induction k as [|k IH]; intros s; [reflexivity|].
  destruct s as [|a s]; [reflexivity|]. simpl. by rewrite IH.
Qed.

Lemma strncpy_prefix (k : nat) (s : string) :
  exists tail, s = LibC.strncpy k s ++ tail.
Proof.
  revert s. induction k as [|k IH]; intros s; [by exists s|].
  destruct s as [|a s]; [by exists EmptyString|].
  destruct (IH s) as (tail & Ht). exists tail. simpl. by rewrite <- Ht.
Qed.

Lemma strncpy_short (k : nat) (s : string) :
  (String.length s <= k)%nat -> LibC.strncpy k s = s.
Proof.
  revert s. induction k as [|k IH]; intros s Hl.
  - destruct s; [reflexivity|simpl in Hl; lia].
  - destruct s as [|a s]; [reflexivity|]. simpl in *. rewrite IH; [reflexivity|lia].
Qed.

(** X7.  On a [name] line of an opened channel, the text after the
    equals sign (up to a line feed) is stored both as the name and as the
    user name of the channel, cut to [MAX_NAME_LEN - 1] characters: the
    stored name is a prefix of the text, never longer than that, and the
    whole text when it is shorter.  The name is marked as set by the
    user. *)
Theorem name_line_stores_bounded_name
    (st st1 : mstate) (raw saved saved1 text rest nm rest' : string) (n : Z)
    (c : mumudvb_channel_t) :
  scan_line raw = Some (n, "name", saved) ->
  run_readers "name" st saved = RDeclined st1 saved1 ->
  deref_c_chan st1 = Some c ->
  LibC.strtok "=" saved1 = (Some text, rest) ->
  LibC.strtok (String LF EmptyString) text = (Some nm, rest') ->
  ichan st <= MAX_CHANNELS ->
  exists st' c',
    process_line st raw = Continue st' /\
    deref_c_chan st' = Some c' /\
    name c' = LibC.strncpy (Z.to_nat (MAX_NAME_LEN - 1)) nm /\
    user_name c' = name c' /\
    name_f c' = F_USER /\
    Z.of_nat (String.length (name c')) <= Z.max 0 (MAX_NAME_LEN - 1) /\
    (exists tail, nm = name c' ++ tail) /\
    (Z.of_nat (String.length nm) < MAX_NAME_LEN - 1 -> name c' = nm).
Proof.
  intros Hscan Hrd Hc Htext Hnm Hich.
  destruct (process_line_declined _ _ _ _ _ _ _ Hscan Hrd) as [-> (Hi & _)].
  unfold keywords; simpl String.eqb; cbv iota; simpl orb; cbv iota.
  unfold kw_name. rewrite (c_chan_some _ _ Hc).
  destruct (store_c_chan_ok (with_name_f F_USER) st1 c Hc) as (s1 & Hs1 & Hc1).
  rewrite Hs1. destruct (store_c_chan_trace _ _ _ Hs1) as [_ Hi1].
  simpl bind. rewrite Htext. simpl fst. cbv beta iota zeta. rewrite Hnm.
  simpl fst. cbv beta iota.
  set (k := Z.to_nat (MAX_NAME_LEN - 1)).
  destruct (store_c_chan_ok
              (fun c => with_user_name (LibC.strncpy k nm)
                          (with_name (LibC.strncpy k nm) c)) s1 _ Hc1)
    as (s2 & Hs2 & Hc2).
  rewrite Hs2. destruct (store_c_chan_trace _ _ _ Hs2) as [_ Hi2].
  simpl bind.
  set (s3 := if _ <=? _ then _ else s2).
  assert (deref_c_chan s3 = deref_c_chan s2 /\ ichan s3 = ichan s2) as [Hd3 Hi3].
  { subst s3. destruct (_ <=? _); [|auto].
    destruct (log_message_fields MSG_WARN "Channel name too long" s2) as (? & ? & _).
    split; [by apply deref_c_chan_same|assumption]. }
  destruct (end_of_line_keeps s3) as (st' & He & Hd & _); [lia|].
  exists st', (with_user_name (LibC.strncpy k nm)
                 (with_name (LibC.strncpy k nm) (with_name_f F_USER c))).
  split; [exact He|]. split; [congruence|].
  assert (forall c0 : mumudvb_channel_t,
            name (with_user_name (LibC.strncpy k nm)
                    (with_name (LibC.strncpy k nm) (with_name_f F_USER c0)))
            = LibC.strncpy k nm) as En by (by intros []).
  rewrite En.
  split; [reflexivity|]. split; [by destruct c|]. split; [by destruct c|].
  split; [rewrite strncpy_length; subst k; lia|].
  split; [apply strncpy_prefix|].
  intros Hshort. apply strncpy_short. subst k. lia.
Qed.

(** *** A keyword without its value *)

(** X8.  A line of one of [main]'s own keywords that has an equals sign
    but no value hands the NULL result of [strtok] to [atoi] ([strcmp],
    [strlen]): the pointer is not tested, and the behaviour of the run is
    undefined from there on. *)
Theorem keyword_without_value_dereferences_null
    (st st1 : mstate) (raw key saved saved1 : string) (n : Z) :
  scan_line raw = Some (n, key, saved) ->
  run_readers key st saved = RDeclined st1 saved1 ->
  In key keywords_with_value ->
  fst (LibC.strtok delimiteurs saved1) = None ->
  process_line st raw = Fault NullString st1.
Proof.
  intros Hscan Hrd Hkey Hnull.
  destruct (process_line_declined _ _ _ _ _ _ _ Hscan Hrd) as [-> _].
  unfold keywords_with_value in Hkey. simpl in Hkey.
  repeat (destruct Hkey as [<-|Hkey]); try contradiction;
    unfold keywords; simpl String.eqb; cbv iota;
    unfold kw_psi_tables_filtering, kw_dvr_buffer_size, kw_dvr_thread,
      kw_filename_pid, kw_t2mi_pid, with_int;
    rewrite Hnull; reflexivity.
Qed.

(** *** Unknown keywords *)

(** X9.  A keyword that neither a reader nor [main] knows is not an
    error: the line adds at most a warning to the log (none when the
    buffer holds a single character) and the loop goes on with the next
    line, without the test of the number of channels. *)
Theorem unknown_keyword_only_warns
    (st st1 : mstate) (raw key saved saved1 : string) (n : Z) :
  scan_line raw = Some (n, key, saved) ->
  run_readers key st saved = RDeclined st1 saved1 ->
  ~ In key keywords_of_main ->
  process_line st raw =
  Continue (if 1 <? n
            then log_message MSG_WARN "Config issue : unknow symbol : %s" st1
            else st1).
Proof.
  intros Hscan Hrd Hkey.
  destruct (process_line_declined _ _ _ _ _ _ _ Hscan Hrd) as [-> _].
  assert (forall k, In k keywords_of_main -> String.eqb key k = false) as Hne.
  { intros k Hk. apply String.eqb_neq. intros ->. contradiction. }
  unfold keywords.
  rewrite !Hne by (unfold keywords_of_main; simpl;
                   repeat (first [left; reflexivity|right])).
  reflexivity.
Qed.

(** *** The index of the current channel *)

Lemma with_int_index (saved : string) (st s : mstate) (g : Z -> mstate) :
  (forall v, ichan (g v) = ichan st) ->
  with_int saved st (fun v => Continue (g v)) = Continue s -> ichan s = ichan st.
Proof.
  intros Hg. unfold with_int.
  destruct (fst (LibC.strtok delimiteurs saved)); [|discriminate].
  by intros [= <-].
Qed.

Lemma quiet_index (a b : mstate) : quiet a b -> ichan b = ichan a.
Proof. by intros (Hi & _). Qed.

(** Only [new_channel] moves the index, and by one. *)
Lemma keywords_index (n : Z) (key saved : string) (st st' : mstate) :
  keywords n key saved st = Continue st' ->
  ichan st' = ichan st + (if String.eqb key "new_channel" then 1 else 0).
Proof.
  assert (forall (o : outcome),
            (forall s, o = Continue s -> ichan s = ichan st) ->
            (do s <- o; end_of_line s) = Continue st' -> ichan st' = ichan st + 0)
    as Hstep.
  { intros o Ho Hb. apply bind_Continue in Hb as (s & Hs & He).
    apply end_of_line_Continue in He as [_ He]. apply quiet_index in He.
    rewrite He, (Ho s Hs). lia. }
  unfold keywords.
  destruct (String.eqb key "new_channel").
  { intros Hb. apply bind_Continue in Hb as (s & Hs & He).
    apply end_of_line_Continue in He as [_ He]. apply quiet_index in He.
    apply kw_new_channel_Continue in Hs as (Hi' & _). lia. }
  repeat match goal with
         | |- (if ?b then _ else _) = _ -> _ =>
             destruct b;
             [ apply Hstep; intros s Hs;
               first
                 [ eapply with_int_index; [|exact Hs]; intros v;
                   unfold upd_chan_p, upd_card_buffer; by destruct st
                 | apply kw_dvr_buffer_size_Continue in Hs as (Hs & _); exact Hs
                 | apply quiet_index;
                   first [ by eapply kw_psi_tables_filtering_quiet
                         | by eapply kw_dvr_thread_quiet
                         | by eapply kw_service_id_quiet
                         | by eapply kw_pids_quiet
                         | by eapply kw_pmt_pid_quiet
                         | by eapply kw_name_quiet
                         | by eapply kw_filename_pid_quiet
                         | by eapply kw_t2mi_pid_quiet ] ]
             | ]
         end.
  intros [= <-]. destruct (1 <? n); [|lia].
  destruct (log_message_fields MSG_WARN "Config issue : unknow symbol : %s" st)
    as (_ & -> & _). lia.
Qed.

Lemma process_line_index (raw : string) (st st' : mstate) :
  new_channel_is_mains ->
  process_line st raw = Continue st' ->
  ichan st' = ichan st + (if opens_channel raw then 1 else 0).
Proof.
  intros Hmine. unfold process_line, opens_channel.
  destruct (scan_line raw) as [[[n key] saved]|]; [|intros [= <-]; lia].
  unfold dispatch.
  pose proof (run_readers_frame key st saved) as Hf.
  destruct (run_readers key st saved) as [s|s|s sv] eqn:Hrd; simpl in Hf;
    [discriminate| |].
  - destruct (String.eqb key "new_channel") eqn:Ek.
    + apply String.eqb_eq in Ek. subst key.
      destruct (Hmine st saved) as (s1 & sv1 & Hd). congruence.
    + intros He. apply end_of_line_Continue in He as [_ He].
      apply quiet_index in He. destruct Hf as (Hi & _). lia.
  - intros Hk. apply keywords_index in Hk. destruct Hf as (Hi & _). lia.
Qed.

Lemma parse_config_index (lines : list string) (st st' : mstate) :
  new_channel_is_mains ->
  parse_config lines st = Continue st' ->
  ichan st' = ichan st + Z.of_nat (length (List.filter opens_channel lines)).
Proof.
  intros Hmine. revert st. induction lines as [|l lines IH]; intros st; simpl.
  - intros [= <-]. lia.
  - intros Hb. apply bind_Continue in Hb as (s & Hs & Hp).
    apply (process_line_index _ _ _ Hmine) in Hs. apply IH in Hp.
    destruct (opens_channel l); simpl length; lia.
Qed.

End ConfigurationEdges.

(** ** The run after the configuration: settings, tuning, close *)

Section RunEdges.
Context `{HH : Headers} `{HX : Extern} `{HE : Environment}.

Lemma main_from_armed (st sA : mstate) :
  exec (settling_stages ++ preparing_stages) st = Continue sA ->
  main_after_config st = run_stages (tuning_stages ++ closing_stages) sA.
Proof.
  intros Hexec. unfold main_after_config, startup_stages.
  rewrite app_assoc. by apply run_stages_exec.
Qed.

(** *** The steps from the opening of the frontend to the close *)

Lemma tail_view_eq (a b : mstate) :
  tail_view b = tail_view a ->
  tune_p b = tune_p a /\ interrupted b = interrupted a /\
  no_daemon b = no_daemon a /\ pid_file_path b = pid_file_path a /\
  reads_file b = reads_file a /\ templates_fit b = templates_fit a.
Proof.
  unfold tail_view, pid_file_path, expanded, reads_file, templates_fit.
  intros [= -> -> -> -> ->]. auto 10.
Qed.

Lemma open_frontend_fields (s : mstate) :
  tail_view (open_frontend s) = tail_view s /\
  iRet (open_frontend s) = open_fe (frontend_path s) (tuner (tune_p s)) (reads_file s) /\
  trace (open_frontend s) = (trace s ++ opening_events s)%list.
Proof.
  unfold open_frontend, opening_events, frontend_path, tail_view, reads_file,
    log_message, emit.
  open_state s. cbn. destruct (negb (String.eqb _ _)); cbn;
    rewrite <- ?app_assoc; auto.
Qed.

Lemma with_iRet_fields (v : Z) (s : mstate) :
  tail_view (with_iRet v s) = tail_view s /\ iRet (with_iRet v s) = v /\
  trace (with_iRet v s) = trace s.
Proof. by destruct s. Qed.

(** The pid file (lines 917-938): nothing when the program does not
    daemonize; a number that overruns [number], the file written, or
    [exit (ERROR_CREATE_FILE)]. *)
Lemma write_pidfile_cases (s : mstate) :
  if (no_daemon s =? 0) && negb (templates_fit s)
  then exists v,
         write_pidfile s = Fault (NumberOverflow v) s /\ number_fits v = false
  else if (no_daemon s =? 0) && negb (fopen_ok (pid_file_path s) "w")
  then exists fin,
         write_pidfile s = Exit ERROR_CREATE_FILE fin /\
         trace fin =
           (trace s ++
            [ EvLog MSG_INFO "The pid will be written in %s";
              EvFopen (pid_file_path s) "w" false;
              EvLog MSG_INFO "%s: %s" ])%list
  else exists s',
         write_pidfile s = Continue s' /\
         tune_p s' = tune_p s /\ interrupted s' = interrupted s /\
         iRet s' = iRet s /\
         trace s' = (trace s ++ pid_file_events s)%list.
Proof.
  unfold write_pidfile, pid_file_events, pid_file_path.
  destruct (no_daemon s =? 0); cbn [andb];
    [|exists s; by rewrite app_nil_r].
  destruct (templates_fit s) eqn:Efit; cbn [negb];
    [|by apply expand_templates_overrun].
  rewrite expand_templates_fit by exact Efit.
  unfold log_message, emit.
  destruct (fopen_ok (expanded (filename_pid s) s) "w"); cbn [negb];
    eexists; (split; [reflexivity|]);
    generalize (expanded (filename_pid s) s); intros path;
    open_state s; cbn; rewrite <- ?app_assoc; auto.
Qed.

Lemma report_failure_fields (s : mstate) :
  let fin :=
    set_interrupted (Z.shiftl ERROR_TUNE 8)
      (close_card_fd (log_message MSG_INFO "Tuning issue, card %d" s)) in
  trace fin = (trace s ++ tuning_issue_events)%list /\
  interrupted fin = set_interrupted_value (Z.shiftl ERROR_TUNE 8) (interrupted s) /\
  tune_p fin = tune_p s.
Proof.
  unfold set_interrupted, close_card_fd, log_message, emit, tuning_issue_events.
  open_state s. cbn. rewrite <- !app_assoc. auto.
Qed.

Lemma report_tuned_fields (s : mstate) :
  let fin :=
    log_message MSG_INFO "The pid will be written in %s"
      (close_card_fd
         (upd_tune_p (with_card_tuned 1)
            (log_message MSG_INFO "Card %d, tuner %d tuned" s))) in
  trace fin = (trace s ++ tuned_events)%list /\
  interrupted fin = interrupted s /\
  card_tuned (tune_p fin) = 1.
Proof.
  unfold close_card_fd, log_message, emit, upd_tune_p, tuned_events.
  open_state s. cbn. rewrite <- !app_assoc. auto.
Qed.

(** Lines 949-985. *)
Lemma closing_cases (s : mstate) :
  exists fin,
    run_stages closing_stages s =
      Returned (mumudvb_close_status fin)
        (emit (EvMumudvbClose (interrupted fin)) fin) /\
    if iRet s <? 0
    then trace fin = (trace s ++ tuning_issue_events)%list /\
         interrupted fin =
           set_interrupted_value (Z.shiftl ERROR_TUNE 8) (interrupted s) /\
         tune_p fin = tune_p s
    else trace fin = (trace s ++ tuned_events)%list /\
         interrupted fin = interrupted s /\
         card_tuned (tune_p fin) = 1.
Proof.
  unfold closing_stages, run_stages, check_tuned, after_tuning, mumudvb_close_goto,
    get_interrupted.
  destruct (iRet s <? 0); eexists; (split; [reflexivity|]);
    [apply report_failure_fields|apply report_tuned_fields].
Qed.

(** From the opening of the frontend to the end of [main], case by
    case. *)
Lemma tail_run (s : mstate) :
  let r := open_fe (frontend_path s) (tuner (tune_p s)) (reads_file s) in
  let o := run_stages (tuning_stages ++ closing_stages) s in
  if r <=? 0 then ends_failed o s []
  else if (no_daemon s =? 0) && negb (templates_fit s)
  then ends_overrun o s
  else if (no_daemon s =? 0) && negb (fopen_ok (pid_file_path s) "w")
  then ends_without_pid_file o s
  else if reads_file s then ends_tuned o s (pid_file_events s)
  else if tune_it (tune_p s) <? 0
  then ends_failed o s (pid_file_events s ++ [EvTuneIt])
  else ends_tuned o s (pid_file_events s ++ [EvTuneIt]).
Proof.
  cbv zeta. unfold tuning_stages. cbn [app].
  rewrite run_stages_always, run_stages_cons.
  destruct (open_frontend_fields s) as (V1 & R1 & T1).
  apply tail_view_eq in V1 as (P1 & I1 & D1 & F1 & RF1 & TF1).
  set (s1 := open_frontend s) in *.
  set (r := open_fe _ _ _) in *.
  unfold tune_card. rewrite R1.
  destruct (r <=? 0) eqn:Er.
  { assert ((0 <? r) = false) as -> by lia.
    destruct (with_iRet_fields (-1) s1) as (V2 & R2 & T2).
    apply tail_view_eq in V2 as (P2 & I2 & _).
    destruct (closing_cases (with_iRet (-1) s1)) as (fin & -> & Hfin).
    rewrite R2 in Hfin. change (-1 <? 0) with true in Hfin.
    destruct Hfin as (Tf & If & Pf).
    exists fin. split; [reflexivity|].
    rewrite Tf, T2, T1, If, I2, I1, Pf, P2, P1. simpl app.
    by rewrite <- !app_assoc. }
  assert ((0 <? r) = true) as -> by lia.
  pose proof (write_pidfile_cases s1) as Hpid.
  rewrite D1, F1, TF1 in Hpid.
  destruct ((no_daemon s =? 0) && negb (templates_fit s)).
  { destruct Hpid as (v & -> & Hv). exists v, s1. auto. }
  destruct ((no_daemon s =? 0) && negb (fopen_ok (pid_file_path s) "w")).
  { destruct Hpid as (fin & -> & Tf). exists fin. split; [reflexivity|].
    by rewrite Tf, T1, <- !app_assoc. }
  destruct Hpid as (s2 & -> & P2 & I2 & R2 & T2). simpl bind.
  assert (pid_file_events s1 = pid_file_events s) as Epid.
  { unfold pid_file_events. by rewrite D1, F1. }
  assert (reads_file s2 = reads_file s) as ->
    by (unfold reads_file; by rewrite P2, P1).
  destruct (reads_file s).
  { destruct (with_iRet_fields 1 s2) as (V3 & R3 & T3).
    apply tail_view_eq in V3 as (P3 & I3 & _).
    destruct (closing_cases (with_iRet 1 s2)) as (fin & -> & Hfin).
    rewrite R3 in Hfin. change (1 <? 0) with false in Hfin.
    destruct Hfin as (Tf & If & Pf).
    exists fin. split; [reflexivity|].
    rewrite Tf, T3, T2, T1, If, I3, I2, I1, Epid. by rewrite <- !app_assoc. }
  set (s3 := with_iRet _ (emit EvTuneIt s2)).
  assert (trace s3 = (trace s2 ++ [EvTuneIt])%list /\
          tune_p s3 = tune_p s2 /\ interrupted s3 = interrupted s2 /\
          iRet s3 = tune_it (tune_p s2)) as (T3 & P3 & I3 & R3).
  { subst s3. by destruct s2. }
  rewrite P2, P1 in R3.
  destruct (closing_cases s3) as (fin & -> & Hfin).
  rewrite R3 in Hfin.
  destruct (tune_it (tune_p s) <? 0); destruct Hfin as (Tf & If & Pf);
    exists fin; (split; [reflexivity|]);
    rewrite Tf, T3, T2, T1, If, I3, I2, I1, Epid, <- !app_assoc;
    (split; [reflexivity|]); (split; [reflexivity|]); [|exact Pf].
  by rewrite Pf, P3, P2, P1.
Qed.

(** *** What the statements before the tuning leave alone *)

Lemma steady_refl (a : mstate) : steady a a.
Proof. repeat split. Qed.

Lemma steady_trans (a b c : mstate) : steady a b -> steady b c -> steady a c.
Proof.
  unfold steady. intros (A1 & A2 & A3 & A4 & A5 & A6 & A7) (B1 & B2 & B3 & B4 & B5 & B6 & B7).
  repeat split; congruence.
Qed.

Ltac steady_stage st :=
  unfold steady, log_message, emit, upd_tune_p, upd_unic_p, upd_log_params,
    upd_chan_p, upd_multi_p, upd_card_buffer, upd_rewrite_vars, nonzero;
  cbv zeta; split_ifs; open_state st; cbn; auto 10.

Lemma default_card_steady (st : mstate) : steady st (default_card st).
Proof. unfold default_card. steady_stage st. Qed.

Lemma autoconf_defaults_steady (st : mstate) : steady st (autoconf_defaults st).
Proof. unfold autoconf_defaults. steady_stage st. Qed.

Lemma adjust_buffers_steady (st : mstate) : steady st (adjust_buffers st).
Proof. unfold adjust_buffers. steady_stage st. Qed.

Lemma expand_templates_steady (p : string) (st : mstate) (k : string -> outcome) :
  (forall p', steady st (final_state (k p'))) ->
  steady st (final_state (expand_templates p st k)).
Proof.
  intros Hk.
  destruct (expand_templates_cases p st k) as [-> | (v & -> & _)];
    [apply Hk|apply steady_refl].
Qed.

Lemma card_templates_steady (st : mstate) :
  steady st (final_state (card_templates st)).
Proof.
  assert (forall s, steady s (final_state (device_path_template s))) as S1.
  { intros s. unfold device_path_template, with_number.
    destruct (number_fits _); [|apply steady_refl].
    generalize (LibC.itoa (card (tune_p s))). intros number.
    simpl final_state. steady_stage s. }
  assert (forall s, steady s (final_state (unicast_port_template s))) as S2.
  { intros s. unfold unicast_port_template.
    destruct (portOut_str (unic_p s)); [|apply steady_refl].
    apply expand_templates_steady. intros p'. simpl final_state. steady_stage s. }
  assert (forall s, steady s (final_state (log_file_template s))) as S3.
  { intros s. unfold log_file_template.
    destruct (log_file_path (log_params s)); [|apply steady_refl].
    apply expand_templates_steady. intros p'. simpl final_state. steady_stage s. }
  unfold card_templates. specialize (S1 st).
  destruct (device_path_template st) as [s1| | | |]; simpl in *; try exact S1.
  specialize (S2 s1).
  destruct (unicast_port_template s1) as [s2| | | |]; simpl in *;
    try (eapply steady_trans; [exact S1|exact S2]).
  eapply steady_trans; [exact S1|]. eapply steady_trans; [exact S2|apply S3].
Qed.

Lemma announce_start_fields (st : mstate) :
  steady st (announce_start st) /\
  number_of_channels (chan_p (announce_start st)) = ichan st + 1.
Proof. unfold announce_start. steady_stage st. Qed.

Lemma multicast_switches_steady (st : mstate) :
  steady st (multicast_switches st) /\
  number_of_channels (chan_p (multicast_switches st)) = number_of_channels (chan_p st).
Proof. unfold multicast_switches. steady_stage st. Qed.

Lemma settle_channels (st : mstate) :
  steady st (settle st) /\
  number_of_channels (chan_p (settle st)) = ichan st + 1.
Proof.
  unfold settle.
  pose proof (default_card_steady st) as S1.
  set (s1 := default_card st) in *.
  pose proof (autoconf_defaults_steady s1) as S2.
  set (s2 := autoconf_defaults s1) in *.
  pose proof (adjust_buffers_steady s2) as S3.
  set (s3 := adjust_buffers s2) in *.
  pose proof (card_templates_steady s3) as S4.
  set (s4 := final_state (card_templates s3)) in *.
  destruct (announce_start_fields s4) as (S5 & N5).
  set (s5 := announce_start s4) in *.
  destruct (multicast_switches_steady s5) as (S6 & N6).
  assert (steady st s4) as S04
    by (eapply steady_trans; [exact S1|]; eapply steady_trans; [exact S2|];
        eapply steady_trans; [exact S3|exact S4]).
  split.
  - eapply steady_trans; [exact S04|]. eapply steady_trans; [exact S5|exact S6].
  - rewrite N6, N5. by destruct S04 as (_ & -> & _).
Qed.

Lemma state_files_steady (st : mstate) : steady st (state_files st).
Proof.
  unfold state_files. cbv zeta.
  set (st3 := if ENABLE_CAM_SUPPORT then _ else _).
  assert (steady st st3) as S3
    by (subst st3; destruct ENABLE_CAM_SUPPORT; unfold steady; open_state st; cbn; auto 10).
  assert (forall p s, steady s (create_list_file p s)) as Hlist
    by (intros p s; unfold create_list_file; steady_stage s).
  assert (forall s, steady s (create_cam_info s)) as Hcam
    by (intros s; unfold create_cam_info; steady_stage s).
  assert (forall l f s, steady s (log_message l f s)) as Hlog
    by (intros l f s; steady_stage s).
  eapply steady_trans; [exact S3|]. eapply steady_trans; [apply Hlist|].
  eapply steady_trans; [apply Hlist|]. eapply steady_trans; [apply Hcam|apply Hlog].
Qed.

Lemma install_handlers_steady (st : mstate) : steady st (install_handlers st).
Proof.
  assert (forall n s, steady s (install_handler n s)) as Hone
    by (intros n s; unfold install_handler; steady_stage s).
  unfold install_handlers.
  repeat (eapply steady_trans; [|apply Hone]). apply steady_refl.
Qed.

Lemma arm_tuning_alarm_steady (st : mstate) : steady st (arm_tuning_alarm st).
Proof. unfold arm_tuning_alarm. steady_stage st. Qed.

(** *** The two ways through the check of the outputs *)

Lemma has_output_true (st : mstate) :
  has_output st = true <->
  unicast (unic_p st) <> 0 \/ (multicast (multi_p st) <> 0 /\ ttl (multi_p st) <> 0).
Proof. unfold has_output. lia. Qed.

Lemma check_sinks_settle (st : mstate) :
  check_sinks (settle st) =
  if has_output st then Continue (settle st)
  else GotoClose
         (set_interrupted (Z.shiftl ERROR_CONF 8)
            (log_message MSG_ERROR
               "NO Multicast AND NO unicast. No data can be send :(, Exciting ...."
               (settle st))).
Proof.
  destruct (has_output st) eqn:Ho.
  - apply has_output_true in Ho. exact (settle_outputs st Ho).
  - destruct (settle_effect st) as (_ & (Hw & _) & _ & Hmc).
    apply watched_eq in Hw as (_ & _ & _ & _ & Hun & _).
    unfold check_sinks. rewrite Hun, Hmc.
    unfold has_output in Ho.
    assert (((if ttl (multi_p st) =? 0 then 0 else multicast (multi_p st)) =? 0)
            && (unicast (unic_p st) =? 0) = true) as ->; [|reflexivity].
    destruct (ttl (multi_p st) =? 0) eqn:Et; lia.
Qed.

Lemma run_cases (st : mstate) :
  exec settling_stages st = Continue (settle st) ->
  main_after_config st =
  if has_output st
  then run_stages (always install_handlers :: always arm_tuning_alarm
                     :: tuning_stages ++ closing_stages) (state_files (settle st))
  else mumudvb_close_goto
         (set_interrupted (Z.shiftl ERROR_CONF 8)
            (log_message MSG_ERROR
               "NO Multicast AND NO unicast. No data can be send :(, Exciting ...."
               (settle st))).
Proof.
  intros Hs. destruct (main_after_config_settle st _ Hs) as (_ & ->).
  unfold preparing_stages. cbn [app].
  rewrite run_stages_cons, check_sinks_settle.
  destruct (has_output st); [by rewrite run_stages_always|reflexivity].
Qed.

Lemma armed_state (st : mstate) :
  exec settling_stages st = Continue (settle st) ->
  has_output st = true ->
  exec (settling_stages ++ preparing_stages) st
  = Continue (arm_tuning_alarm (install_handlers (state_files (settle st)))).
Proof.
  intros Hs Ho. rewrite exec_app, Hs. cbv [exec preparing_stages always bind].
  apply has_output_true in Ho. by rewrite (settle_outputs st Ho).
Qed.

Lemma armed_steady (st sA : mstate) :
  exec (settling_stages ++ preparing_stages) st = Continue sA ->
  steady st sA /\ has_output st = true.
Proof.
  intros Hexec. apply exec_to_alarm in Hexec as (Hs & Hcs & ->).
  split.
  - eapply steady_trans; [apply settle_channels|].
    eapply steady_trans; [apply state_files_steady|].
    eapply steady_trans; [apply install_handlers_steady|apply arm_tuning_alarm_steady].
  - rewrite check_sinks_settle in Hcs. by destruct (has_output st).
Qed.

(** *** Counting events *)

Lemma count_app (P : event -> bool) (a b : list event) :
  count P (a ++ b) = (count P a + count P b)%nat.
Proof. unfold count. by rewrite List.filter_app, List.length_app. Qed.

Lemma appended_count (P Q : event -> bool) (a b : mstate) :
  appended P a b -> (forall e, P e = true -> Q e = false) ->
  count Q (trace b) = count Q (trace a).
Proof.
  intros (evs & -> & Hall) HPQ. rewrite count_app.
  enough (count Q evs = 0%nat) by lia.
  induction evs as [|e evs IH]; [reflexivity|].
  simpl in Hall. apply andb_prop in Hall as [He Hall].
  unfold count in *. simpl. rewrite (HPQ e He). auto.
Qed.

Lemma opening_events_counts (s : mstate) :
  count card_opened (opening_events s) = 1%nat /\
  count card_closed (opening_events s) = 0%nat /\
  count is_tune_it (opening_events s) = 0%nat /\
  count is_alarm (opening_events s) = 0%nat.
Proof. unfold opening_events. by destruct (reads_file s). Qed.

Lemma pid_file_events_counts (s : mstate) :
  count card_opened (pid_file_events s) = 0%nat /\
  count card_closed (pid_file_events s) = 0%nat /\
  count is_tune_it (pid_file_events s) = 0%nat.
Proof. unfold pid_file_events. by destruct (no_daemon s =? 0). Qed.

Lemma trace_of_close (fin : mstate) :
  trace (emit (EvMumudvbClose (interrupted fin)) fin)
  = (trace fin ++ [EvMumudvbClose (interrupted fin)])%list /\
  tune_p (emit (EvMumudvbClose (interrupted fin)) fin) = tune_p fin /\
  interrupted (emit (EvMumudvbClose (interrupted fin)) fin) = interrupted fin.
Proof. by destruct fin. Qed.

(** *** The tuning, case by case *)

(** X10.  If the frontend cannot be opened ([open_fe] returns 0 or
    less), the card is not tuned and no pid file is written: [main] logs
    the tuning issue, closes the card descriptors, records
    [ERROR_TUNE << 8] as the cause and returns through [mumudvb_close];
    [card_tuned] is left as it was. *)
Theorem frontend_failure_skips_tuning (st sA : mstate) :
  exec (settling_stages ++ preparing_stages) st = Continue sA ->
  open_fe (frontend_path sA) (tuner (tune_p sA)) (reads_file sA) <= 0 ->
  exists fin,
    main_after_config st =
      Returned (mumudvb_close_status fin)
        (emit (EvMumudvbClose (interrupted fin)) fin) /\
    trace fin =
      (trace sA ++ opening_events sA ++
       [ EvLog MSG_INFO "Tuning issue, card %d"; EvCloseCardFd;
         EvSetInterrupted (Z.shiftl ERROR_TUNE 8) ])%list /\
    interrupted fin =
      set_interrupted_value (Z.shiftl ERROR_TUNE 8) (interrupted sA) /\
    card_tuned (tune_p fin) = card_tuned (tune_p sA).
Proof.
  intros Hexec Hopen. rewrite (main_from_armed _ _ Hexec).
  pose proof (tail_run sA) as Ht. cbv zeta in Ht.
  apply Z.leb_le in Hopen. rewrite Hopen in Ht. exact Ht.
Qed.

(** X11.  If the frontend opens on a card (no input file), the pid
    file, when the program daemonizes, is named without overrunning
    [number] and written, and [tune_it] fails, then the failure follows
    the call at once: tuning issue logged, card descriptors closed,
    [ERROR_TUNE << 8] recorded, return through [mumudvb_close];
    [card_tuned] is left as it was. *)
Theorem tune_failure_closes_card (st sA : mstate) :
  exec (settling_stages ++ preparing_stages) st = Continue sA ->
  0 < open_fe (frontend_path sA) (tuner (tune_p sA)) (reads_file sA) ->
  reads_file sA = false ->
  no_daemon sA <> 0 \/
  (templates_fit sA = true /\ fopen_ok (pid_file_path sA) "w" = true) ->
  tune_it (tune_p sA) < 0 ->
  exists fin,
    main_after_config st =
      Returned (mumudvb_close_status fin)
        (emit (EvMumudvbClose (interrupted fin)) fin) /\
    trace fin =
      (trace sA ++ opening_events sA ++ pid_file_events sA ++
       [ EvTuneIt; EvLog MSG_INFO "Tuning issue, card %d"; EvCloseCardFd;
         EvSetInterrupted (Z.shiftl ERROR_TUNE 8) ])%list /\
    interrupted fin =
      set_interrupted_value (Z.shiftl ERROR_TUNE 8) (interrupted sA) /\
    card_tuned (tune_p fin) = card_tuned (tune_p sA).
Proof.
  intros Hexec Hopen Hfile Hpid Htune. rewrite (main_from_armed _ _ Hexec).
  pose proof (tail_run sA) as Ht. cbv zeta in Ht.
  assert ((open_fe (frontend_path sA) (tuner (tune_p sA)) (reads_file sA) <=? 0)
          = false) as E1 by lia.
  assert ((no_daemon sA =? 0) && negb (templates_fit sA) = false /\
          (no_daemon sA =? 0) && negb (fopen_ok (pid_file_path sA) "w") = false)
    as (E2 & E3).
  { destruct Hpid as [Hd| (-> & ->)]; [|by rewrite !andb_false_r].
    apply Z.eqb_neq in Hd. by rewrite Hd. }
  apply Z.ltb_lt in Htune. rewrite E1, E2, E3, Hfile, Htune in Ht.
  destruct Ht as (fin & Ho & Tf & If & Cf). exists fin.
  split; [exact Ho|]. split; [|auto].
  rewrite Tf. unfold tuning_issue_events. by rewrite <- !app_assoc.
Qed.

(** X12.  With a file as input ([read_file_path] not empty) [tune_it]
    is never called, whatever the outcome of the run; the frontend is
    opened on the file, and if it opens (and the pid file, if any, is named
    without overrunning [number] and can be written) the card counts as
    tuned. *)
Theorem file_input_is_never_tuned (st sA : mstate) :
  exec (settling_stages ++ preparing_stages) st = Continue sA ->
  reads_file sA = true ->
  let fin := final_state (main_after_config st) in
  count is_tune_it (trace fin) = count is_tune_it (trace sA) /\
  In (EvOpenFe (read_file_path (tune_p sA)) (tuner (tune_p sA)) true) (trace fin) /\
  (0 < open_fe (read_file_path (tune_p sA)) (tuner (tune_p sA)) true ->
   no_daemon sA <> 0 \/
   (templates_fit sA = true /\ fopen_ok (pid_file_path sA) "w" = true) ->
   card_tuned (tune_p fin) = 1 /\ interrupted fin = interrupted sA).
Proof.
  intros Hexec Hfile. cbv zeta. rewrite (main_from_armed _ _ Hexec).
  pose proof (tail_run sA) as Ht. cbv zeta in Ht.
  destruct (opening_events_counts sA) as (_ & _ & Ctune & _).
  destruct (pid_file_events_counts sA) as (_ & _ & Cpid).
  assert (In (EvOpenFe (read_file_path (tune_p sA)) (tuner (tune_p sA)) true)
            (opening_events sA)) as Hin.
  { unfold opening_events, frontend_path. rewrite Hfile. simpl. auto. }
  assert (frontend_path sA = read_file_path (tune_p sA)) as Epath
    by (unfold frontend_path; by rewrite Hfile).
  rewrite Epath, Hfile in Ht.
  destruct (open_fe (read_file_path (tune_p sA)) (tuner (tune_p sA)) true <=? 0)
    eqn:Eopen.
  { destruct Ht as (fin & -> & Tf & _). simpl final_state.
    destruct (trace_of_close fin) as (-> & _). rewrite Tf. simpl app.
    rewrite !count_app, Ctune.
    split; [unfold tuning_issue_events, count; simpl; lia|].
    split; [rewrite !in_app_iff; auto|]. intros; lia. }
  destruct ((no_daemon sA =? 0) && negb (templates_fit sA)) eqn:Efit.
  { destruct Ht as (v & fin & -> & _ & Tf). simpl final_state. rewrite Tf.
    rewrite !count_app, Ctune.
    split; [lia|]. split; [rewrite !in_app_iff; auto|].
    intros _ [Hd| (Hf & _)]; apply andb_prop in Efit as [E1 E2].
    - lia.
    - rewrite Hf in E2. discriminate. }
  destruct ((no_daemon sA =? 0) && negb (fopen_ok (pid_file_path sA) "w")) eqn:Epid.
  { destruct Ht as (fin & -> & Tf). simpl final_state. rewrite Tf.
    rewrite !count_app, Ctune.
    split; [unfold count; simpl; lia|].
    split; [rewrite !in_app_iff; auto|].
    intros _ [Hd| (_ & Hf)]; apply andb_prop in Epid as [E1 E2].
    - lia.
    - rewrite Hf in E2. discriminate. }
  destruct Ht as (fin & -> & Tf & If & Cf). simpl final_state.
  destruct (trace_of_close fin) as (-> & -> & ->). rewrite Tf.
  rewrite !count_app, Ctune, Cpid.
  split; [unfold tuned_events, count; simpl; lia|].
  split; [rewrite !in_app_iff; auto|]. auto.
Qed.

(** X13.  When the program daemonizes, the pid file is named without
    overrunning [number] and it cannot be created, [main] calls
    [exit (ERROR_CREATE_FILE)] right after the opening of the frontend:
    the card is not tuned, its descriptors are not closed and
    [mumudvb_close] is not called. *)
Theorem pid_file_failure_exits_before_tuning (st sA : mstate) :
  exec (settling_stages ++ preparing_stages) st = Continue sA ->
  0 < open_fe (frontend_path sA) (tuner (tune_p sA)) (reads_file sA) ->
  no_daemon sA = 0 ->
  templates_fit sA = true ->
  fopen_ok (pid_file_path sA) "w" = false ->
  exists fin,
    main_after_config st = Exit ERROR_CREATE_FILE fin /\
    trace fin =
      (trace sA ++ opening_events sA ++
       [ EvLog MSG_INFO "The pid will be written in %s";
         EvFopen (pid_file_path sA) "w" false;
         EvLog MSG_INFO "%s: %s" ])%list.
Proof.
  intros Hexec Hopen Hd Hfit Hf. rewrite (main_from_armed _ _ Hexec).
  pose proof (tail_run sA) as Ht. cbv zeta in Ht.
  assert ((open_fe (frontend_path sA) (tuner (tune_p sA)) (reads_file sA) <=? 0)
          = false) as E1 by lia.
  rewrite E1, Hd, Hfit, Hf in Ht. exact Ht.
Qed.

(** *** The run as a whole *)

Lemma no_output_run (st : mstate) :
  exec settling_stages st = Continue (settle st) ->
  has_output st = false ->
  exists fin,
    main_after_config st =
      Returned (mumudvb_close_status fin)
        (emit (EvMumudvbClose (interrupted fin)) fin) /\
    appended
      (fun e => negb (is_alarm e) && negb (card_opened e) && negb (card_closed e))
      st fin.
Proof.
  intros Hs Ho. rewrite (run_cases st Hs), Ho.
  unfold mumudvb_close_goto, get_interrupted.
  eexists. split; [reflexivity|].
  destruct (settle_effect st) as (A & _).
  eapply appended_trans.
  - eapply appended_weaken; [|exact A]. by intros [].
  - generalize (settle st). intros s.
    unfold set_interrupted, log_message, emit. open_state s. cbn.
    rewrite <- app_assoc. by eexists.
Qed.

Lemma install_handlers_dispositions (st : mstate) :
  appended is_disposition st (install_handlers st).
Proof.
  assert (forall n s, appended is_disposition s (install_handler n s)) as Hone.
  { intros n s. unfold install_handler, emit.
    destruct (signal_was_ignored n); open_state s; show_appended. }
  unfold install_handlers.
  repeat (eapply appended_trans; [|apply Hone]). apply appended_refl.
Qed.

Lemma armed_run (st : mstate) :
  exec settling_stages st = Continue (settle st) ->
  has_output st = true ->
  let sA := arm_tuning_alarm (install_handlers (state_files (settle st))) in
  main_after_config st = run_stages (tuning_stages ++ closing_stages) sA /\
  steady st sA /\
  count card_opened (trace sA) = count card_opened (trace st) /\
  count card_closed (trace sA) = count card_closed (trace st).
Proof.
  intros Hs Ho sA. pose proof (armed_state st Hs Ho) as Hexec. fold sA in Hexec.
  split; [by apply main_from_armed|].
  split; [by apply (armed_steady st sA)|].
  destruct (settle_effect st) as (A1 & _).
  destruct (state_files_effect (settle st)) as (A2 & _).
  pose proof (install_handlers_dispositions (state_files (settle st))) as A3.
  destruct (arm_tuning_alarm_effect (install_handlers (state_files (settle st))))
    as (_ & T4).
  fold sA in T4.
  assert (forall Q : event -> bool,
            (forall e, is_note e = true -> Q e = false) ->
            (forall e, is_disposition e = true -> Q e = false) ->
            (forall t, Q (EvAlarm t) = false) ->
            count Q (trace sA) = count Q (trace st)) as Hcount.
  { intros Q Hn Hc Ha.
    rewrite <- (appended_count _ Q _ _ A1 Hn), <- (appended_count _ Q _ _ A2 Hn),
      <- (appended_count _ Q _ _ A3 Hc), T4.
    destruct (tuning_timeout _ =? 0); [reflexivity|].
    rewrite count_app. unfold count at 2. simpl. rewrite Ha. simpl. lia. }
  split; apply Hcount; try (by intros []); reflexivity.
Qed.

(** X14.  A run of [main] that overruns no buffer has, after the
    configuration, two ways out only: it returns the value of
    [mumudvb_close], called last and with the value of
    [get_interrupted ()]; or, when it daemonizes and an output is
    configured, it calls [exit (ERROR_CREATE_FILE)] for the pid file.  It
    never falls off its statements. *)
Theorem main_returns_through_mumudvb_close (st : mstate) :
  faultless (main_after_config st) = true ->
  (exists fin,
     main_after_config st =
       Returned (mumudvb_close_status fin)
         (emit (EvMumudvbClose (interrupted fin)) fin)) \/
  (exists fin,
     main_after_config st = Exit ERROR_CREATE_FILE fin /\
     no_daemon st = 0 /\ has_output st = true).
Proof.
  intros Hdef. pose proof (faultless_settles st Hdef) as Hs.
  destruct (has_output st) eqn:Ho.
  - destruct (armed_run st Hs Ho) as (E & (Hd & _) & _). rewrite E in *.
    set (sA := arm_tuning_alarm _) in *.
    pose proof (tail_run sA) as Ht. cbv zeta in Ht.
    destruct (_ <=? 0); [destruct Ht as (fin & ? & _); eauto|].
    destruct (no_daemon sA =? 0) eqn:End; cbn [andb] in Ht.
    + destruct (negb (templates_fit sA)).
      { destruct Ht as (v & fin & Hf & _). rewrite Hf in Hdef. discriminate. }
      destruct (negb _).
      * destruct Ht as (fin & ? & _). right. exists fin.
        repeat split; [assumption|lia].
      * destruct (reads_file sA); [destruct Ht as (fin & ? & _); eauto|].
        destruct (_ <? 0); destruct Ht as (fin & ? & _); eauto.
    + destruct (reads_file sA); [destruct Ht as (fin & ? & _); eauto|].
      destruct (_ <? 0); destruct Ht as (fin & ? & _); eauto.
  - destruct (no_output_run st Hs Ho) as (fin & ? & _). eauto.
Qed.

(** X15.  In a run of [main] that overruns no buffer, the frontend is
    opened once if an output is configured and never otherwise; whenever
    [main] returns, the card descriptors have been closed exactly as often
    as the frontend was opened.  (On the [exit] for the pid file they are
    left open.) *)
Theorem card_is_closed_when_main_returns (st : mstate) :
  faultless (main_after_config st) = true ->
  let o := main_after_config st in
  let fin := final_state o in
  let k := if has_output st then 1%nat else 0%nat in
  count card_opened (trace fin) = (count card_opened (trace st) + k)%nat /\
  ((exists v s, o = Returned v s) ->
   count card_closed (trace fin) = (count card_closed (trace st) + k)%nat) /\
  ((exists c s, o = Exit c s) ->
   count card_closed (trace fin) = count card_closed (trace st)).
Proof.
  intros Hdef. pose proof (faultless_settles st Hdef) as Hs.
  cbv zeta. destruct (has_output st) eqn:Ho.
  - destruct (armed_run st Hs Ho) as (E & _ & Co & Cc). rewrite E in *.
    set (sA := arm_tuning_alarm _) in *. rewrite <- Co, <- Cc.
    pose proof (tail_run sA) as Ht. cbv zeta in Ht.
    destruct (opening_events_counts sA) as (Oo & Oc & _).
    destruct (pid_file_events_counts sA) as (Po & Pc & _).
    assert (forall fin evs (issue : bool),
              count card_opened evs = 0%nat -> count card_closed evs = 0%nat ->
              trace fin =
                (trace sA ++ opening_events sA ++ evs ++
                 (if issue then tuning_issue_events else tuned_events))%list ->
              let fin' := emit (EvMumudvbClose (interrupted fin)) fin in
              count card_opened (trace fin') = (count card_opened (trace sA) + 1)%nat /\
              count card_closed (trace fin') = (count card_closed (trace sA) + 1)%nat)
      as Hret.
    { intros fin evs issue E1 E2 Tf. cbv zeta.
      destruct (trace_of_close fin) as (-> & _). rewrite Tf.
      rewrite !count_app, Oo, Oc, E1, E2.
      destruct issue; unfold tuning_issue_events, tuned_events, count; simpl; lia. }
    assert (forall evs, count card_opened evs = 0%nat ->
              count card_opened (evs ++ [EvTuneIt]) = 0%nat) as Ho1
      by (intros evs E'; rewrite count_app, E'; reflexivity).
    assert (forall evs, count card_closed evs = 0%nat ->
              count card_closed (evs ++ [EvTuneIt]) = 0%nat) as Hc1
      by (intros evs E'; rewrite count_app, E'; reflexivity).
    destruct (_ <=? 0).
    { destruct Ht as (fin & -> & Tf & _). simpl final_state.
      destruct (Hret fin [] true) as (-> & ->); try reflexivity; [exact Tf|].
      split; [reflexivity|]. split; [reflexivity|]. intros (c & s & Hx). discriminate. }
    destruct (_ && negb (templates_fit sA)).
    { destruct Ht as (v & fin & Hf & _). rewrite Hf in Hdef. discriminate. }
    destruct (_ && _).
    { destruct Ht as (fin & -> & Tf). simpl final_state. rewrite Tf.
      rewrite !count_app, Oo, Oc.
      split; [unfold count; simpl; lia|].
      split; [intros (v & s & Hx); discriminate|].
      intros _. unfold count. simpl. lia. }
    destruct (reads_file sA).
    { destruct Ht as (fin & -> & Tf & _). simpl final_state.
      destruct (Hret fin (pid_file_events sA) false) as (-> & ->); auto.
      split; [reflexivity|]. split; [reflexivity|]. intros (c & s & Hx). discriminate. }
    destruct (_ <? 0); destruct Ht as (fin & -> & Tf & _); simpl final_state;
      [destruct (Hret fin (pid_file_events sA ++ [EvTuneIt])%list true) as (-> & ->)
      |destruct (Hret fin (pid_file_events sA ++ [EvTuneIt])%list false) as (-> & ->)];
      auto;
      (split; [reflexivity|]; split; [reflexivity|]; intros (c & s & Hx); discriminate).
  - destruct (no_output_run st Hs Ho) as (fin & -> & A). simpl final_state.
    destruct (trace_of_close fin) as (-> & _). rewrite !count_app.
    rewrite (appended_count _ card_opened _ _ A),
      (appended_count _ card_closed _ _ A).
    + unfold count. simpl. split; [lia|]. split; [intros; lia|].
      intros (c & s & Hx). discriminate.
    + intros e He. apply andb_prop in He as [_ He]. by destruct (card_closed e).
    + intros e He. apply andb_prop in He as [He _]. apply andb_prop in He as [_ He].
      by destruct (card_opened e).
Qed.

(** X16.  In a run of [main] that overruns no buffer, [alarm] is
    called at most once: once when an output is configured and the tuning
    timeout is not 0, never otherwise (a timeout of 0 switches the
    supervision of the tuning off). *)
Theorem alarm_needs_timeout_and_output (st : mstate) :
  faultless (main_after_config st) = true ->
  alarms (trace (final_state (main_after_config st))) =
  (alarms (trace st) +
   (if has_output st && nonzero (tuning_timeout (tune_p st)) then 1 else 0))%nat.
Proof.
  intros Hdef. pose proof (faultless_settles st Hdef) as Hs.
  destruct (has_output st) eqn:Ho; cbn [andb].
  - rewrite (run_cases st Hs), Ho.
    destruct (rest_of_run_effect (state_files (settle st))) as (_ & _ & _ & ->).
    destruct (settle_effect st) as (A1 & (W1 & _) & _).
    destruct (state_files_effect (settle st)) as (A2 & W2 & _).
    apply appended_weaken with (Q := no_alarm) in A1;
      [|intros e He; apply calm_no_alarm, note_calm, He].
    apply appended_weaken with (Q := no_alarm) in A2;
      [|intros e He; apply calm_no_alarm, note_calm, He].
    rewrite (appended_alarms _ _ A2), (appended_alarms _ _ A1).
    rewrite W1 in W2. apply watched_eq in W2 as (_ & _ & _ & -> & _).
    unfold nonzero. by destruct (tuning_timeout (tune_p st) =? 0).
  - destruct (no_output_run st Hs Ho) as (fin & -> & A). simpl final_state.
    destruct (trace_of_close fin) as (-> & _).
    apply appended_weaken with (Q := no_alarm) in A.
    + unfold alarms in *. rewrite List.filter_app, List.length_app.
      pose proof (appended_alarms _ _ A) as Hal. unfold alarms in Hal.
      rewrite Hal. simpl. lia.
    + intros e He. apply andb_prop in He as [He _]. apply andb_prop in He as [He _].
      exact He.
Qed.

(** X17.  Handlers are installed for [SIGALRM], [SIGUSR1], [SIGUSR2]
    and [SIGHUP], in this order and for no other signal; a signal that was
    ignored when the program started is set back to ignored right after,
    so that the handler never runs for it. *)
Theorem ignored_signals_stay_ignored (st : mstate) :
  trace (install_handlers st) =
  (trace st ++
   flat_map
     (fun signum =>
        EvSignal signum ::
        (if signal_was_ignored signum then [EvSignalIgn signum] else []))
     [SIGALRM; SIGUSR1; SIGUSR2; SIGHUP])%list.
Proof.
  assert (forall n s,
            trace (install_handler n s) =
            (trace s ++ EvSignal n ::
               (if signal_was_ignored n then [EvSignalIgn n] else []))%list) as Hone.
  { intros n s. unfold install_handler, emit.
    destruct (signal_was_ignored n); destruct s; cbn;
      rewrite <- ?app_assoc; reflexivity. }
  unfold install_handlers. rewrite !Hone. cbn [flat_map].
  destruct (signal_was_ignored SIGALRM), (signal_was_ignored SIGUSR1),
    (signal_was_ignored SIGUSR2), (signal_was_ignored SIGHUP);
    simpl; rewrite <- !app_assoc; reflexivity.
Qed.

(** *** Settings derived from the configuration *)

Lemma multicast_switches_off (s0 : mstate) :
  multicast (multi_p (multicast_switches s0)) = 0 ->
  rtp_header (multi_p (multicast_switches s0)) = 0 /\
  (OPTION_OFF <> OPTION_ON -> sap (sap_p (multicast_switches s0)) <> OPTION_ON).
Proof.
  unfold multicast_switches, upd_multi_p, log_message, emit, nonzero.
  open_state s0. cbn.
  repeat (split_ifs; cbn in * ); intros Hm; (split; [lia|]); intros Hne; lia.
Qed.

(** X18.  Once the configuration is settled, multicast is off when the
    TTL is 0 and as configured otherwise; and whenever it is off, the RTP
    header is off too and SAP announces are not on, whatever the file and
    the autoconfiguration asked for. *)
Theorem no_multicast_disables_rtp_and_sap (st : mstate) :
  (ttl (multi_p st) = 0 -> multicast (multi_p (settle st)) = 0) /\
  (ttl (multi_p st) <> 0 -> multicast (multi_p (settle st)) = multicast (multi_p st)) /\
  (multicast (multi_p (settle st)) = 0 ->
   rtp_header (multi_p (settle st)) = 0 /\
   (OPTION_OFF <> OPTION_ON -> sap (sap_p (settle st)) <> OPTION_ON)).
Proof.
  destruct (settle_effect st) as (_ & _ & _ & Hm).
  split; [intros Ht; rewrite Hm; by rewrite Ht|].
  split; [intros Ht; rewrite Hm; by apply Z.eqb_neq in Ht as ->|].
  unfold settle. apply multicast_switches_off.
Qed.

(** X19.  The defaults of the autoconfiguration only fill in what the
    configuration left undefined: PAT rewriting, SDT rewriting and the SAP
    announces keep a value that is not [OPTION_UNDEFINED]; undefined, the
    rewritings are switched on, and the SAP announces are switched on only
    if multicast is on.  Without autoconfiguration nothing changes. *)
Theorem autoconfiguration_keeps_user_choices (st : mstate) :
  let s := autoconf_defaults st in
  (autoconfiguration (auto_p st) = AUTOCONF_MODE_NONE -> s = st) /\
  (rewrite_pat (rewrite_vars st) <> OPTION_UNDEFINED ->
   rewrite_pat (rewrite_vars s) = rewrite_pat (rewrite_vars st)) /\
  (rewrite_sdt (rewrite_vars st) <> OPTION_UNDEFINED ->
   rewrite_sdt (rewrite_vars s) = rewrite_sdt (rewrite_vars st)) /\
  (sap (sap_p st) <> OPTION_UNDEFINED \/ multicast (multi_p st) = 0 ->
   sap (sap_p s) = sap (sap_p st)) /\
  (autoconfiguration (auto_p st) <> AUTOCONF_MODE_NONE ->
   (rewrite_pat (rewrite_vars st) = OPTION_UNDEFINED ->
    rewrite_pat (rewrite_vars s) = OPTION_ON) /\
   (rewrite_sdt (rewrite_vars st) = OPTION_UNDEFINED ->
    rewrite_sdt (rewrite_vars s) = OPTION_ON) /\
   (sap (sap_p st) = OPTION_UNDEFINED -> multicast (multi_p st) <> 0 ->
    sap (sap_p s) = OPTION_ON)).
Proof.
  cbv zeta. unfold autoconf_defaults, upd_rewrite_vars, log_message, emit, nonzero.
  open_state st. cbn.
  repeat (split_ifs; cbn in * ); repeat split; intros; try reflexivity; try lia.
Qed.



(** X21.  The signal handler touches nothing but [received_signal],
    the [interrupted] flag and the log: every other variable of the
    program, the configuration, the channel table and [card_tuned] among
    them, is the same after the handler as before, whether it returns or
    exits. *)
Theorem signal_handler_touches_only_flags (signum : Z) (st : mstate) :
  let st' := final_state (SignalHandler signum st) in
  st' =
  with_trace (trace st')
    (with_interrupted (interrupted st')
       (with_received_signal (received_signal st') st)) /\
  (received_signal st' = received_signal st \/ received_signal st' = signum).
Proof.
  cbv zeta. unfold SignalHandler, set_interrupted, get_interrupted, log_message, emit.
  open_state st. cbn. repeat (split_ifs; cbn); auto.
Qed.

End RunEdges.

(** ** The number of channels *)

Section MainEdges.
Context `{HH : Headers} `{HR : Readers} `{HX : Extern} `{HE : Environment}.

(** X22.  When the configuration has been read to its end with every
    store inside the channel array, and the settings derived from it are
    in place, the number of channels that [main] announces is the number of
    lines on which the loop reached the [new_channel] keyword; the index
    of the current channel is the last of them, and the entries of the
    array from that number on are as [memset] left them. *)
Theorem channel_count_matches_new_channel_lines
    (conf : conf_file) (st0 st s : mstate) :
  new_channel_is_mains ->
  0 <= MAX_CHANNELS ->
  read_configuration conf st0 = Continue st ->
  exec settling_stages st = Continue s ->
  let k := Z.of_nat (length (List.filter opens_channel (lines_of conf))) in
  number_of_channels (chan_p s) = k /\
  ichan st = k - 1 /\
  channels (chan_p s) = channels (chan_p st) /\
  length (channels (chan_p st)) = Z.to_nat MAX_CHANNELS /\
  (forall (j : nat) (c : mumudvb_channel_t),
     k <= Z.of_nat j -> channels (chan_p st) !! j = Some c -> c = zero_channel).
Proof.
  intros Hmine Hmax Hread Hs. cbv zeta.
  apply settling_Continue in Hs as ->.
  destruct (settle_channels st) as ((_ & _ & Hch & _) & Hn).
  assert (channels_inv st /\ unused_inv st /\
          ichan st = Z.of_nat (length (List.filter opens_channel (lines_of conf))) - 1)
    as ((Hlen & Hich) & Hun & Hi).
  { unfold read_configuration in Hread. destruct conf as [| |lines]; simpl lines_of.
    - injection Hread as <-.
      destruct (at_config_start_fields st0) as (Hc0 & _ & Hi0).
      split; [|split; [|simpl; lia]].
      + unfold channels_inv. rewrite Hc0, Hi0. simpl.
        rewrite repeat_length. split; [reflexivity|lia].
      + intros j c _. rewrite Hc0. simpl. intros Hlk.
        apply list_elem_of_lookup_2, list_elem_of_In in Hlk.
        by apply repeat_spec in Hlk.
    - discriminate.
    - pose proof (parse_config_index _ _ _ Hmine Hread) as Hidx.
      apply parse_config_inv in Hread as (Hinv & _ & Hunused).
      split; [apply Hinv, config_start_inv|].
      split; [apply Hunused, config_start_unused|].
      destruct (display_config_fields lines (at_config_start st0)) as (_ & _ & Hi1).
      destruct (at_config_start_fields st0) as (_ & _ & Hi0).
      rewrite Hidx, Hi1, Hi0. lia. }
  rewrite Hn, Hch.
  split; [lia|]. split; [exact Hi|]. split; [reflexivity|].
  split; [exact Hlen|].
  intros j c Hj. apply Hun. lia.
Qed.

End MainEdges.

(** ** The theorems at concrete inputs *)

Section Instances.

Example atoi_8192 : LibC.atoi "8192" = 8192.
Proof. reflexivity. Qed.

Example atoi_sign_and_tail : LibC.atoi " -12abc" = -12.
Proof. reflexivity. Qed.

Example atoi_wraps : LibC.atoi "4294967306" = 10.
Proof. reflexivity. Qed.

Example strtok_pids_line :
  LibC.strtok " =" "pids=100 200" = (Some "pids", "100 200").
Proof. reflexivity. Qed.

Example tokens_of_pids : LibC.tokens " =" "100  200 8192" = ["100"; "200"; "8192"].
Proof. reflexivity. Qed.

Example scan_comment : scan_line "#pids=100" = None.
Proof. reflexivity. Qed.

Example scan_without_equals : scan_line "autoconfiguration full" = None.
Proof. reflexivity. Qed.

Example scan_new_channel : scan_line "new_channel" = Some (11, "new_channel", EmptyString).
Proof. reflexivity. Qed.

Example unicast_line_is_handled :
  unicast (unic_p (final_state (process_line after_one_channel "unicast=1"))) = 1.
Proof. vm_compute. reflexivity. Qed.

Example unicast_line_without_value_exits :
  exists st', process_line after_one_channel "unicast=" = Exit ERROR_CONF st'.
Proof. eexists. vm_compute. reflexivity. Qed.

Example pmt_pid_8192_returns :
  exists st', process_line after_one_channel "pmt_pid=8192" = Returned (-1) st'.
Proof. eexists. vm_compute. reflexivity. Qed.

(** The whole of [main] on [one_channel]: the exit status and the events
    after the configuration has been displayed and read. *)
Example main_one_channel :
  exists fin,
    main (ConfLines one_channel) demo_state = Returned 0 fin /\
    skipn 6 (trace fin) =
    [EvLog MSG_INFO
       "========== End of configuration, MuMuDVB version %s is starting ==========";
     EvFopen "/var/run/mumudvb/channels_streamed_adapter0_tuner0" "w" true;
     EvFclose "/var/run/mumudvb/channels_streamed_adapter0_tuner0";
     EvFopen "/var/run/mumudvb/channels_unstreamed_adapter0_tuner0" "w" true;
     EvFclose "/var/run/mumudvb/channels_unstreamed_adapter0_tuner0";
     EvLog MSG_INFO "Streaming. Freq %f";
     EvSignal 14; EvSignal 10; EvSignal 12; EvSignal 1;
     EvAlarm 300;
     EvOpenFe "/dev/dvb/adapter%card" 0 false; EvTuneIt;
     EvLog MSG_INFO "Card %d, tuner %d tuned"; EvCloseCardFd;
     EvLog MSG_INFO "The pid will be written in %s";
     EvMumudvbClose 0].
Proof. eexists. split; vm_compute; reflexivity. Qed.

(** The numbers and [number]: nine characters fit, ten do not. *)
Example number_fits_nine_digits : number_fits 999999999 = true.
Proof. reflexivity. Qed.

Example number_overruns_ten_digits : number_fits 1000000000 = false.
Proof. reflexivity. Qed.

Example number_overruns_with_sign : number_fits (-100000000) = false.
Proof. reflexivity. Qed.

(** The whole of [main] with a server number of ten digits, when the
    program daemonizes: the pid file is never named. *)
Example main_wide_server :
  exists fin,
    main wide_server daemon_state = Fault (NumberOverflow 1234567890) fin /\
    count is_tune_it (trace fin) = 0%nat.
Proof. eexists. split; vm_compute; reflexivity. Qed.

(** C6 at [after_one_channel], where a second [new_channel] line finds an
    entry, and at [full_table], where the array is full. *)
Lemma new_channel_line_sets_almost_ready_witness :
  (ichan after_one_channel + 1 < MAX_CHANNELS /\
   exists st' c,
     process_line after_one_channel "new_channel" = Continue st' /\
     ichan st' = ichan after_one_channel + 1 /\
     channels (chan_p after_one_channel) !! Z.to_nat (ichan st') = Some zero_channel /\
     channel_ready zero_channel = 0 /\
     (NOT_READY = 0 -> channel_ready zero_channel = NOT_READY) /\
     channels (chan_p st') !! Z.to_nat (ichan st') = Some c /\
     c = with_channel_ready ALMOST_READY zero_channel /\
     channel_ready c = ALMOST_READY) /\
  (MAX_CHANNELS <= ichan full_table + 1 /\
   ichan full_table + 1 = MAX_CHANNELS /\
   exists st',
     process_line full_table "new_channel"
       = Fault (ChannelOutOfBounds MAX_CHANNELS) st' /\
     ichan st' = MAX_CHANNELS /\
     Z.of_nat (length (channels (chan_p st'))) = MAX_CHANNELS /\
     channels (chan_p st') =
       channels
         (chan_p
            (readers_outcome_state
               (run_readers "new_channel" full_table EmptyString)))).
Proof.
  split.
  - split; [vm_compute; reflexivity|].
    apply (new_channel_line_sets_almost_ready one_channel one_channel demo_state
             after_one_channel
             (readers_outcome_state
                (run_readers "new_channel" after_one_channel EmptyString))
             "new_channel" EmptyString EmptyString 11).
    + vm_compute. reflexivity.
    + vm_compute. reflexivity.
    + vm_compute. reflexivity.
    + vm_compute. discriminate.
    + vm_compute. reflexivity.
  - split; [vm_compute; discriminate|].
    apply (new_channel_line_sets_almost_ready [] full_file demo_state
             full_table
             (readers_outcome_state
                (run_readers "new_channel" full_table EmptyString))
             "new_channel" EmptyString EmptyString 11).
    + vm_compute. reflexivity.
    + vm_compute. reflexivity.
    + vm_compute. reflexivity.
    + vm_compute. discriminate.
    + vm_compute. discriminate.
Defined.

(** C3 with the 128 entries of [demo_headers]: 129 [new_channel] lines. *)
Lemma one_channel_too_many_overruns_array_witness :
  0 <= MAX_CHANNELS /\
  exists st',
    parse_config (repeat "new_channel" (S (Z.to_nat MAX_CHANNELS)))
      (display_config [] (at_config_start demo_state))
    = Fault (ChannelOutOfBounds MAX_CHANNELS) st'.
Proof.
  split; [vm_compute; discriminate|].
  apply (one_channel_too_many_overruns_array [] demo_state 11 EmptyString).
  - vm_compute. reflexivity.
  - intros s sv. eexists. eexists. reflexivity.
  - vm_compute. discriminate.
Defined.

(** C10 at [after_one_channel]: the line [t2mi_pid=9000]. *)
Lemma t2mi_pid_out_of_range_is_forced_witness :
  (LibC.atoi "9000" < 1 \/ 8192 < LibC.atoi "9000") /\
  exists st',
    process_line after_one_channel "t2mi_pid=9000" = Continue st' /\
    t2mi_pid (chan_p st') = 4096 /\
    trace st' =
      (trace after_one_channel ++
       [EvLog MSG_INFO "Demuxing T2-MI stream on pid %d as input";
        EvLog MSG_WARN "wrong t2mi pid, forced to 4096"])%list.
Proof.
  split; [right; vm_compute; reflexivity|].
  apply (t2mi_pid_out_of_range_is_forced after_one_channel
           (readers_outcome_state (run_readers "t2mi_pid" after_one_channel "9000"))
           "t2mi_pid=9000" "9000" "9000" "9000" EmptyString 8).
  - vm_compute. reflexivity.
  - vm_compute. reflexivity.
  - vm_compute. reflexivity.
  - right. vm_compute. reflexivity.
  - vm_compute. discriminate.
Defined.

(** C2 at [after_one_channel]: the line [pids=100 8192 5]. *)
Lemma pids_line_accepts_10_to_8192_witness :
  let st := after_one_channel in
  let st1 := readers_outcome_state (run_readers "pids" st "100 8192 5") in
  (forall st', process_line st "pids=100 8192 5" = Continue st' ->
     exists c, deref_c_chan st' = Some c /\
       num_pids c = Z.of_nat (length (LibC.tokens delimiteurs "100 8192 5")) /\
       forall k tok, LibC.tokens delimiteurs "100 8192 5" !! k = Some tok ->
         pids c !! k = Some (LibC.atoi tok) /\ 10 <= LibC.atoi tok <= 8192) /\
  (Exists (fun tok => LibC.atoi tok < 10 \/ 8192 < LibC.atoi tok)
     (LibC.tokens delimiteurs "100 8192 5") ->
   exists st', process_line st "pids=100 8192 5" = Exit ERROR_CONF st').
Proof.
  cbv zeta.
  apply (pids_line_accepts_10_to_8192 after_one_channel
           (readers_outcome_state (run_readers "pids" after_one_channel "100 8192 5"))
           "pids=100 8192 5" "100 8192 5" "100 8192 5" 4).
  - vm_compute. reflexivity.
  - vm_compute. reflexivity.
  - right. eexists. split; [vm_compute; reflexivity|].
    split; [reflexivity|vm_compute; reflexivity].
Defined.

(** C2, the claim as stated: 8192 is more than 13 bits hold, and the line
    [pids=8192] is accepted. *)
Lemma pid_8192_is_accepted :
  match process_line after_one_channel "pids=8192" with
  | Continue st' =>
      match deref_c_chan st' with
      | Some c => pids c !! 0%nat = Some 8192 /\ num_pids c = 1 /\ ~ 8192 <= 8191
      | None => False
      end
  | _ => False
  end.
Proof. vm_compute. split; [reflexivity|]. split; [reflexivity|]. intros E. by apply E. Qed.



(** C1 at [demo_state]. *)
Lemma tuned_card_is_closed_at_once_witness :
  0 <= iRet demo_tuned /\
  exists fin,
    main_after_config demo_state =
      Returned (mumudvb_close_status fin)
        (emit (EvMumudvbClose (interrupted fin)) fin) /\
    card_tuned (tune_p fin) = 1 /\
    interrupted fin = interrupted demo_tuned /\
    trace fin =
      (trace demo_tuned ++
       [EvLog MSG_INFO "Card %d, tuner %d tuned"; EvCloseCardFd;
        EvLog MSG_INFO "The pid will be written in %s"])%list.
Proof.
  split; [vm_compute; discriminate|].
  apply (tuned_card_is_closed_at_once demo_state demo_tuned).
  - vm_compute. reflexivity.
  - vm_compute. discriminate.
Defined.

(** C1, the claim as stated: the card opens and tunes, no interrupt is
    pending, and [main] closes the card and returns right after the
    tuning. *)
Lemma main_leaves_right_after_tuning :
  interrupted demo_state = 0 /\
  (exists fin, main (ConfLines one_channel) demo_state = Returned 0 fin) /\
  closes_card_right_after_tuning
    (trace (final_state (main (ConfLines one_channel) demo_state))).
Proof.
  split; [reflexivity|]. split; [eexists; vm_compute; reflexivity|].
  unfold closes_card_right_after_tuning.
  eexists (firstn 18 (trace (final_state (main (ConfLines one_channel) demo_state)))), 0.
  vm_compute. reflexivity.
Qed.

(** C9 at [odd_sizes]: the sizes -3 and 2 with a T2-MI pid become 20
    and 20. *)
Example odd_sizes_are_replaced :
  let st := final_state (read_configuration odd_sizes demo_state) in
  let s := adjust_buffers (autoconf_defaults (default_card st)) in
  (dvr_buffer_size (card_buffer st), max_thread_buffer_size (card_buffer st),
   t2mi_pid (chan_p st)) = (1, 2, 4096) /\
  (dvr_buffer_size (card_buffer s), max_thread_buffer_size (card_buffer s)) = (20, 20) /\
  count (fun e => match e with EvLog MSG_WARN _ => true | _ => false end) (trace s)
    = 4%nat.
Proof. cbv zeta. split; [|split]; vm_compute; reflexivity. Qed.


(** C4, the claim as stated: [SIGALRM] arrives, the card is not tuned, an
    interrupt is pending; the handler does not exit, it calls
    [set_interrupted (SIGALRM)] and returns. *)
Lemma sigalrm_with_pending_interrupt_returns :
  let st := with_interrupted 768 demo_state in
  card_tuned_ptr st = true /\ card_tuned (tune_p st) = 0 /\
  SignalHandler SIGALRM st =
    Continue
      (emit (EvSignal SIGALRM)
         (set_interrupted SIGALRM (log_message MSG_ERROR "Caught signal %d" st))) /\
  (forall st', SignalHandler SIGALRM st <> Exit ERROR_TUNE st').
Proof.
  cbv zeta. split; [reflexivity|]. split; [reflexivity|].
  split; [vm_compute; reflexivity|]. intros st' E. vm_compute in E. discriminate E.
Qed.


(** The same run: the timeout passes unnoticed, and [main] goes on to
    tune the card and to return 0. *)
Example ignored_sigalrm_is_discarded :
  let H1 := ignoring_environment in
  let sA := armed_in ignoring_environment demo_state in
  alarms (trace sA) = 1%nat /\
  card_tuned (tune_p sA) = 0 /\
  deliver SIGALRM sA = Some (Continue sA) /\
  (exists pt, during_tuning sA = Some pt /\ deliver SIGALRM pt = Some (Continue pt)) /\
  (exists fin, main_after_config demo_state = Returned 0 fin).
Proof.
  cbv zeta. split; [vm_compute; reflexivity|]. split; [vm_compute; reflexivity|].
  split; [vm_compute; reflexivity|].
  split; eexists; [split|]; vm_compute; reflexivity.
Qed.

(** With [SIGALRM] not ignored, the same timeout ends the run. *)
Example handled_sigalrm_exits :
  exists pt fin,
    during_tuning demo_armed = Some pt /\
    deliver SIGALRM pt = Some (Exit ERROR_TUNE fin).
Proof. do 2 eexists. split; vm_compute; reflexivity. Qed.

End Instances.

(** ** The properties of the loop and of the run at concrete inputs *)

Section EdgeInstances.


(** A [new_channel] line with a remark after the keyword. *)
Lemma new_channel_line_needs_no_value_witness :
  fst (LibC.strtok delimiteurs (strip_eol "new_channel # the first one"))
    = Some "new_channel" /\
  exists n saved,
    scan_line "new_channel # the first one" = Some (n, "new_channel", saved).
Proof.
  split; [reflexivity|].
  apply (new_channel_line_needs_no_value "new_channel # the first one");
    reflexivity.
Defined.

(** [pids=100] as the first line of a file. *)
Lemma channel_keyword_needs_a_channel_witness :
  let st := at_config_start demo_state in
  ichan st < 0 /\
  exists msg,
    process_line st "pids=100" = Exit ERROR_CONF (log_message MSG_ERROR msg st).
Proof.
  cbv zeta. split; [reflexivity|].
  refine (proj1 (channel_keyword_needs_a_channel (at_config_start demo_state)
                   (at_config_start demo_state) "pids=100" "pids" "100" "100" 4
                   _ _ _) _).
  - reflexivity.
  - reflexivity.
  - reflexivity.
  - right. left. reflexivity.
Defined.

(** [pmt_pid=8192] in the first channel: [main] returns -1. *)
Lemma pmt_pid_line_accepts_10_to_8191_witness :
  (LibC.atoi "8192" < 10 \/ 8191 < LibC.atoi "8192") /\
  exists st',
    process_line after_one_channel "pmt_pid=8192" = Returned (-1) st' /\
    (exists c, deref_c_chan st' = Some c /\ pmt_pid c = 8192) /\
    trace st' =
      (trace after_one_channel ++
       [EvLog MSG_ERROR "Configuration issue in pmt_pid, given PID : %d"])%list.
Proof.
  assert (exists c, deref_c_chan after_one_channel = Some c) as [c Hc]
    by (eexists; vm_compute; reflexivity).
  assert (LibC.atoi "8192" < 10 \/ 8191 < LibC.atoi "8192") as Hout
    by (right; reflexivity).
  split; [exact Hout|].
  assert (scan_line "pmt_pid=8192" = Some (7, "pmt_pid", "8192")) as Hscan
    by (vm_compute; reflexivity).
  assert (run_readers "pmt_pid" after_one_channel "8192"
          = RDeclined after_one_channel "8192") as Hrd by (vm_compute; reflexivity).
  assert (LibC.strtok delimiteurs "8192" = (Some "8192", EmptyString)) as Htok
    by (vm_compute; reflexivity).
  assert (ichan after_one_channel <= MAX_CHANNELS) as Hich
    by (vm_compute; discriminate).
  destruct (proj2 (pmt_pid_line_accepts_10_to_8191 after_one_channel
                     after_one_channel "pmt_pid=8192" "8192" "8192" "8192"
                     EmptyString 7 c Hscan Hrd Hc Htok Hich) Hout)
    as (st' & Hrun & Hd & Ht).
  exists st'. split; [exact Hrun|]. split; [|exact Ht].
  eexists. split; [exact Hd|]. by destruct c.
Defined.

(** Sixteen values on a [pids] line, each of them good. *)
Lemma pids_line_holds_fewer_than_MAX_PIDS_witness :
  MAX_PIDS <=
    Z.of_nat (length (LibC.tokens delimiteurs
                        "100 101 102 103 104 105 106 107 108 109 110 111 112 113 114 115")) /\
  Forall (fun tok => 10 <= LibC.atoi tok <= 8192)
    (LibC.tokens delimiteurs
       "100 101 102 103 104 105 106 107 108 109 110 111 112 113 114 115") /\
  exists st', process_line after_one_channel sixteen_pids = Exit ERROR_CONF st'.
Proof.
  assert (exists c, deref_c_chan after_one_channel = Some c /\
                    length (pids c) = Z.to_nat MAX_PIDS) as (c & Hc & Hlen)
    by (eexists; split; vm_compute; reflexivity).
  split; [vm_compute; discriminate|].
  split.
  { set (toks := LibC.tokens _ _). vm_compute in toks. subst toks.
    repeat (apply List.Forall_cons; [split; vm_compute; discriminate|]).
    apply List.Forall_nil. }
  assert (scan_line sixteen_pids =
          Some (4, "pids",
                "100 101 102 103 104 105 106 107 108 109 110 111 112 113 114 115"))
    as Hscan by (vm_compute; reflexivity).
  assert (run_readers "pids" after_one_channel
            "100 101 102 103 104 105 106 107 108 109 110 111 112 113 114 115"
          = RDeclined after_one_channel
              "100 101 102 103 104 105 106 107 108 109 110 111 112 113 114 115")
    as Hrd by (vm_compute; reflexivity).
  assert (0 < MAX_PIDS) as Hpos by (vm_compute; reflexivity).
  refine (proj1 (proj2 (pids_line_holds_fewer_than_MAX_PIDS after_one_channel
                          after_one_channel sixteen_pids _ _ 4 c Hscan Hrd
                          Hc Hlen Hpos)) _).
  vm_compute. discriminate.
Defined.

(** A name of 42 characters where [MAX_NAME_LEN] is 32. *)
Lemma name_line_stores_bounded_name_witness :
  exists st' c',
    process_line after_one_channel
      "name=A very long channel name that does not fit" = Continue st' /\
    deref_c_chan st' = Some c' /\
    name c' = "A very long channel name that d" /\
    user_name c' = name c' /\
    Z.of_nat (String.length (name c')) <= 31.
Proof.
  assert (exists c, deref_c_chan after_one_channel = Some c) as [c Hc]
    by (eexists; vm_compute; reflexivity).
  assert (scan_line "name=A very long channel name that does not fit"
          = Some (4, "name", "A very long channel name that does not fit"))
    as Hscan by (vm_compute; reflexivity).
  assert (run_readers "name" after_one_channel
            "A very long channel name that does not fit"
          = RDeclined after_one_channel "A very long channel name that does not fit")
    as Hrd by (vm_compute; reflexivity).
  assert (LibC.strtok "=" "A very long channel name that does not fit"
          = (Some "A very long channel name that does not fit", EmptyString))
    as Htext by (vm_compute; reflexivity).
  assert (LibC.strtok (String LF EmptyString)
            "A very long channel name that does not fit"
          = (Some "A very long channel name that does not fit", EmptyString))
    as Hnm by (vm_compute; reflexivity).
  assert (ichan after_one_channel <= MAX_CHANNELS) as Hich
    by (vm_compute; discriminate).
  destruct (name_line_stores_bounded_name after_one_channel after_one_channel
              _ _ _ _ _ _ _ _ c Hscan Hrd Hc Htext Hnm Hich)
    as (st' & c' & Hrun & Hd & Hn & Hu & _ & Hl & _).
  exists st', c'. split; [exact Hrun|]. split; [exact Hd|].
  split; [rewrite Hn; vm_compute; reflexivity|]. split; [exact Hu|exact Hl].
Defined.

(** [check_cc=] without a value. *)
Lemma keyword_without_value_dereferences_null_witness :
  In "check_cc" keywords_with_value /\
  process_line after_one_channel "check_cc=" = Fault NullString after_one_channel.
Proof.
  assert (In "check_cc" keywords_with_value) as Hin
    by (unfold keywords_with_value; simpl; tauto).
  split; [exact Hin|].
  apply (keyword_without_value_dereferences_null after_one_channel after_one_channel
           "check_cc=" "check_cc" EmptyString EmptyString 8);
    [vm_compute; reflexivity|vm_compute; reflexivity|exact Hin|vm_compute; reflexivity].
Defined.

(** A keyword that nobody knows. *)
Lemma unknown_keyword_only_warns_witness :
  ~ In "colour" keywords_of_main /\
  process_line after_one_channel "colour=blue" =
  Continue
    (log_message MSG_WARN "Config issue : unknow symbol : %s" after_one_channel).
Proof.
  assert (~ In "colour" keywords_of_main) as Hout.
  { unfold keywords_of_main. simpl. intros Hin.
    repeat (destruct Hin as [Hin|Hin]; [discriminate Hin|]). exact Hin. }
  split; [exact Hout|].
  assert (scan_line "colour=blue" = Some (6, "colour", "blue")) as Hscan
    by (vm_compute; reflexivity).
  assert (run_readers "colour" after_one_channel "blue"
          = RDeclined after_one_channel "blue") as Hrd by (vm_compute; reflexivity).
  rewrite (unknown_keyword_only_warns after_one_channel after_one_channel
             "colour=blue" "colour" "blue" "blue" 6 Hscan Hrd Hout).
  change (1 <? 6) with true. cbv iota. reflexivity.
Defined.

(** The frontend cannot be opened. *)
Lemma frontend_failure_skips_tuning_witness :
  let sA := armed_in failing_environment demo_state in
  exists fin,
    main_after_config (H1 := failing_environment) demo_state =
      Returned (mumudvb_close_status fin)
        (emit (EvMumudvbClose (interrupted fin)) fin) /\
    trace fin =
      (trace sA ++
       [ EvOpenFe "/dev/dvb/adapter%card" 0 false;
         EvLog MSG_INFO "Tuning issue, card %d"; EvCloseCardFd;
         EvSetInterrupted (Z.shiftl ERROR_TUNE 8) ])%list /\
    interrupted fin = Z.shiftl ERROR_TUNE 8 /\
    card_tuned (tune_p fin) = 0.
Proof.
  cbv zeta.
  destruct (frontend_failure_skips_tuning (HE := failing_environment) demo_state
              (armed_in failing_environment demo_state))
    as (fin & Hrun & Ht & Hi & Hc).
  - vm_compute. reflexivity.
  - vm_compute. discriminate.
  - exists fin. split; [exact Hrun|].
    split; [rewrite Ht; vm_compute; reflexivity|].
    split; [rewrite Hi; vm_compute; reflexivity|rewrite Hc; vm_compute; reflexivity].
Defined.

(** The frontend opens and [tune_it] fails. *)
Lemma tune_failure_closes_card_witness :
  let sA := armed_in untunable_environment demo_state in
  exists fin,
    main_after_config (H1 := untunable_environment) demo_state =
      Returned (mumudvb_close_status fin)
        (emit (EvMumudvbClose (interrupted fin)) fin) /\
    trace fin =
      (trace sA ++
       [ EvOpenFe "/dev/dvb/adapter%card" 0 false; EvTuneIt;
         EvLog MSG_INFO "Tuning issue, card %d"; EvCloseCardFd;
         EvSetInterrupted (Z.shiftl ERROR_TUNE 8) ])%list /\
    interrupted fin = Z.shiftl ERROR_TUNE 8 /\
    card_tuned (tune_p fin) = 0.
Proof.
  cbv zeta.
  destruct (tune_failure_closes_card (HE := untunable_environment) demo_state
              (armed_in untunable_environment demo_state))
    as (fin & Hrun & Ht & Hi & Hc).
  - vm_compute. reflexivity.
  - vm_compute. reflexivity.
  - vm_compute. reflexivity.
  - left. vm_compute. discriminate.
  - vm_compute. reflexivity.
  - exists fin. split; [exact Hrun|].
    split; [rewrite Ht; vm_compute; reflexivity|].
    split; [rewrite Hi; vm_compute; reflexivity|rewrite Hc; vm_compute; reflexivity].
Defined.

(** A recorded stream as input. *)
Lemma file_input_is_never_tuned_witness :
  let sA := armed_in demo_environment file_state in
  let fin := final_state (main_after_config file_state) in
  reads_file sA = true /\
  count is_tune_it (trace fin) = count is_tune_it (trace sA) /\
  In (EvOpenFe "/srv/capture.ts" 0 true) (trace fin) /\
  card_tuned (tune_p fin) = 1.
Proof.
  cbv zeta.
  assert (reads_file (armed_in demo_environment file_state) = true) as Hfile
    by (vm_compute; reflexivity).
  split; [exact Hfile|].
  assert (exec (settling_stages ++ preparing_stages) file_state
          = Continue (armed_in demo_environment file_state)) as Hexec
    by (vm_compute; reflexivity).
  destruct (file_input_is_never_tuned file_state
              (armed_in demo_environment file_state) Hexec Hfile)
    as (Hcount & Hin & Htuned).
  assert (read_file_path (tune_p (armed_in demo_environment file_state))
          = "/srv/capture.ts") as Epath by (vm_compute; reflexivity).
  assert (tuner (tune_p (armed_in demo_environment file_state)) = 0) as Etuner
    by (vm_compute; reflexivity).
  rewrite Epath, Etuner in Hin, Htuned.
  split; [exact Hcount|]. split; [exact Hin|].
  apply Htuned; [vm_compute; reflexivity|left; vm_compute; discriminate].
Defined.

(** The program daemonizes and no file can be created. *)
Lemma pid_file_failure_exits_before_tuning_witness :
  let sA := armed_in readonly_environment daemon_state in
  no_daemon sA = 0 /\
  templates_fit sA = true /\
  exists fin,
    main_after_config (H1 := readonly_environment) daemon_state
      = Exit ERROR_CREATE_FILE fin /\
    trace fin =
      (trace sA ++
       [ EvOpenFe "/dev/dvb/adapter%card" 0 false;
         EvLog MSG_INFO "The pid will be written in %s";
         EvFopen "/var/run/mumudvb/mumudvb_adapter%card_tuner%tuner.pid" "w" false;
         EvLog MSG_INFO "%s: %s" ])%list.
Proof.
  cbv zeta. split; [vm_compute; reflexivity|]. split; [vm_compute; reflexivity|].
  destruct (pid_file_failure_exits_before_tuning (HE := readonly_environment)
              daemon_state (armed_in readonly_environment daemon_state))
    as (fin & Hrun & Ht).
  - vm_compute. reflexivity.
  - vm_compute. reflexivity.
  - vm_compute. reflexivity.
  - vm_compute. reflexivity.
  - vm_compute. reflexivity.
  - exists fin. split; [exact Hrun|]. rewrite Ht. vm_compute. reflexivity.
Defined.

(** The whole run at [demo_state], and when the program daemonizes and
    no file can be created. *)
Lemma main_returns_through_mumudvb_close_witness :
  faultless (main_after_config demo_state) = true /\
  ((exists fin,
      main_after_config demo_state =
        Returned (mumudvb_close_status fin)
          (emit (EvMumudvbClose (interrupted fin)) fin)) \/
   (exists fin,
      main_after_config demo_state = Exit ERROR_CREATE_FILE fin /\
      no_daemon demo_state = 0 /\ has_output demo_state = true)).
Proof.
  assert (faultless (main_after_config demo_state) = true) as Hdef
    by (vm_compute; reflexivity).
  split; [exact Hdef|].
  exact (main_returns_through_mumudvb_close demo_state Hdef).
Defined.

Lemma card_is_closed_when_main_returns_witness :
  faultless (main_after_config demo_state) = true /\
  let o := main_after_config demo_state in
  let fin := final_state o in
  let k := if has_output demo_state then 1%nat else 0%nat in
  count card_opened (trace fin) = (count card_opened (trace demo_state) + k)%nat /\
  ((exists v s, o = Returned v s) ->
   count card_closed (trace fin) = (count card_closed (trace demo_state) + k)%nat) /\
  ((exists c s, o = Exit c s) ->
   count card_closed (trace fin) = count card_closed (trace demo_state)).
Proof.
  assert (faultless (main_after_config demo_state) = true) as Hdef
    by (vm_compute; reflexivity).
  split; [exact Hdef|].
  exact (card_is_closed_when_main_returns demo_state Hdef).
Defined.

Lemma alarm_needs_timeout_and_output_witness :
  faultless (main_after_config demo_state) = true /\
  alarms (trace (final_state (main_after_config demo_state))) =
  (alarms (trace demo_state) +
   (if has_output demo_state && nonzero (tuning_timeout (tune_p demo_state))
    then 1 else 0))%nat.
Proof.
  assert (faultless (main_after_config demo_state) = true) as Hdef
    by (vm_compute; reflexivity).
  split; [exact Hdef|].
  exact (alarm_needs_timeout_and_output demo_state Hdef).
Defined.


(** Two channels in the file. *)
Lemma channel_count_matches_new_channel_lines_witness :
  let st := final_state (read_configuration two_channels demo_state) in
  0 <= MAX_CHANNELS /\
  exec settling_stages st = Continue (settle st) /\
  number_of_channels (chan_p (settle st)) = 2 /\
  ichan st = 1 /\
  channels (chan_p st) !! 2%nat = Some zero_channel.
Proof.
  cbv zeta. split; [vm_compute; discriminate|].
  assert (exec settling_stages (final_state (read_configuration two_channels demo_state))
          = Continue (settle (final_state (read_configuration two_channels demo_state))))
    as Hs by (vm_compute; reflexivity).
  split; [exact Hs|].
  destruct (channel_count_matches_new_channel_lines two_channels demo_state
              (final_state (read_configuration two_channels demo_state))
              (settle (final_state (read_configuration two_channels demo_state))))
    as (Hn & Hi & _ & _ & Hz).
  - intros s sv. eexists. eexists. reflexivity.
  - vm_compute. discriminate.
  - vm_compute. reflexivity.
  - exact Hs.
  - split; [rewrite Hn; vm_compute; reflexivity|].
    split; [rewrite Hi; vm_compute; reflexivity|]. vm_compute. reflexivity.
Defined.

(** The properties without hypotheses, at [demo_state]. *)

Example strip_eol_keeps_carriage_return :
  strip_eol ("name=One" ++ String CR (String LF EmptyString))
  = "name=One" ++ String CR EmptyString.
Proof. reflexivity. Qed.

Example demo_run_opens_and_closes_once :
  let fin := final_state (main_after_config demo_state) in
  count card_opened (trace fin) = 1%nat /\ count card_closed (trace fin) = 1%nat /\
  alarms (trace fin) = 1%nat.
Proof. vm_compute. auto. Qed.

Example mute_run_never_opens :
  let fin := final_state (main_after_config mute_state) in
  count card_opened (trace fin) = 0%nat /\ count card_closed (trace fin) = 0%nat /\
  alarms (trace fin) = 0%nat.
Proof. vm_compute. auto. Qed.

End EdgeInstances.
